(** * P&L field normalisation: a shallow embedding of
      [backend/api/document_analysis.py] and
      [backend/api/document_analysis_complete.py].

    The development is organised as follows.
    - [Py]: the fragment of Python the two modules rely on: [str] methods
      ([lower], [strip], [replace], the [in] test), [float()] applied to a
      string, the regular expression of the field mapper, insertion-ordered
      dictionaries and the dynamic values that flow through the code.
    - [Env]: the effect the code has besides its return value: logging.
    - [Complete]: [document_analysis_complete.py].
    - [Active]: [document_analysis.py], the module [main.py] mounts.
    - the properties of the specification, one theorem each.

    Text is ASCII: [str] is modelled by [string], one character per byte.
    Floats are IEEE-754 binary64 values, represented by [spec_float] with
    [prec = 53] and [emax = 1024]. *)

From Stdlib Require Import ZArith List Bool Ascii String Lia.
From Stdlib Require Import Floats.SpecFloat Numbers.DecimalString QArith.
Import ListNotations.

Open Scope string_scope.
Open Scope Z_scope.

(* ================================================================== *)
(** * Python primitives *)
(* ================================================================== *)

Module Py.

(** ** Characters and [str] methods *)

Definition code (c : ascii) : Z := Z.of_N (N_of_ascii c).

Definition is_digit (c : ascii) : bool := (48 <=? code c) && (code c <=? 57).

Definition digit_val (c : ascii) : Z := code c - 48.

(** The ASCII characters [str.isspace] accepts: TAB, LF, VT, FF, CR,
    FS, GS, RS, US and SPACE. *)
Definition is_space (c : ascii) : bool :=
  let n := code c in
  ((9 <=? n) && (n <=? 13)) || ((28 <=? n) && (n <=? 32)).

Definition lower_char (c : ascii) : ascii :=
  let n := code c in
  if (65 <=? n) && (n <=? 90) then ascii_of_N (Z.to_N (n + 32)) else c.

(** [s.lower()] *)
Fixpoint lower (s : string) : string :=
  match s with
  | EmptyString => EmptyString
  | String c r => String (lower_char c) (lower r)
  end.

(** [s.lstrip()] *)
Fixpoint lstrip (s : string) : string :=
  match s with
  | EmptyString => EmptyString
  | String c r => if is_space c then lstrip r else s
  end.

(** [s.rstrip()] *)
Fixpoint rstrip (s : string) : string :=
  match s with
  | EmptyString => EmptyString
  | String c r =>
      match rstrip r with
      | EmptyString => if is_space c then EmptyString else String c EmptyString
      | r' => String c r'
      end
  end.

(** [s.strip()] *)
Definition strip (s : string) : string := rstrip (lstrip s).

(** [s.replace(c, "")] for a one-character [c]: the only form of
    [replace] the two modules use. *)
Fixpoint remove_char (c : ascii) (s : string) : string :=
  match s with
  | EmptyString => EmptyString
  | String d r => if Ascii.eqb c d then remove_char c r else String d (remove_char c r)
  end.

(** [p in s]: [p] occurs in [s] as a substring. *)
Fixpoint contains (p s : string) : bool :=
  String.prefix p s ||
  match s with
  | EmptyString => false
  | String _ r => contains p r
  end.

(** [any(term in s for term in terms)] *)
Definition any_in (terms : list string) (s : string) : bool :=
  existsb (fun t => contains t s) terms.

(** [bool(s)] for a string *)
Definition nonempty (s : string) : bool :=
  match s with EmptyString => false | _ => true end.

(** ** Floats *)

Definition prec : Z := 53.
Definition emax : Z := 1024.

Definition float : Type := spec_float.

(** The binary64 value nearest to [(-1)^neg * m * 10^e10] (ties to even),
    as the correctly rounded conversion behind [float(str)] returns it:
    overflow gives an infinity, underflow a zero. *)
Definition float_of_decimal (neg : bool) (m : Z) (e10 : Z) : float :=
  match m with
  | Zpos _ =>
      let num := m * 10 ^ Z.max e10 0 in
      let den := 10 ^ Z.max (- e10) 0 in
      SFdiv prec emax (S754_finite neg (Z.to_pos num) 0)
                      (S754_finite false (Z.to_pos den) 0)
  | _ => S754_zero neg
  end.

(** [float(n)] for an integer [n] *)
Definition float_of_int (n : Z) : float := binary_normalize prec emax n 0 false.

(** [bool(x)] for a float: every value but the two zeros *)
Definition float_truthy (x : float) : bool :=
  match x with S754_zero _ => false | _ => true end.

(** [math.isfinite(x)] *)
Definition is_finite (x : float) : bool :=
  match x with S754_zero _ | S754_finite _ _ _ => true | _ => false end.

(** The rational a finite float stands for. *)
Definition to_Q (x : float) : option Q :=
  match x with
  | S754_zero _ => Some 0%Q
  | S754_finite neg m e =>
      Some ((if neg then -1 else 1) * inject_Z (Zpos m) * Qpower 2 e)%Q
  | _ => None
  end.

(** [x] is finite and its value is exactly [q]. *)
Definition denotes (x : float) (q : Q) : Prop :=
  match to_Q x with
  | Some q' => Qeq q' q
  | None => False
  end.

(** *** [float(s)] for a string [s]

    The grammar is that of the language reference:
<<
    floatvalue  ::= [sign] (floatnumber | "inf" | "infinity" | "nan")
    floatnumber ::= number [("e" | "E") [sign] digitpart]
    number      ::= [digitpart] "." digitpart | digitpart ["."]
    digitpart   ::= digit (["_"] digit)*
>>
    between optional white space, letters in either case.  Anything else
    raises [ValueError]. *)

Inductive exn : Type := ValueError.

(** The digits of [s] after a first digit was read: [acc] is the number
    read so far and [n] the count of its digits.  An underscore is
    consumed only between two digits. *)
Fixpoint digits_rest (s : string) (acc : Z) (n : Z) : Z * Z * string :=
  match s with
  | String c r =>
      if is_digit c then digits_rest r (10 * acc + digit_val c) (n + 1)
      else if Ascii.eqb c "_" then
        match r with
        | String d r' =>
            if is_digit d then digits_rest r' (10 * acc + digit_val d) (n + 1)
            else (acc, n, s)
        | EmptyString => (acc, n, s)
        end
      else (acc, n, s)
  | EmptyString => (acc, n, s)
  end.

(** [digitpart], continuing the number [acc]; [None] when [s] does not
    start with a digit. *)
Definition digitpart (s : string) (acc : Z) : option (Z * Z * string) :=
  match s with
  | String c r => if is_digit c then Some (digits_rest r (10 * acc + digit_val c) 1) else None
  | EmptyString => None
  end.

(** [[sign]]: whether the sign is negative, and the rest *)
Definition sign (s : string) : bool * string :=
  match s with
  | String "+" r => (false, r)
  | String "-" r => (true, r)
  | _ => (false, s)
  end.

(** [number]: the mantissa as an integer and the count of its fractional
    digits. *)
Definition number (s : string) : option (Z * Z * string) :=
  match digitpart s 0 with
  | Some (m, _, r) =>
      match r with
      | String "." r1 =>
          match digitpart r1 m with
          | Some (m', k, r2) => Some (m', k, r2)
          | None => Some (m, 0, r1)
          end
      | _ => Some (m, 0, r)
      end
  | None =>
      match s with
      | String "." r1 =>
          match digitpart r1 0 with
          | Some (m', k, r2) => Some (m', k, r2)
          | None => None
          end
      | _ => None
      end
  end.

(** The exponent part, which must end the string. *)
Definition exponent (s : string) : option Z :=
  match s with
  | EmptyString => Some 0
  | String c r =>
      if Ascii.eqb (lower_char c) "e" then
        let '(neg, r1) := sign r in
        match digitpart r1 0 with
        | Some (e, _, EmptyString) => Some (if neg then - e else e)
        | _ => None
        end
      else None
  end.

Definition float_of_string (s : string) : exn + float :=
  let '(neg, body) := sign (strip s) in
  let word := lower body in
  if String.eqb word "inf" || String.eqb word "infinity" then inr (S754_infinity neg)
  else if String.eqb word "nan" then inr S754_nan
  else
    match number body with
    | Some (m, k, r) =>
        match exponent r with
        | Some e => inr (float_of_decimal neg m (e - k))
        | None => inl ValueError
        end
    | None => inl ValueError
    end.

(** ** Dynamic values

    The values the code passes through without looking inside, stores in
    its output, or inspects with [isinstance] and [bool()].  [PRepr x] is
    the text [str(x)] of a float and [PMoney x] the text
    [f"${x:,.2f}"]; both are kept symbolic since no decision of the code
    depends on their characters. *)

#[local] Set Warnings "-register-all".
Inductive pyval : Type :=
| PNone
| PInt (n : Z)
| PFloat (x : float)
| PStr (s : string)
| PRepr (x : float)
| PMoney (x : float)
| PList (l : list pyval)
| PDict (d : list (string * pyval)).

(** [str(v)] for the values the code applies it to: [None], numbers and
    text.  The text of a float stays symbolic. *)
Definition str (v : pyval) : pyval :=
  match v with
  | PNone => PStr "None"
  | PInt n => PStr (NilEmpty.string_of_int (Z.to_int n))
  | PFloat x => PRepr x
  | _ => v
  end.

(** [isinstance(v, (int, float))] *)
Definition is_number (v : pyval) : bool :=
  match v with PInt _ | PFloat _ => true | _ => false end.

(** [len(v)] as used in log messages *)
Definition len {A : Type} (l : list A) : pyval := PInt (Z.of_nat (List.length l)).

(** ** Insertion-ordered dictionaries

    A [dict] is the list of its items in insertion order.  Assigning to a
    key that is present replaces the value in place; assigning to a new
    key appends the item. *)

Section Dict.
Context {K V : Type}.
Variable eqb : K -> K -> bool.

Fixpoint get (k : K) (d : list (K * V)) : option V :=
  match d with
  | [] => None
  | (k', v) :: r => if eqb k k' then Some v else get k r
  end.

Fixpoint set (k : K) (v : V) (d : list (K * V)) : list (K * V) :=
  match d with
  | [] => [(k, v)]
  | (k', v') :: r => if eqb k k' then (k', v) :: r else (k', v') :: set k v r
  end.

Definition mem (k : K) (d : list (K * V)) : bool :=
  match get k d with Some _ => true | None => false end.

(** [for k, v in items: d[k] = v] *)
Definition update (d : list (K * V)) (items : list (K * V)) : list (K * V) :=
  fold_left (fun acc kv => set (fst kv) (snd kv) acc) items d.

(** The value of the last item of [items] whose key is [k]. *)
Fixpoint last_value (k : K) (items : list (K * V)) : option V :=
  match items with
  | [] => None
  | (k', v) :: r =>
      match last_value k r with
      | Some v' => Some v'
      | None => if eqb k k' then Some v else None
      end
  end.
End Dict.

(** Dictionaries keyed by [str] and by [int]. *)
Definition sdict (V : Type) : Type := list (string * V).
Definition zdict (V : Type) : Type := list (Z * V).

Definition sget {V} (k : string) (d : sdict V) : option V := get String.eqb k d.
Definition sset {V} (k : string) (v : V) (d : sdict V) : sdict V := set String.eqb k v d.
Definition zget {V} (k : Z) (d : zdict V) : option V := get Z.eqb k d.
Definition zset {V} (k : Z) (v : V) (d : zdict V) : zdict V := set Z.eqb k v d.
Definition slast {V} (k : string) (items : sdict V) : option V := last_value String.eqb k items.

(** [d[k]] on a dynamic value, [None] standing for [KeyError] *)
Definition item (k : string) (v : pyval) : option pyval :=
  match v with PDict d => sget k d | _ => None end.

(** [v[k1][k2]...] *)
Fixpoint path (ks : list string) (v : pyval) : option pyval :=
  match ks with
  | [] => Some v
  | k :: r => match item k v with Some v' => path r v' | None => None end
  end.

(** [sorted(keys, reverse=True)] for integer keys: insertion sort into
    descending order. *)
Fixpoint insert_desc (k : Z) (l : list Z) : list Z :=
  match l with
  | [] => [k]
  | h :: t => if h <? k then k :: l else h :: insert_desc k t
  end.

Definition sorted_desc (l : list Z) : list Z := fold_right insert_desc [] l.

(** ** The regular expression [[\d,]+\.?\d*]

    [re.search] returns the leftmost match, each quantifier taking as many
    characters as it can; what follows [[\d,]+] is optional, so the match
    never gives characters back. *)

Definition is_digit_or_comma (c : ascii) : bool := is_digit c || Ascii.eqb c ",".

Fixpoint take_while (p : ascii -> bool) (s : string) : string * string :=
  match s with
  | String c r =>
      if p c then let '(a, b) := take_while p r in (String c a, b) else (EmptyString, s)
  | EmptyString => (EmptyString, EmptyString)
  end.

(** The match that starts at the head of [s], when there is one. *)
Definition match_numeric (s : string) : option string :=
  match take_while is_digit_or_comma s with
  | (EmptyString, _) => None
  | (a, r) =>
      match r with
      | String "." r1 => Some (a ++ "." ++ fst (take_while is_digit r1))
      | _ => Some a
      end
  end.

(** [re.search(r'[\d,]+\.?\d*', s)], giving [m.group()] *)
Fixpoint search_numeric (s : string) : option string :=
  match match_numeric s with
  | Some m => Some m
  | None =>
      match s with
      | String _ r => search_numeric r
      | EmptyString => None
      end
  end.

End Py.

(* ================================================================== *)
(** * Logging *)
(* ================================================================== *)

(** The only effect of the two modules besides their result is logging.
    A log record carries the time at which it was emitted, read from the
    clock of the process; the world is that clock (its future readings)
    and the records written so far. *)

Module Env.

Inductive level : Type := INFO | WARNING | ERROR.

Record world : Type := mkWorld {
  clock : list Z;
  records : list (Z * level * list Py.pyval)
}.

Definition M (A : Type) : Type := world -> A * world.

Definition ret {A} (a : A) : M A := fun w => (a, w).

Definition bind {A B} (m : M A) (k : A -> M B) : M B :=
  fun w => let '(a, w') := m w in k a w'.

(** [logger.<level>(msg)]: [msg] is the list of the pieces of the
    formatted string. *)
Definition log (lv : level) (msg : list Py.pyval) : M unit :=
  fun w =>
    let now := hd 0 (clock w) in
    (tt, mkWorld (tl (clock w)) (records w ++ [(now, lv, msg)])).

(** [for x in l: body x] *)
Fixpoint for_each {A} (l : list A) (body : A -> M unit) : M unit :=
  match l with
  | [] => ret tt
  | x :: r => bind (body x) (fun _ => for_each r body)
  end.

(** [[body x for x in l]], the effects in order *)
Fixpoint for_list {A B} (l : list A) (body : A -> M B) : M (list B) :=
  match l with
  | [] => ret []
  | x :: r => bind (body x) (fun y => bind (for_list r body) (fun ys => ret (y :: ys)))
  end.

Definition value {A} (m : M A) (w : world) : A := fst (m w).

Definition idle : world := mkWorld [] [].

End Env.

Notation "x <- m ;; k" := (Env.bind m (fun x => k))
  (at level 61, m at next level, right associativity).
Notation "m ;;; k" := (Env.bind m (fun _ => k))
  (at level 61, right associativity).

(* ================================================================== *)
(** * [document_analysis_complete.py] *)
(* ================================================================== *)

Module Complete.
Import Py.

(** ** The analysis result of the provider

    An attribute the code reads behind [hasattr], through [getattr] with a
    default, or tests for truth before use is an [option].  Behind
    [hasattr] or [getattr], [None] is the attribute missing or holding
    [None]; for an attribute the code tests for truth as it reads it
    ([result.pages], [result.tables], [result.documents], [table.cells],
    [document.fields], [result.content]), [None] is the attribute holding
    [None], which is how the objects of the provider have what a
    document lacks.  An attribute the code reads directly is a plain
    field: it is there.  A value the code only copies is a [pyval]. *)
Module Sdk.
Record Word : Type := {
  word_content : pyval;
  word_polygon : option pyval;
  word_confidence : option pyval }.

Record Line : Type := {
  line_content : pyval;
  line_polygon : option pyval }.

Record Page : Type := {
  page_number : pyval;
  angle : option pyval;
  width : pyval;
  height : pyval;
  unit : pyval;
  words : option (list Word);
  lines : option (list Line) }.

Record Cell : Type := {
  kind : option pyval;
  row_index : Z;
  column_index : Z;
  content : string;
  polygon : option pyval }.

Record Table : Type := {
  row_count : pyval;
  column_count : pyval;
  cells : option (list Cell) }.

(** [value_number] is [Some PNone] when the attribute exists and holds
    [None]. *)
Record Field : Type := {
  field_content : option string;
  field_confidence : pyval;
  value_number : option pyval;
  value_string : option string }.

Record Document : Type := {
  doc_type : pyval;
  doc_confidence : pyval;
  fields : option (list (string * Field)) }.

Record AnalyzeResult : Type := {
  model_id : pyval;
  result_content : option string;
  pages : option (list Page);
  tables : option (list Table);
  documents : option (list Document) }.
End Sdk.

(** [x or d], [getattr(o, a, d)], [o.a if hasattr(o, a) else d] *)
Definition default {A} (d : A) (o : option A) : A :=
  match o with Some a => a | None => d end.

(** [for x in seq] when [seq] may be missing or [None] *)
Definition each {A} (o : option (list A)) : list A := default [] o.

(** ** The normalised tables and fields

    The dictionaries of fixed shape the code builds and then reads are
    records here, with the keys of the source as field names; [render_*]
    gives the dictionary itself. *)

Record CellData : Type := {
  kind : pyval;
  rowIndex : Z;
  columnIndex : Z;
  content : string;
  boundingBox : pyval }.

Record TableData : Type := {
  rowCount : pyval;
  columnCount : pyval;
  cells : list CellData }.

Record ExtractedField : Type := {
  type : pyval;
  value : pyval;
  valueString : pyval;
  confidence : pyval }.

Record DocData : Type := {
  docType : pyval;
  boundingRegions : option pyval;
  fields : sdict ExtractedField;
  docConfidence : pyval }.

Definition render_cell (c : CellData) : pyval :=
  PDict [("kind", kind c);
         ("rowIndex", PInt (rowIndex c));
         ("columnIndex", PInt (columnIndex c));
         ("content", PStr (content c));
         ("boundingRegions",
            PList [PDict [("pageNumber", PInt 1); ("boundingBox", boundingBox c)]])].

Definition render_table (t : TableData) : pyval :=
  PDict [("rowCount", rowCount t);
         ("columnCount", columnCount t);
         ("cells", PList (map render_cell (cells t)));
         ("boundingRegions", PList [])].

Definition render_field (f : ExtractedField) : pyval :=
  PDict [("type", type f);
         ("value", value f);
         ("valueString", valueString f);
         ("confidence", confidence f)].

Definition render_fields (d : sdict ExtractedField) : pyval :=
  PDict (map (fun kv => (fst kv, render_field (snd kv))) d).

Definition render_doc (d : DocData) : pyval :=
  PDict ([("docType", docType d)]
         ++ match boundingRegions d with
            | Some b => [("boundingRegions", b)]
            | None => []
            end
         ++ [("fields", render_fields (fields d));
             ("confidence", docConfidence d)]).

(** ** Pages and tables *)

Definition word_data (w : Sdk.Word) : pyval :=
  PDict [("content", Sdk.word_content w);
         ("boundingBox", default (PList []) (Sdk.word_polygon w));
         ("confidence", default (PFloat (float_of_int 1)) (Sdk.word_confidence w))].

Definition line_data (l : Sdk.Line) : pyval :=
  PDict [("content", Sdk.line_content l);
         ("boundingBox", default (PList []) (Sdk.line_polygon l))].

Definition page_data (p : Sdk.Page) : pyval :=
  PDict [("pageNumber", Sdk.page_number p);
         ("angle", default (PInt 0) (Sdk.angle p));
         ("width", Sdk.width p);
         ("height", Sdk.height p);
         ("unit", Sdk.unit p);
         ("words", PList (map word_data (each (Sdk.words p))));
         ("lines", PList (map line_data (each (Sdk.lines p))))].

Definition cell_data (c : Sdk.Cell) : CellData :=
  {| kind := default (PStr "content") (Sdk.kind c);
     rowIndex := Sdk.row_index c;
     columnIndex := Sdk.column_index c;
     content := Sdk.content c;
     boundingBox := default (PList []) (Sdk.polygon c) |}.

Definition table_data (t : Sdk.Table) : TableData :=
  {| rowCount := Sdk.row_count t;
     columnCount := Sdk.column_count t;
     cells := map cell_data (each (Sdk.cells t)) |}.

(** ** The field mapper (the loop over [document.fields]) *)

Definition pnl_field_mapping : sdict string :=
  [("TotalRevenue", "pnl_total_revenue");
   ("Revenue", "pnl_total_revenue");
   ("Sales", "pnl_total_revenue");
   ("GrossRevenue", "pnl_total_revenue");
   ("TotalSales", "pnl_total_revenue");
   ("CostOfGoodsSold", "pnl_cost_of_goods_sold");
   ("COGS", "pnl_cost_of_goods_sold");
   ("CostOfSales", "pnl_cost_of_goods_sold");
   ("GrossProfit", "pnl_gross_profit");
   ("GrossIncome", "pnl_gross_profit");
   ("OperatingExpenses", "pnl_operating_expenses");
   ("OpEx", "pnl_operating_expenses");
   ("TotalExpenses", "pnl_operating_expenses");
   ("NetIncome", "pnl_net_income");
   ("NetProfit", "pnl_net_income");
   ("NetEarnings", "pnl_net_income");
   ("ProfitLoss", "pnl_net_income");
   ("OtherIncome", "pnl_other_income");
   ("OtherRevenue", "pnl_other_income");
   ("OtherExpenses", "pnl_other_expenses");
   ("OtherCosts", "pnl_other_expenses")].

(** [pnl_field_mapping.get(field_name, field_name.lower())] *)
Definition mapped_field_name (field_name : string) : string :=
  default (lower field_name) (sget field_name pnl_field_mapping).

(** [field.content] as a value *)
Definition content_value (f : Sdk.Field) : pyval :=
  match Sdk.field_content f with Some s => PStr s | None => PNone end.

(** The number found in [field.value_string], when there is one:
    [re.search] on the text without its commas, then [float] of the
    match. *)
Definition number_in_string (s : string) : option pyval :=
  match search_numeric (remove_char "," s) with
  | Some m =>
      match float_of_string m with
      | inr x => Some (PFloat x)
      | inl ValueError => None
      end
  | None => None
  end.

(** The value of [field_value] when the mapper stores it. *)
Definition field_value (f : Sdk.Field) : pyval :=
  match Sdk.value_number f with
  | Some PNone | None =>
      match Sdk.value_string f with
      | Some s =>
          if nonempty s then default (content_value f) (number_in_string s)
          else content_value f
      | None => content_value f
      end
  | Some n => n
  end.

Definition extracted_field (f : Sdk.Field) : ExtractedField :=
  let v := field_value f in
  {| type := if is_number v then PStr "currency" else PStr "string";
     value := v;
     valueString := str (content_value f);
     confidence := Sdk.field_confidence f |}.

(** [doc_data["fields"]] after the loop over [document.fields.items()] *)
Definition map_fields (items : list (string * Sdk.Field)) : sdict ExtractedField :=
  fold_left
    (fun acc item => sset (mapped_field_name (fst item)) (extracted_field (snd item)) acc)
    items [].

Definition doc_data (d : Sdk.Document) : DocData :=
  {| docType := Sdk.doc_type d;
     boundingRegions := Some (PList []);
     fields := map_fields (each (Sdk.fields d));
     docConfidence := Sdk.doc_confidence d |}.

(** ** [_extract_pnl_from_tables] *)

(** [table_data]: row index to (column index to stripped text), both in
    order of first appearance. *)
Definition add_cell (grid : zdict (zdict string)) (c : CellData) : zdict (zdict string) :=
  let row := default [] (zget (rowIndex c) grid) in
  zset (rowIndex c) (zset (columnIndex c) (strip (content c)) row) grid.

Definition build_grid (cs : list CellData) : zdict (zdict string) :=
  fold_left add_cell cs [].

(** The conversion of a cell text: [$] and [,] removed, then [float]. *)
Definition cell_number (text : string) : exn + float :=
  float_of_string (strip (remove_char "," (remove_char "$" text))).

(** The loop over [sorted(row_data.keys(), reverse=True)]: [cols] are the
    keys still to visit. *)
Fixpoint scan_columns (row_data : zdict string) (cols : list Z) : option float :=
  match cols with
  | [] => None
  | col_idx :: rest =>
      let text := default "" (zget col_idx row_data) in
      if (col_idx >? 0) && nonempty (strip text) then
        match cell_number text with
        | inr v => Some v
        | inl ValueError => scan_columns row_data rest
        end
      else scan_columns row_data rest
  end.

Definition row_value (row_data : zdict string) : option float :=
  scan_columns row_data (sorted_desc (map fst row_data)).

(** The [if]/[elif] chain on the label. *)
Definition pnl_key (label : string) : option string :=
  if any_in ["revenue"; "sales"; "income"] label && negb (contains "net" label)
  then Some "pnl_total_revenue"
  else if any_in ["cost of goods"; "cogs"; "cost of sales"] label
  then Some "pnl_cost_of_goods_sold"
  else if contains "gross profit" label
  then Some "pnl_gross_profit"
  else if any_in ["operating expense"; "total expense"] label
  then Some "pnl_operating_expenses"
  else if any_in ["net income"; "net profit"; "net earnings"] label
  then Some "pnl_net_income"
  else None.

Definition table_confidence : float := float_of_decimal false 8 (-1).

Definition currency_field (v : float) : ExtractedField :=
  {| type := PStr "currency";
     value := PFloat v;
     valueString := str (PFloat v);
     confidence := PFloat table_confidence |}.

(** What a row contributes: the canonical field and the value, when the
    row has a label in column 0, a value and a known label. *)
Definition row_entry (row_data : zdict string) : option (string * float) :=
  match zget 0 row_data with
  | Some label0 =>
      match row_value row_data with
      | Some v =>
          match pnl_key (lower label0) with
          | Some key => Some (key, v)
          | None => None
          end
      | None => None
      end
  | None => None
  end.

Definition row_step (fields : sdict ExtractedField) (row : Z * zdict string)
  : sdict ExtractedField :=
  match row_entry (snd row) with
  | Some (key, v) => sset key (currency_field v) fields
  | None => fields
  end.

Definition table_step (fields : sdict ExtractedField) (t : TableData)
  : sdict ExtractedField :=
  match cells t with
  | [] => fields
  | cs => fold_left row_step (build_grid cs) fields
  end.

(** No statement of the body raises on tables of this type, so that the
    [except] clause of the source, which returns the fields found so far,
    is never entered. *)
Definition _extract_pnl_from_tables (tables : list TableData) : sdict ExtractedField :=
  fold_left table_step tables [].

(** ** [_process_azure_result] *)

Import Env.

Definition log_field (item : string * Sdk.Field) : M unit :=
  log INFO [PStr "Found field: "; PStr (fst item); PStr " = ";
            content_value (snd item); PStr " (confidence: ";
            Sdk.field_confidence (snd item); PStr ")"].

(** The body of the loop over [enumerate(result.documents)].  The field
    loop logs each field before it stores it; the records are emitted
    here in the same order, and the stored fields are [doc_data]. *)
Definition process_document (entry : Z * Sdk.Document) : M DocData :=
  let '(idx, document) := entry in
  log INFO [PStr "Processing document #"; PInt (idx + 1); PStr " of type: ";
            Sdk.doc_type document] ;;;
  log INFO [PStr "Document confidence: "; Sdk.doc_confidence document] ;;;
  for_each (each (Sdk.fields document)) log_field ;;;
  ret (doc_data document).

(** [enumerate(l)] *)
Fixpoint enumerate_from {A} (i : Z) (l : list A) : list (Z * A) :=
  match l with
  | [] => []
  | x :: r => (i, x) :: enumerate_from (i + 1) r
  end.

Definition enumerate {A} (l : list A) : list (Z * A) := enumerate_from 0 l.

Definition synthetic_document (tables : list TableData) : DocData :=
  {| docType := PStr "prebuilt:layout";
     boundingRegions := None;
     fields := _extract_pnl_from_tables tables;
     docConfidence := PFloat table_confidence |}.

Definition response (analyze_result : pyval) : pyval :=
  PDict [("status", PStr "succeeded");
         ("createdDateTime", PStr "2025-01-10T21:00:00Z");
         ("lastUpdatedDateTime", PStr "2025-01-10T21:00:05Z");
         ("analyzeResult", analyze_result)].

(** On a result of type [Sdk.AnalyzeResult] no statement of the body
    raises, so that the [except] clause of the source, which answers with
    the mock data, is never entered. *)
Definition _process_azure_result (result : Sdk.AnalyzeResult) : M pyval :=
  let pages := map page_data (each (Sdk.pages result)) in
  let tables := map table_data (each (Sdk.tables result)) in
  docs <- for_list (enumerate (each (Sdk.documents result))) process_document ;;
  documents <-
    match docs with
    | [] =>
        log WARNING
          [PStr "No structured documents found, creating basic field extraction from tables"] ;;;
        ret [synthetic_document tables]
    | _ => ret docs
    end ;;
  ret (response
         (PDict [("apiVersion", PStr "2023-07-31");
                 ("modelId", Sdk.model_id result);
                 ("stringIndexType", PStr "textElements");
                 ("content", PStr (default "" (Sdk.result_content result)));
                 ("pages", PList pages);
                 ("tables", PList (map render_table tables));
                 ("keyValuePairs", PList []);
                 ("documents", PList (map render_doc documents))])).

End Complete.

(* ================================================================== *)
(** * [document_analysis.py] *)
(* ================================================================== *)

Module Active.
Import Py.

(** ** The analysis result of the provider

    Every attribute this module reads is behind [hasattr], but the [key]
    and [value] of a key-value pair: [None] is the attribute missing
    (and, for the sequences the code also tests for truth, holding
    [None]).  The [cells] of a table are iterated without a test for
    truth: [None] is the attribute missing, and a table whose [cells]
    hold [None] is not of this type (it is one of [Partial.Table],
    below, on which the function raises). *)
Module Sdk.
Record Page : Type := {
  page_number : option pyval;
  angle : option pyval;
  width : option pyval;
  height : option pyval;
  unit : option pyval }.

Record Cell : Type := {
  kind : option pyval;
  row_index : option Z;
  column_index : option Z;
  content : option string }.

Record Table : Type := {
  row_count : option pyval;
  column_count : option pyval;
  cells : option (list Cell) }.

Record Element : Type := { element_content : option pyval }.

Record KeyValuePair : Type := {
  key : Element;
  value : Element;
  kvp_confidence : option pyval }.

Record Field : Type := {
  value_type : option pyval;
  field_value : option pyval;
  field_content : option pyval;
  field_confidence : option pyval }.

Record Document : Type := { fields : option (list (string * Field)) }.

Record AnalyzeResult : Type := {
  api_version : option pyval;
  model_id : option pyval;
  result_content : option pyval;
  pages : option (list Page);
  tables : option (list Table);
  key_value_pairs : option (list KeyValuePair);
  documents : option (list Document) }.
End Sdk.

Definition default {A} (d : A) (o : option A) : A :=
  match o with Some a => a | None => d end.

Definition each {A} (o : option (list A)) : list A := default [] o.

(** ** The normalised result *)

Record CellData : Type := {
  kind : pyval;
  rowIndex : Z;
  columnIndex : Z;
  content : string }.

Record TableData : Type := {
  rowCount : pyval;
  columnCount : pyval;
  cells : list CellData }.

Record ExtractedField : Type := {
  type : pyval;
  value : pyval;
  valueString : pyval;
  confidence : pyval;
  fieldContent : pyval }.

Record DocData : Type := {
  docType : pyval;
  fields : sdict ExtractedField;
  docConfidence : pyval }.

(** [analyze_result] *)
Record Analysis : Type := {
  apiVersion : pyval;
  modelId : pyval;
  resultContent : pyval;
  pages : list pyval;
  tables : list TableData;
  keyValuePairs : list pyval;
  documents : list DocData }.

Definition render_cell (c : CellData) : pyval :=
  PDict [("kind", kind c);
         ("rowIndex", PInt (rowIndex c));
         ("columnIndex", PInt (columnIndex c));
         ("content", PStr (content c));
         ("boundingRegions", PList [])].

Definition render_table (t : TableData) : pyval :=
  PDict [("rowCount", rowCount t);
         ("columnCount", columnCount t);
         ("cells", PList (map render_cell (cells t)));
         ("boundingRegions", PList [])].

Definition render_field (f : ExtractedField) : pyval :=
  PDict [("type", type f);
         ("value", value f);
         ("valueString", valueString f);
         ("confidence", confidence f);
         ("content", fieldContent f)].

Definition render_fields (d : sdict ExtractedField) : pyval :=
  PDict (map (fun kv => (fst kv, render_field (snd kv))) d).

Definition page_box : pyval :=
  let n z := PInt z in
  let half := PFloat (float_of_decimal false 85 (-1)) in
  PList [n 0; n 0; half; n 0; half; n 11; n 0; n 11].

Definition render_doc (d : DocData) : pyval :=
  PDict [("docType", docType d);
         ("boundingRegions",
            PList [PDict [("pageNumber", PInt 1); ("boundingBox", page_box)]]);
         ("fields", render_fields (fields d));
         ("confidence", docConfidence d)].

Definition render (a : Analysis) : pyval :=
  PDict [("apiVersion", apiVersion a);
         ("modelId", modelId a);
         ("stringIndexType", PStr "utf16CodeUnit");
         ("content", resultContent a);
         ("pages", PList (pages a));
         ("tables", PList (map render_table (tables a)));
         ("keyValuePairs", PList (keyValuePairs a));
         ("documents", PList (map render_doc (documents a)))].

(** ** Pages, tables and key-value pairs *)

Definition page_data (p : Sdk.Page) : pyval :=
  PDict [("pageNumber", default (PInt 1) (Sdk.page_number p));
         ("angle", default (PInt 0) (Sdk.angle p));
         ("width", default (PFloat (float_of_decimal false 85 (-1))) (Sdk.width p));
         ("height", default (PInt 11) (Sdk.height p));
         ("unit", default (PStr "inch") (Sdk.unit p));
         ("words", PList []);
         ("lines", PList [])].

Definition cell_data (c : Sdk.Cell) : CellData :=
  {| kind := default (PStr "content") (Sdk.kind c);
     rowIndex := default 0 (Sdk.row_index c);
     columnIndex := default 0 (Sdk.column_index c);
     content := default "" (Sdk.content c) |}.

Definition table_data (t : Sdk.Table) : TableData :=
  {| rowCount := default (PInt 0) (Sdk.row_count t);
     columnCount := default (PInt 0) (Sdk.column_count t);
     cells := map cell_data (each (Sdk.cells t)) |}.

Definition kvp_data (kvp : Sdk.KeyValuePair) : pyval :=
  PDict [("key", PDict [("content", default (PStr "") (Sdk.element_content (Sdk.key kvp)))]);
         ("value", PDict [("content", default (PStr "") (Sdk.element_content (Sdk.value kvp)))]);
         ("confidence", default (PFloat (float_of_decimal false 5 (-1))) (Sdk.kvp_confidence kvp))].

(** ** The fields of the documents *)

Definition pnl_keywords : list string :=
  ["revenue"; "income"; "expense"; "cost"; "profit"; "loss"].

Definition period_keywords : list string := ["period"; "date"; "reporting"].

(** The test that guards the assignment to [extracted_fields[field_name]] *)
Definition is_pnl_field (field_name : string) : bool :=
  any_in pnl_keywords (lower field_name) || any_in period_keywords (lower field_name).

Definition extracted_field (f : Sdk.Field) : ExtractedField :=
  {| type := default (PStr "string") (Sdk.value_type f);
     value :=
       match Sdk.field_value f with
       | Some v => v
       | None => default (PStr "") (Sdk.field_content f)
       end;
     valueString :=
       match Sdk.field_value f with
       | Some v => str v
       | None => default (PStr "") (Sdk.field_content f)
       end;
     confidence := default (PFloat (float_of_decimal false 5 (-1))) (Sdk.field_confidence f);
     fieldContent :=
       match Sdk.field_content f with
       | Some c => c
       | None =>
           match Sdk.field_value f with
           | Some v => str v
           | None => PStr ""
           end
       end |}.

Definition field_step (acc : sdict ExtractedField) (item : string * Sdk.Field)
  : sdict ExtractedField :=
  if is_pnl_field (fst item) then sset (fst item) (extracted_field (snd item)) acc
  else acc.

Definition document_step (acc : sdict ExtractedField) (doc : Sdk.Document)
  : sdict ExtractedField :=
  fold_left field_step (each (Sdk.fields doc)) acc.

(** [extracted_fields] after the loop over [result.documents] *)
Definition document_fields (docs : list Sdk.Document) : sdict ExtractedField :=
  fold_left document_step docs [].

(** ** [_find_adjacent_value] *)

Definition cell_number (text : string) : exn + float :=
  float_of_string (strip (remove_char "," (remove_char "$" text))).

(** The loop over the cells of the table; [cs] are the cells still to
    visit. *)
Fixpoint adjacent_scan (target_row target_col : Z) (cs : list CellData) : float :=
  match cs with
  | [] => S754_zero false
  | cell :: rest =>
      if (rowIndex cell =? target_row) && negb (columnIndex cell =? target_col) then
        match cell_number (content cell) with
        | inr v => v
        | inl ValueError => adjacent_scan target_row target_col rest
        end
      else adjacent_scan target_row target_col rest
  end.

Definition _find_adjacent_value (table : TableData) (target_cell : CellData) : float :=
  adjacent_scan (rowIndex target_cell) (columnIndex target_cell) (cells table).

(** ** [_extract_pnl_from_content] *)

Definition pnl_patterns : sdict (list string) :=
  [("pnl_total_revenue", ["total revenue"; "revenue"; "sales"; "total income"; "income"]);
   ("pnl_cost_of_goods_sold", ["cost of goods sold"; "cogs"; "cost of sales"]);
   ("pnl_gross_profit", ["gross profit"; "gross income"]);
   ("pnl_operating_expenses", ["operating expenses"; "expenses"; "total expenses"]);
   ("pnl_net_income", ["net income"; "net profit"; "profit"; "net earnings"])].

Definition currency_field (v : float) : ExtractedField :=
  {| type := PStr "currency";
     value := PFloat v;
     valueString := str (PFloat v);
     confidence := PFloat (float_of_decimal false 7 (-1));
     fieldContent := PMoney v |}.

(** The loop over the patterns of one field: it ends at the first pattern
    found in the cell text for which the adjacent value is true. *)
Fixpoint match_patterns (table : TableData) (cell : CellData) (text : string)
    (patterns : list string) : option float :=
  match patterns with
  | [] => None
  | pattern :: rest =>
      if contains pattern text then
        let v := _find_adjacent_value table cell in
        if float_truthy v then Some v else match_patterns table cell text rest
      else match_patterns table cell text rest
  end.

Definition pattern_step (table : TableData) (cell : CellData)
    (acc : sdict ExtractedField) (entry : string * list string) : sdict ExtractedField :=
  match match_patterns table cell (lower (content cell)) (snd entry) with
  | Some v => sset (fst entry) (currency_field v) acc
  | None => acc
  end.

Definition cell_step (table : TableData) (acc : sdict ExtractedField) (cell : CellData)
  : sdict ExtractedField :=
  fold_left (pattern_step table cell) pnl_patterns acc.

Definition table_step (acc : sdict ExtractedField) (table : TableData)
  : sdict ExtractedField :=
  fold_left (cell_step table) (cells table) acc.

(** [extracted_fields] after the loop over the tables *)
Definition content_fields (tables : list TableData) : sdict ExtractedField :=
  fold_left table_step tables [].

Import Env.

Definition _extract_pnl_from_content (analyze_result : Analysis) : M (sdict ExtractedField) :=
  let extracted_fields := content_fields (tables analyze_result) in
  match extracted_fields with
  | [] => log WARNING [PStr "No P&L data extracted from document"] ;;; ret []
  | _ => ret extracted_fields
  end.

(** ** [_process_azure_result] *)

Definition response (analyze_result : pyval) : pyval :=
  PDict [("status", PStr "succeeded");
         ("createdDateTime", PStr "2025-01-10T21:00:00Z");
         ("lastUpdatedDateTime", PStr "2025-01-10T21:00:05Z");
         ("analyzeResult", analyze_result)].

Definition with_documents (a : Analysis) (docs : list DocData) : Analysis :=
  {| apiVersion := apiVersion a;
     modelId := modelId a;
     resultContent := resultContent a;
     pages := pages a;
     tables := tables a;
     keyValuePairs := keyValuePairs a;
     documents := docs |}.

(** [analyze_result] before the documents are looked at *)
Definition adapt (result : Sdk.AnalyzeResult) : Analysis :=
  {| apiVersion := default (PStr "2024-11-30") (Sdk.api_version result);
     modelId := default (PStr "prebuilt-layout") (Sdk.model_id result);
     resultContent := default (PStr "") (Sdk.result_content result);
     pages := map page_data (each (Sdk.pages result));
     tables := map table_data (each (Sdk.tables result));
     keyValuePairs := map kvp_data (each (Sdk.key_value_pairs result));
     documents := [] |}.

(** On a result of type [Sdk.AnalyzeResult] no statement of the body
    raises, so that the [except] clause of the source, which raises an
    [HTTPException], is never entered; [Partial._process_azure_result],
    below, has the case in which it is. *)
Definition _process_azure_result (result : Sdk.AnalyzeResult) : M pyval :=
  log INFO [PStr "Processing real Azure Document Intelligence result"] ;;;
  let analyze_result := adapt result in
  let found := document_fields (each (Sdk.documents result)) in
  extracted_fields <-
    match found with
    | [] =>
        log INFO
          [PStr "No specific P&L fields found, attempting to extract from tables and content"] ;;;
        _extract_pnl_from_content analyze_result
    | _ => ret found
    end ;;
  let document_data :=
    {| docType := PStr "PNL";
       fields := extracted_fields;
       docConfidence := PFloat (float_of_decimal false 85 (-2)) |} in
  log INFO [PStr "Extracted "; len extracted_fields;
            PStr " P&L fields from Azure DI result"] ;;;
  ret (response (render (with_documents analyze_result [document_data]))).

End Active.

(* ================================================================== *)
(** * Facts about the Python primitives *)
(* ================================================================== *)

Module PyFacts.
Import Py.

Section DictFacts.
Context {K V : Type}.
Variable eqb : K -> K -> bool.
Hypothesis eqb_eq : forall a b, eqb a b = true <-> a = b.

Lemma eqb_refl k : eqb k k = true.
Proof. now apply eqb_eq. Qed.

Lemma eqb_neq a b : a <> b -> eqb a b = false.
Proof.
  intros Hab. destruct (eqb a b) eqn:E; [|reflexivity].
  apply eqb_eq in E. contradiction.
Qed.

Lemma get_set_same (k : K) (v : V) d : get eqb k (set eqb k v d) = Some v.
Proof.
  induction d as [|[k' v'] d IH]; simpl.
  - now rewrite eqb_refl.
  - destruct (eqb k k') eqn:E; simpl; rewrite E; [reflexivity|exact IH].
Qed.

Lemma get_set_other (k k' : K) (v : V) d :
  k <> k' -> get eqb k (set eqb k' v d) = get eqb k d.
Proof.
  intros Hk. induction d as [|[k2 v2] d IH]; simpl.
  - now rewrite (eqb_neq _ _ Hk).
  - destruct (eqb k' k2) eqn:E; simpl.
    + apply eqb_eq in E. subst k2. now rewrite (eqb_neq _ _ Hk).
    + now rewrite IH.
Qed.

Lemma get_update (k : K) items : forall d : list (K * V),
  get eqb k (update eqb d items) =
  match last_value eqb k items with
  | Some v => Some v
  | None => get eqb k d
  end.
Proof.
  unfold update.
  induction items as [|[k' v] items IH]; intros d; simpl; [reflexivity|].
  rewrite IH. destruct (last_value eqb k items); [reflexivity|].
  destruct (eqb k k') eqn:E.
  - apply eqb_eq in E. subst. apply get_set_same.
  - apply get_set_other. intros ->. now rewrite eqb_refl in E.
Qed.

Lemma last_value_app (k : K) (l1 l2 : list (K * V)) :
  last_value eqb k (l1 ++ l2) =
  match last_value eqb k l2 with
  | Some v => Some v
  | None => last_value eqb k l1
  end.
Proof.
  induction l1 as [|[k' v] l1 IH]; simpl.
  - now destruct (last_value eqb k l2).
  - rewrite IH. now destruct (last_value eqb k l2).
Qed.

Lemma last_value_none (k : K) (l : list (K * V)) :
  (forall v, ~ In (k, v) l) -> last_value eqb k l = None.
Proof.
  induction l as [|[k' v] l IH]; simpl; intros H; [reflexivity|].
  rewrite IH by (intros v' Hin; apply (H v'); now right).
  destruct (eqb k k') eqn:E; [|reflexivity].
  apply eqb_eq in E. subst. exfalso. apply (H v). now left.
Qed.

Lemma last_value_In (k : K) (v : V) (l : list (K * V)) :
  last_value eqb k l = Some v -> In (k, v) l.
Proof.
  induction l as [|[k' v'] l IH]; simpl; [discriminate|].
  destruct (last_value eqb k l) eqn:E.
  - intros [= ->]. right. now apply IH.
  - destruct (eqb k k') eqn:Ek; [|discriminate].
    intros [= ->]. apply eqb_eq in Ek. subst. now left.
Qed.

Lemma In_last_value (k : K) (v : V) (l : list (K * V)) :
  In (k, v) l -> exists v', last_value eqb k l = Some v'.
Proof.
  induction l as [|[k' v'] l IH]; simpl; [contradiction|].
  intros [[= -> ->]|Hin].
  - destruct (last_value eqb k l); [eauto|]. rewrite eqb_refl. eauto.
  - destruct (IH Hin) as [v2 ->]. eauto.
Qed.
End DictFacts.

Lemma string_eqb_eq (a b : string) : String.eqb a b = true <-> a = b.
Proof. apply String.eqb_eq. Qed.

Lemma sget_update {V} (k : string) (items d : sdict V) :
  sget k (update String.eqb d items) =
  match slast k items with Some v => Some v | None => sget k d end.
Proof. apply get_update, string_eqb_eq. Qed.

(** A loop that stores an entry for some of the elements it visits is an
    [update] with the entries in order. *)
Lemma fold_entries {A V} (entry : A -> list (string * V)) (l : list A) :
  forall d : sdict V,
  fold_left (fun acc x => update String.eqb acc (entry x)) l d
  = update String.eqb d (flat_map entry l).
Proof.
  unfold update.
  induction l as [|x l IH]; intros d; simpl; [reflexivity|].
  rewrite IH. now rewrite fold_left_app.
Qed.

Lemma fold_left_ext {A B} (f g : A -> B -> A) (l : list B) :
  (forall a x, f a x = g a x) -> forall a, fold_left f l a = fold_left g l a.
Proof.
  intros H. induction l as [|x l IH]; intros a; simpl; [reflexivity|].
  now rewrite H, IH.
Qed.

Lemma slast_map {V W} (g : V -> W) (k : string) (l : sdict V) :
  slast k (map (fun kv => (fst kv, g (snd kv))) l) = option_map g (slast k l).
Proof.
  unfold slast. induction l as [|[k' v] l IH]; simpl; [reflexivity|].
  rewrite IH. destruct (last_value String.eqb k l); simpl; [reflexivity|].
  now destruct (String.eqb k k').
Qed.

End PyFacts.

(* ================================================================== *)
(** * The table extractors: which row gives a field its value *)
(* ================================================================== *)

Module Rows.
Import Py PyFacts.

(** ** [document_analysis_complete.py] *)

(** The rows of the tables in the order the extractor visits them:
    table after table, and within a table in the order in which the row
    indices first appear among the cells. *)
Definition grid_rows (tables : list Complete.TableData) : list (zdict string) :=
  flat_map (fun t => map snd (Complete.build_grid (Complete.cells t))) tables.

Definition entry_of (row_data : zdict string) : list (string * float) :=
  match Complete.row_entry row_data with
  | Some e => [e]
  | None => []
  end.

(** The canonical field and value of each row that has them, in the same
    order. *)
Definition row_entries (tables : list Complete.TableData) : list (string * float) :=
  flat_map entry_of (grid_rows tables).

Definition as_fields {F} (mk : float -> F) (l : list (string * float)) : sdict F :=
  map (fun kv => (fst kv, mk (snd kv))) l.

Lemma row_step_update fields row :
  Complete.row_step fields row
  = update String.eqb fields (as_fields Complete.currency_field (entry_of (snd row))).
Proof.
  unfold Complete.row_step, entry_of.
  destruct (Complete.row_entry (snd row)) as [[k v]|]; reflexivity.
Qed.

Lemma table_step_fold fields t :
  Complete.table_step fields t
  = fold_left Complete.row_step (Complete.build_grid (Complete.cells t)) fields.
Proof.
  unfold Complete.table_step. now destruct (Complete.cells t).
Qed.

Lemma as_fields_flat_map {A F} (mk : float -> F) (f : A -> list (string * float)) l :
  as_fields mk (flat_map f l) = flat_map (fun x => as_fields mk (f x)) l.
Proof.
  unfold as_fields. induction l as [|x l IH]; simpl; [reflexivity|].
  now rewrite map_app, IH.
Qed.

Lemma flat_map_nested {A B C} (f : B -> list C) (g : A -> list B) l :
  flat_map f (flat_map g l) = flat_map (fun x => flat_map f (g x)) l.
Proof.
  induction l as [|x l IH]; simpl; [reflexivity|].
  now rewrite flat_map_app, IH.
Qed.

Lemma flat_map_of_map {A B C} (f : B -> list C) (g : A -> B) l :
  flat_map f (map g l) = flat_map (fun x => f (g x)) l.
Proof.
  induction l as [|x l IH]; simpl; [reflexivity|]. now rewrite IH.
Qed.

Lemma rows_fold_update fields grid :
  fold_left Complete.row_step grid fields
  = update String.eqb fields
      (as_fields Complete.currency_field (flat_map entry_of (map snd grid))).
Proof.
  rewrite (fold_left_ext _
             (fun a row => update String.eqb a
                (as_fields Complete.currency_field (entry_of (snd row)))))
    by apply row_step_update.
  rewrite fold_entries, as_fields_flat_map, flat_map_of_map. reflexivity.
Qed.

Lemma extract_is_update tables :
  Complete._extract_pnl_from_tables tables
  = update String.eqb [] (as_fields Complete.currency_field (row_entries tables)).
Proof.
  unfold Complete._extract_pnl_from_tables, row_entries, grid_rows.
  rewrite (fold_left_ext _
             (fun acc t => update String.eqb acc
                (as_fields Complete.currency_field
                   (flat_map entry_of
                      (map snd (Complete.build_grid (Complete.cells t))))))).
  - rewrite fold_entries, flat_map_nested, as_fields_flat_map. reflexivity.
  - intros acc t. rewrite table_step_fold. apply rows_fold_update.
Qed.

(** The field a key holds after the extraction is that of the last row,
    in the order of the visit, that gives this key a value. *)
Lemma extract_last_row key tables :
  sget key (Complete._extract_pnl_from_tables tables)
  = option_map Complete.currency_field (slast key (row_entries tables)).
Proof.
  rewrite extract_is_update, sget_update. unfold as_fields.
  rewrite slast_map. simpl.
  now destruct (slast key (row_entries tables)).
Qed.

(** ** [document_analysis.py] *)

Definition pattern_entry (table : Active.TableData) (cell : Active.CellData)
    (entry : string * list string) : list (string * float) :=
  match Active.match_patterns table cell (lower (Active.content cell)) (snd entry) with
  | Some v => [(fst entry, v)]
  | None => []
  end.

(** What a cell contributes: for each canonical field, in the order of
    [pnl_patterns], the adjacent value when a pattern of the field occurs
    in the cell text and that value is true. *)
Definition cell_entries (table : Active.TableData) (cell : Active.CellData)
  : list (string * float) :=
  flat_map (pattern_entry table cell) Active.pnl_patterns.

Definition content_entries (tables : list Active.TableData) : list (string * float) :=
  flat_map (fun t => flat_map (cell_entries t) (Active.cells t)) tables.

Lemma pattern_step_update table cell acc entry :
  Active.pattern_step table cell acc entry
  = update String.eqb acc (as_fields Active.currency_field (pattern_entry table cell entry)).
Proof.
  unfold Active.pattern_step, pattern_entry.
  now destruct (Active.match_patterns _ _ _ _).
Qed.

Lemma cell_step_update table acc cell :
  Active.cell_step table acc cell
  = update String.eqb acc (as_fields Active.currency_field (cell_entries table cell)).
Proof.
  unfold Active.cell_step, cell_entries.
  rewrite (fold_left_ext _
             (fun a e => update String.eqb a
                (as_fields Active.currency_field (pattern_entry table cell e))))
    by apply pattern_step_update.
  now rewrite fold_entries, as_fields_flat_map.
Qed.

Lemma content_fields_update tables :
  Active.content_fields tables
  = update String.eqb [] (as_fields Active.currency_field (content_entries tables)).
Proof.
  unfold Active.content_fields, content_entries.
  rewrite (fold_left_ext _
             (fun acc t => update String.eqb acc
                (as_fields Active.currency_field
                   (flat_map (cell_entries t) (Active.cells t))))).
  - now rewrite fold_entries, as_fields_flat_map.
  - intros acc t. unfold Active.table_step.
    rewrite (fold_left_ext _
               (fun a c => update String.eqb a
                  (as_fields Active.currency_field (cell_entries t c))))
      by apply cell_step_update.
    now rewrite fold_entries, as_fields_flat_map.
Qed.

Lemma content_last_cell key tables :
  sget key (Active.content_fields tables)
  = option_map Active.currency_field (slast key (content_entries tables)).
Proof.
  rewrite content_fields_update, sget_update. unfold as_fields.
  rewrite slast_map. simpl.
  now destruct (slast key (content_entries tables)).
Qed.

End Rows.

(* ================================================================== *)
(** * The value of [_process_azure_result] *)
(* ================================================================== *)

Module Results.
Import Py Env.

Lemma run_bind {A B} (m : M A) (k : A -> M B) w :
  bind m k w = k (fst (m w)) (snd (m w)).
Proof. unfold bind. now destruct (m w). Qed.

Lemma value_bind {A B} (m : M A) (k : A -> M B) w :
  value (bind m k) w = value (k (value m w)) (snd (m w)).
Proof. unfold value. now rewrite run_bind. Qed.

Lemma value_ret {A} (a : A) w : value (ret a) w = a.
Proof. reflexivity. Qed.

Lemma value_for_list {A B} (body : A -> M B) (f : A -> B) :
  (forall x w, value (body x) w = f x) ->
  forall l w, value (for_list l body) w = map f l.
Proof.
  intros H. induction l as [|x l IH]; intros w; simpl; [reflexivity|].
  rewrite value_bind, value_bind, value_ret, H, IH. reflexivity.
Qed.

(** ** [document_analysis_complete.py] *)

(** The documents of the output: those of the provider, or the synthetic
    one when there is none. *)
Definition complete_documents (result : Complete.Sdk.AnalyzeResult) : list Complete.DocData :=
  match map Complete.doc_data (Complete.each (Complete.Sdk.documents result)) with
  | [] =>
      [Complete.synthetic_document
         (map Complete.table_data (Complete.each (Complete.Sdk.tables result)))]
  | docs => docs
  end.

Definition complete_analysis (result : Complete.Sdk.AnalyzeResult) : pyval :=
  PDict [("apiVersion", PStr "2023-07-31");
         ("modelId", Complete.Sdk.model_id result);
         ("stringIndexType", PStr "textElements");
         ("content", PStr (Complete.default "" (Complete.Sdk.result_content result)));
         ("pages", PList (map Complete.page_data (Complete.each (Complete.Sdk.pages result))));
         ("tables",
            PList (map Complete.render_table
                     (map Complete.table_data (Complete.each (Complete.Sdk.tables result)))));
         ("keyValuePairs", PList []);
         ("documents", PList (map Complete.render_doc (complete_documents result)))].

Lemma value_process_document entry w :
  value (Complete.process_document entry) w = Complete.doc_data (snd entry).
Proof.
  destruct entry as [idx d]. unfold Complete.process_document.
  now rewrite !value_bind, value_ret.
Qed.

Lemma map_snd_enumerate {A} (l : list A) : forall i,
  map snd (Complete.enumerate_from i l) = l.
Proof.
  induction l as [|x l IH]; intros i; simpl; [reflexivity|]. now rewrite IH.
Qed.

Lemma complete_value result w :
  value (Complete._process_azure_result result) w
  = Complete.response (complete_analysis result).
Proof.
  unfold Complete._process_azure_result.
  rewrite value_bind.
  rewrite (value_for_list _ (fun e => Complete.doc_data (snd e)))
    by apply value_process_document.
  rewrite <- map_map. unfold Complete.enumerate. rewrite map_snd_enumerate.
  rewrite value_bind, value_ret.
  unfold complete_analysis, complete_documents.
  destruct (map Complete.doc_data (Complete.each (Complete.Sdk.documents result)));
    [rewrite value_bind, value_ret|rewrite value_ret]; reflexivity.
Qed.

(** ** [document_analysis.py] *)

(** The fields of the one document of the output: those of the provider's
    documents, or those found in the tables when there is none. *)
Definition active_fields (result : Active.Sdk.AnalyzeResult) : sdict Active.ExtractedField :=
  match Active.document_fields (Active.each (Active.Sdk.documents result)) with
  | [] => Active.content_fields (Active.tables (Active.adapt result))
  | found => found
  end.

Definition active_document (result : Active.Sdk.AnalyzeResult) : Active.DocData :=
  {| Active.docType := PStr "PNL";
     Active.fields := active_fields result;
     Active.docConfidence := PFloat (float_of_decimal false 85 (-2)) |}.

Lemma value_extract_content a w :
  value (Active._extract_pnl_from_content a) w = Active.content_fields (Active.tables a).
Proof.
  unfold Active._extract_pnl_from_content.
  destruct (Active.content_fields (Active.tables a)) eqn:E.
  - now rewrite value_bind, value_ret.
  - now rewrite value_ret.
Qed.

Lemma active_value result w :
  value (Active._process_azure_result result) w
  = Active.response
      (Active.render (Active.with_documents (Active.adapt result) [active_document result])).
Proof.
  unfold Active._process_azure_result.
  rewrite !value_bind, value_ret.
  unfold active_document, active_fields.
  destruct (Active.document_fields (Active.each (Active.Sdk.documents result))).
  - now rewrite value_bind, value_extract_content.
  - now rewrite value_ret.
Qed.

End Results.

(* ================================================================== *)
(** * The value of a row *)
(* ================================================================== *)

Module RowValue.
Import Py.

(** ** Blank text does not convert *)

Fixpoint all_space (s : string) : bool :=
  match s with
  | EmptyString => true
  | String c r => is_space c && all_space r
  end.

Lemma lstrip_all_space s : all_space (lstrip s) = true -> all_space s = true.
Proof.
  induction s as [|c r IH]; simpl; [easy|].
  destruct (is_space c) eqn:E; simpl; [exact IH|].
  now rewrite E.
Qed.

Lemma rstrip_empty s : rstrip s = EmptyString -> all_space s = true.
Proof.
  induction s as [|c r IH]; simpl; [easy|].
  destruct (rstrip r) eqn:E; [|discriminate].
  destruct (is_space c); [|discriminate].
  intros _. now apply IH.
Qed.

Lemma all_space_strip s : all_space s = true -> strip s = EmptyString.
Proof.
  unfold strip. induction s as [|c r IH]; simpl; [easy|].
  intros H. apply andb_prop in H as [Hc Hr]. rewrite Hc. now apply IH.
Qed.

Lemma all_space_remove c s : all_space s = true -> all_space (remove_char c s) = true.
Proof.
  induction s as [|d r IH]; simpl; [easy|].
  intros H. apply andb_prop in H as [Hd Hr].
  destruct (Ascii.eqb c d); simpl; [now apply IH|].
  rewrite Hd. now apply IH.
Qed.

Lemma blank_text s :
  nonempty (strip s) = false ->
  strip (remove_char "," (remove_char "$" s)) = EmptyString.
Proof.
  intros H. apply all_space_strip, all_space_remove, all_space_remove.
  apply lstrip_all_space, rstrip_empty.
  unfold strip in H. now destruct (rstrip (lstrip s)).
Qed.

Lemma complete_blank_cell text :
  nonempty (strip text) = false -> Complete.cell_number text = inl ValueError.
Proof.
  intros H. unfold Complete.cell_number. now rewrite (blank_text _ H).
Qed.

(** ** Descending order of the visited columns *)

Fixpoint descending (l : list Z) : Prop :=
  match l with
  | [] => True
  | x :: r => Forall (fun y => y <= x) r /\ descending r
  end.

Lemma In_insert_desc k x l : In x (insert_desc k l) <-> x = k \/ In x l.
Proof.
  induction l as [|h t IH]; simpl.
  - intuition.
  - destruct (h <? k); simpl; [intuition|]. rewrite IH. intuition.
Qed.

Lemma In_sorted_desc x l : In x (sorted_desc l) <-> In x l.
Proof.
  unfold sorted_desc. induction l as [|h t IH]; simpl; [tauto|].
  rewrite In_insert_desc, IH. intuition.
Qed.

Lemma insert_desc_descending k l : descending l -> descending (insert_desc k l).
Proof.
  induction l as [|h t IH]; simpl.
  - intros _. split; [constructor|exact I].
  - intros [Hh Ht]. destruct (h <? k) eqn:E; simpl.
    + apply Z.ltb_lt in E. split; [|split; assumption].
      constructor; [lia|].
      eapply Forall_impl; [|exact Hh]. simpl. intros; lia.
    + apply Z.ltb_ge in E. split; [|now apply IH].
      apply Forall_forall. intros x Hx. apply In_insert_desc in Hx as [->|Hx]; [lia|].
      rewrite Forall_forall in Hh. now apply Hh.
Qed.

Lemma sorted_desc_descending l : descending (sorted_desc l).
Proof.
  unfold sorted_desc. induction l as [|h t IH]; simpl; [exact I|].
  now apply insert_desc_descending.
Qed.

(** ** [document_analysis_complete.py]: the rightmost cell that converts *)

Definition text_at (row_data : zdict string) (col : Z) : string :=
  Complete.default "" (zget col row_data).

(** The number the scan takes from a column, when it takes one. *)
Definition taken (row_data : zdict string) (col : Z) : option float :=
  if col >? 0 then
    match Complete.cell_number (text_at row_data col) with
    | inr v => Some v
    | inl _ => None
    end
  else None.

Lemma scan_columns_cons row_data col rest :
  Complete.scan_columns row_data (col :: rest)
  = match taken row_data col with
    | Some v => Some v
    | None => Complete.scan_columns row_data rest
    end.
Proof.
  simpl. unfold taken. fold (text_at row_data col).
  destruct (col >? 0); simpl; [|reflexivity].
  destruct (nonempty (strip (text_at row_data col))) eqn:E.
  - now destruct (Complete.cell_number (text_at row_data col)) as [[]|].
  - now rewrite (complete_blank_cell _ E).
Qed.

Lemma scan_descending row_data v : forall cols,
  descending cols ->
  (Complete.scan_columns row_data cols = Some v <->
   exists col, In col cols /\ taken row_data col = Some v /\
     forall col', In col' cols -> col' > col -> taken row_data col' = None).
Proof.
  induction cols as [|c r IH]; intros Hd.
  - simpl. split; [discriminate|]. intros (col & [] & _).
  - destruct Hd as [Hc Hr]. rewrite Forall_forall in Hc.
    rewrite scan_columns_cons. specialize (IH Hr).
    destruct (taken row_data c) as [v'|] eqn:E.
    + split.
      * intros [= ->]. exists c. split; [now left|]. split; [exact E|].
        intros col' [->|Hin] Hgt; [lia|]. apply Hc in Hin. lia.
      * intros (col & [->|Hin] & Hv & Hmax); [congruence|].
        assert (c > col \/ c = col) as [Hgt| ->] by (apply Hc in Hin; lia).
        -- rewrite (Hmax c (or_introl eq_refl) Hgt) in E. discriminate.
        -- congruence.
    + rewrite IH. split.
      * intros (col & Hin & Hv & Hmax). exists col. split; [now right|].
        split; [exact Hv|]. intros col' [<-|Hin'] Hgt; [exact E|now apply Hmax].
      * intros (col & [->|Hin] & Hv & Hmax); [congruence|].
        exists col. split; [exact Hin|]. split; [exact Hv|].
        intros col' Hin' Hgt. apply Hmax; [now right|exact Hgt].
Qed.

(** The value of a row is the number in its rightmost column, past
    column 0, whose text converts. *)
Lemma row_value_rightmost row_data v :
  Complete.row_value row_data = Some v <->
  exists col,
    In col (map fst row_data) /\ col > 0 /\
    Complete.cell_number (text_at row_data col) = inr v /\
    forall col' v', In col' (map fst row_data) -> col' > col ->
      Complete.cell_number (text_at row_data col') <> inr v'.
Proof.
  unfold Complete.row_value.
  rewrite (scan_descending _ _ _ (sorted_desc_descending _)).
  split.
  - intros (col & Hin & Hv & Hmax). exists col.
    apply (proj1 (In_sorted_desc _ _)) in Hin. unfold taken in Hv.
    destruct (col >? 0) eqn:Hpos; [|discriminate]. apply Z.gtb_lt in Hpos.
    destruct (Complete.cell_number (text_at row_data col)) as [|x] eqn:Hx; [discriminate|].
    injection Hv as ->. repeat split; [exact Hin|lia|].
    intros col' v' Hin' Hgt Hc. apply (proj2 (In_sorted_desc _ _)) in Hin'.
    specialize (Hmax col' Hin' Hgt). unfold taken in Hmax.
    replace (col' >? 0) with true in Hmax by (symmetry; apply Z.gtb_lt; lia).
    rewrite Hc in Hmax. discriminate.
  - intros (col & Hin & Hpos & Hv & Hmax). exists col.
    split; [now apply In_sorted_desc|]. split.
    + unfold taken. replace (col >? 0) with true by (symmetry; apply Z.gtb_lt; lia).
      now rewrite Hv.
    + intros col' Hin' Hgt. apply (proj1 (In_sorted_desc _ _)) in Hin'. unfold taken.
      destruct (col' >? 0); [|reflexivity].
      destruct (Complete.cell_number (text_at row_data col')) as [|x] eqn:Hx; [reflexivity|].
      exfalso. exact (Hmax col' x Hin' Hgt Hx).
Qed.

(** ** [document_analysis.py]: the first adjacent cell that converts *)

(** [cell] is in the row of the target, in another column. *)
Definition adjacent (target_row target_col : Z) (cell : Active.CellData) : Prop :=
  Active.rowIndex cell = target_row /\ Active.columnIndex cell <> target_col.

Lemma adjacent_test target_row target_col cell :
  (Active.rowIndex cell =? target_row) && negb (Active.columnIndex cell =? target_col) = true
  <-> adjacent target_row target_col cell.
Proof.
  unfold adjacent. rewrite andb_true_iff, negb_true_iff, Z.eqb_eq, Z.eqb_neq. tauto.
Qed.

(** The cells skipped by the scan: not adjacent, or with a text that
    does not convert. *)
Definition skipped (target_row target_col : Z) (cell : Active.CellData) : Prop :=
  adjacent target_row target_col cell ->
  Active.cell_number (Active.content cell) = inl ValueError.

Lemma adjacent_scan_skip target_row target_col before : forall rest,
  Forall (skipped target_row target_col) before ->
  Active.adjacent_scan target_row target_col (before ++ rest)
  = Active.adjacent_scan target_row target_col rest.
Proof.
  induction before as [|c l IH]; intros rest H; simpl; [reflexivity|].
  inversion H as [|? ? Hc Hl]; subst.
  destruct ((Active.rowIndex c =? target_row) && negb (Active.columnIndex c =? target_col))
    eqn:E.
  - apply adjacent_test in E. rewrite (Hc E). now apply IH.
  - now apply IH.
Qed.

Lemma adjacent_scan_first target_row target_col before cell rest v :
  Forall (skipped target_row target_col) before ->
  adjacent target_row target_col cell ->
  Active.cell_number (Active.content cell) = inr v ->
  Active.adjacent_scan target_row target_col (before ++ cell :: rest) = v.
Proof.
  intros Hb Ha Hv. rewrite adjacent_scan_skip by exact Hb. simpl.
  apply adjacent_test in Ha. now rewrite Ha, Hv.
Qed.

Lemma adjacent_scan_none target_row target_col cells :
  Forall (skipped target_row target_col) cells ->
  Active.adjacent_scan target_row target_col cells = S754_zero false.
Proof.
  intros H. rewrite <- (app_nil_r cells). now rewrite adjacent_scan_skip.
Qed.

End RowValue.

(* ================================================================== *)
(** * The fields of the documents *)
(* ================================================================== *)

Module Mapper.
Import Py PyFacts.

(** ** [document_analysis_complete.py] *)

(** The closed vocabulary of canonical fields. *)
Definition canonical_names : list string :=
  ["pnl_total_revenue"; "pnl_cost_of_goods_sold"; "pnl_gross_profit";
   "pnl_operating_expenses"; "pnl_net_income"; "pnl_other_income";
   "pnl_other_expenses"].

(** The fields of a document under their mapped names, in the order of
    the document. *)
Definition mapped (items : list (string * Complete.Sdk.Field)) : sdict Complete.ExtractedField :=
  map (fun item => (Complete.mapped_field_name (fst item),
                    Complete.extracted_field (snd item))) items.

Lemma get_In {V} (k : string) (v : V) (d : sdict V) : sget k d = Some v -> In v (map snd d).
Proof.
  unfold sget. induction d as [|[k' v'] d IH]; simpl; [discriminate|].
  destruct (String.eqb k k'); [intros [= ->]; now left|]. intros H. right. now apply IH.
Qed.

Lemma mapped_name_cases name :
  In (Complete.mapped_field_name name) canonical_names
  \/ Complete.mapped_field_name name = lower name.
Proof.
  unfold Complete.mapped_field_name.
  destruct (sget name Complete.pnl_field_mapping) as [c|] eqn:E; [left|now right].
  apply get_In in E. simpl in E. simpl.
  repeat (destruct E as [<-|E]; [tauto|]). contradiction.
Qed.

Lemma map_fields_update items :
  Complete.map_fields items = update String.eqb [] (mapped items).
Proof.
  unfold Complete.map_fields, update, mapped.
  generalize (@nil (string * Complete.ExtractedField)).
  induction items as [|item items IH]; intros d; simpl; [reflexivity|]. apply IH.
Qed.

Lemma map_fields_last key items :
  sget key (Complete.map_fields items) = slast key (mapped items).
Proof.
  rewrite map_fields_update, sget_update. simpl.
  now destruct (slast key (mapped items)).
Qed.

(** ** [document_analysis.py] *)

(** The fields of the documents that pass the keyword test, under their
    own names, in the order of the documents. *)
Definition kept (docs : list Active.Sdk.Document) : sdict Active.ExtractedField :=
  flat_map
    (fun doc =>
       flat_map
         (fun item =>
            if Active.is_pnl_field (fst item)
            then [(fst item, Active.extracted_field (snd item))]
            else [])
         (Active.each (Active.Sdk.fields doc)))
    docs.

Lemma field_step_update acc item :
  Active.field_step acc item
  = update String.eqb acc
      (if Active.is_pnl_field (fst item)
       then [(fst item, Active.extracted_field (snd item))]
       else []).
Proof. unfold Active.field_step. now destruct (Active.is_pnl_field (fst item)). Qed.

Lemma document_fields_update docs :
  Active.document_fields docs = update String.eqb [] (kept docs).
Proof.
  unfold Active.document_fields, kept.
  rewrite <- fold_entries. apply fold_left_ext. intros acc doc.
  unfold Active.document_step. rewrite <- fold_entries.
  apply fold_left_ext. intros a item. apply field_step_update.
Qed.

Lemma document_fields_last name docs :
  sget name (Active.document_fields docs) = slast name (kept docs).
Proof.
  rewrite document_fields_update, sget_update. simpl.
  now destruct (slast name (kept docs)).
Qed.

End Mapper.

(* ================================================================== *)
(** * The properties of the specification *)
(* ================================================================== *)

Import Py.

(** ** Tables as lists of (row, column, text) *)

Definition complete_cell (c : Z * Z * string) : Complete.Sdk.Cell :=
  let '(row, col, text) := c in
  {| Complete.Sdk.kind := Some (PStr "content");
     Complete.Sdk.row_index := row;
     Complete.Sdk.column_index := col;
     Complete.Sdk.content := text;
     Complete.Sdk.polygon := None |}.

Definition complete_table (cs : list (Z * Z * string)) : Complete.Sdk.Table :=
  {| Complete.Sdk.row_count := PInt 2;
     Complete.Sdk.column_count := PInt 2;
     Complete.Sdk.cells := Some (map complete_cell cs) |}.

(** A result of the provider with tables and an empty [documents]. *)
Definition complete_tables_only (ts : list (list (Z * Z * string))) : Complete.Sdk.AnalyzeResult :=
  {| Complete.Sdk.model_id := PStr "prebuilt-layout";
     Complete.Sdk.result_content := None;
     Complete.Sdk.pages := None;
     Complete.Sdk.tables := Some (map complete_table ts);
     Complete.Sdk.documents := Some [] |}.

Definition active_cell (c : Z * Z * string) : Active.Sdk.Cell :=
  let '(row, col, text) := c in
  {| Active.Sdk.kind := Some (PStr "content");
     Active.Sdk.row_index := Some row;
     Active.Sdk.column_index := Some col;
     Active.Sdk.content := Some text |}.

Definition active_table (cs : list (Z * Z * string)) : Active.Sdk.Table :=
  {| Active.Sdk.row_count := Some (PInt 2);
     Active.Sdk.column_count := Some (PInt 2);
     Active.Sdk.cells := Some (map active_cell cs) |}.

Definition active_tables_only (ts : list (list (Z * Z * string))) : Active.Sdk.AnalyzeResult :=
  {| Active.Sdk.api_version := None;
     Active.Sdk.model_id := None;
     Active.Sdk.result_content := None;
     Active.Sdk.pages := None;
     Active.Sdk.tables := Some (map active_table ts);
     Active.Sdk.key_value_pairs := None;
     Active.Sdk.documents := Some [] |}.

(** The documents of an output. *)
Definition output_documents (out : pyval) : option pyval :=
  path ["analyzeResult"; "documents"] out.

(** The value of a field of a document of the output. *)
Definition field_value_of (name : string) (doc : pyval) : option pyval :=
  path ["fields"; name; "value"] doc.

(** ** Scenario: no document, one table *)

Definition revenue_and_net_income : list (Z * Z * string) :=
  [(0, 0, "Revenue"); (0, 1, "$50,000"); (1, 0, "Net Income"); (1, 1, "$10,000")].

(** C1. With no document and the table [Revenue | $50,000],
    [Net Income | $10,000], [document_analysis_complete.py] answers with
    one document whose fields are [pnl_total_revenue = 50000.0] and
    [pnl_net_income = 10000.0]; [document_analysis.py] answers with one
    document too, but there [pnl_total_revenue] is [10000.0]: the pattern
    [income] of the revenue field occurs in [net income], and the second
    row overwrites the first. *)
Theorem scenario_tables_only (w : Env.world) :
  (exists doc,
      output_documents
        (Env.value (Complete._process_azure_result
                      (complete_tables_only [revenue_and_net_income])) w)
      = Some (PList [doc])
      /\ field_value_of "pnl_total_revenue" doc = Some (PFloat (float_of_int 50000))
      /\ field_value_of "pnl_net_income" doc = Some (PFloat (float_of_int 10000)))
  /\
  (exists doc,
      output_documents
        (Env.value (Active._process_azure_result
                      (active_tables_only [revenue_and_net_income])) w)
      = Some (PList [doc])
      /\ field_value_of "pnl_total_revenue" doc = Some (PFloat (float_of_int 10000))
      /\ field_value_of "pnl_net_income" doc = Some (PFloat (float_of_int 10000))).
Proof.
  rewrite Results.complete_value, Results.active_value.
  split; eexists; (split; [vm_compute; reflexivity|]); split; vm_compute; reflexivity.
Qed.

(** ** A cell that reads [$0.00] *)

Definition revenue_of_zero : list (Z * Z * string) :=
  [(0, 0, "Revenue"); (0, 1, "$0.00")].

(** In [document_analysis.py] a label whose adjacent value is zero stores
    nothing, whatever the field: [if value:] is false for [0.0]. *)
Lemma zero_is_dropped table cell acc entry :
  float_truthy (Active._find_adjacent_value table cell) = false ->
  Active.pattern_step table cell acc entry = acc.
Proof.
  intros Hz. unfold Active.pattern_step.
  assert (H : forall text patterns, Active.match_patterns table cell text patterns = None).
  { intros text patterns. induction patterns as [|p ps IH]; simpl; [reflexivity|].
    rewrite Hz. now destruct (contains p text). }
  now rewrite H.
Qed.

Lemma zero_is_dropped_witness :
  Active.pattern_step
    (Active.table_data (active_table revenue_of_zero))
    (Active.cell_data (active_cell (0, 0, "Revenue"))) []
    ("pnl_total_revenue", ["revenue"]) = [].
Proof. apply zero_is_dropped. vm_compute. reflexivity. Defined.

(** C2. The text [$0.00] converts to [0.0] in both modules.  For the
    table [Revenue | $0.00], [document_analysis_complete.py] records
    [pnl_total_revenue = 0.0]; [document_analysis.py] finds the same
    [0.0] next to the label and records no field at all: its only
    document has an empty field map. *)
Theorem zero_cell_value (w : Env.world) :
  Complete.cell_number "$0.00" = inr (S754_zero false)
  /\ Active.cell_number "$0.00" = inr (S754_zero false)
  /\ sget "pnl_total_revenue"
       (Complete._extract_pnl_from_tables
          [Complete.table_data (complete_table revenue_of_zero)])
     = Some (Complete.currency_field (S754_zero false))
  /\ Active._find_adjacent_value
       (Active.table_data (active_table revenue_of_zero))
       (Active.cell_data (active_cell (0, 0, "Revenue")))
     = S754_zero false
  /\ Active.content_fields [Active.table_data (active_table revenue_of_zero)] = []
  /\ exists doc,
       output_documents
         (Env.value (Active._process_azure_result
                       (active_tables_only [revenue_of_zero])) w)
       = Some (PList [doc])
       /\ path ["fields"] doc = Some (PDict []).
Proof.
  rewrite Results.active_value.
  repeat split; try (vm_compute; reflexivity).
  eexists. split; vm_compute; reflexivity.
Qed.

(** ** Several rows for one canonical field *)

Definition revenue_then_sales : list (Z * Z * string) :=
  [(0, 0, "Revenue"); (0, 1, "$100"); (1, 0, "Sales"); (1, 1, "$200")].

(** Three rows of one field, the cells of row 2 given first. *)
Definition rows_out_of_order : list (Z * Z * string) :=
  [(2, 0, "Sales"); (2, 1, "$300");
   (0, 0, "Revenue"); (0, 1, "$100");
   (1, 0, "Income"); (1, 1, "$200")].

(** The rows of a grid by ascending row index. *)
Fixpoint insert_row (row : Z * zdict string) (rows : zdict (zdict string))
  : zdict (zdict string) :=
  match rows with
  | [] => [row]
  | h :: t => if fst row <? fst h then row :: rows else h :: insert_row row t
  end.

Definition ascending (grid : zdict (zdict string)) : zdict (zdict string) :=
  fold_right insert_row [] grid.

(** The canonical field and value of each row that has them, table after
    table and, within a table, by ascending row index. *)
Definition ascending_entries (tables : list Complete.TableData) : list (string * float) :=
  flat_map
    (fun t => flat_map Rows.entry_of
                (map snd (ascending (Complete.build_grid (Complete.cells t)))))
    tables.

(** Of the rows taken by ascending row index, the first that gives a
    field its value keeps it. *)
Definition first_row_wins : Prop :=
  forall tables key v before rest,
    ascending_entries tables = (before ++ (key, v) :: rest)%list ->
    (forall v', ~ In (key, v') before) ->
    sget key (Complete._extract_pnl_from_tables tables)
    = Some (Complete.currency_field v).

(** Of the rows taken by ascending row index, the last that gives a
    field its value keeps it. *)
Definition last_ascending_row_wins : Prop :=
  forall tables key v before rest,
    ascending_entries tables = (before ++ (key, v) :: rest)%list ->
    (forall v', ~ In (key, v') rest) ->
    sget key (Complete._extract_pnl_from_tables tables)
    = Some (Complete.currency_field v).

(** C3, as stated, fails.  The cells of [rows_out_of_order] give row 2
    ([Sales | $300]) first, then row 0 ([Revenue | $100]), then row 1
    ([Income | $200]); the three rows are of the field
    [pnl_total_revenue], which ends with [200.0].  By ascending row index
    the first row has [100.0] and the last has [300.0]: the field is
    neither that of the first row nor, the rows being taken by ascending
    index, that of the last. *)
Lemma first_row_is_overwritten : ~ first_row_wins /\ ~ last_ascending_row_wins.
Proof.
  assert (E : ascending_entries [Complete.table_data (complete_table rows_out_of_order)]
              = [("pnl_total_revenue", float_of_int 100);
                 ("pnl_total_revenue", float_of_int 200);
                 ("pnl_total_revenue", float_of_int 300)])
    by (vm_compute; reflexivity).
  split; intros H.
  - specialize (H [Complete.table_data (complete_table rows_out_of_order)]
                  "pnl_total_revenue" (float_of_int 100)
                  [] [("pnl_total_revenue", float_of_int 200);
                      ("pnl_total_revenue", float_of_int 300)]
                  E (fun _ F => F)).
    vm_compute in H. discriminate H.
  - specialize (H [Complete.table_data (complete_table rows_out_of_order)]
                  "pnl_total_revenue" (float_of_int 300)
                  [("pnl_total_revenue", float_of_int 100);
                   ("pnl_total_revenue", float_of_int 200)] []
                  E (fun _ F => F)).
    vm_compute in H. discriminate H.
Qed.

(** The distinct elements of a list, each at its first occurrence. *)
Fixpoint first_occurrences (l : list Z) : list Z :=
  match l with
  | [] => []
  | x :: r => x :: filter (fun y => negb (y =? x)) (first_occurrences r)
  end.

Module VisitOrder.

Definition unseen (keys : list Z) (y : Z) : bool := negb (existsb (Z.eqb y) keys).

Lemma keys_set {V} (k : Z) (v : V) (d : zdict V) :
  map fst (zset k v d)
  = if existsb (Z.eqb k) (map fst d) then map fst d else (map fst d ++ [k])%list.
Proof.
  unfold zset. induction d as [|[k' v'] r IH]; simpl; [reflexivity|].
  destruct (k =? k'); simpl; [reflexivity|].
  rewrite IH. now destruct (existsb (Z.eqb k) (map fst r)).
Qed.

Lemma keys_add_cell grid c :
  map fst (Complete.add_cell grid c)
  = if existsb (Z.eqb (Complete.rowIndex c)) (map fst grid)
    then map fst grid
    else (map fst grid ++ [Complete.rowIndex c])%list.
Proof. unfold Complete.add_cell. apply keys_set. Qed.

Lemma filter_seen keys r l :
  existsb (Z.eqb r) keys = true ->
  filter (unseen keys) (filter (fun y => negb (y =? r)) l) = filter (unseen keys) l.
Proof.
  intros Hr. induction l as [|a l IH]; simpl; [reflexivity|].
  destruct (a =? r) eqn:E; simpl.
  - apply Z.eqb_eq in E. subst a. unfold unseen at 2. rewrite Hr. simpl. exact IH.
  - now rewrite IH.
Qed.

Lemma filter_new keys r l :
  filter (unseen (keys ++ [r])) l
  = filter (unseen keys) (filter (fun y => negb (y =? r)) l).
Proof.
  induction l as [|a l IH]; simpl; [reflexivity|].
  unfold unseen at 1. rewrite existsb_app. simpl. rewrite orb_false_r.
  destruct (a =? r); simpl.
  - rewrite orb_true_r. simpl. exact IH.
  - rewrite orb_false_r. fold (unseen keys a). now rewrite IH.
Qed.

Lemma filter_all {A} (l : list A) : filter (fun _ => true) l = l.
Proof. induction l as [|a l IH]; simpl; [reflexivity|]. now rewrite IH. Qed.

(** The keys of the grid after more cells: those it had, then the new
    row indices, each where it first occurs. *)
Lemma keys_fold cs grid :
  map fst (fold_left Complete.add_cell cs grid)
  = (map fst grid
     ++ filter (unseen (map fst grid)) (first_occurrences (map Complete.rowIndex cs)))%list.
Proof.
  revert grid. induction cs as [|c cs IH]; intros grid; simpl.
  - now rewrite app_nil_r.
  - rewrite IH, keys_add_cell.
    destruct (existsb (Z.eqb (Complete.rowIndex c)) (map fst grid)) eqn:E.
    + unfold unseen at 2. rewrite E. simpl. now rewrite filter_seen.
    + unfold unseen at 2. rewrite E. simpl.
      rewrite filter_new, <- app_assoc. reflexivity.
Qed.

Lemma build_grid_keys cs :
  map fst (Complete.build_grid cs) = first_occurrences (map Complete.rowIndex cs).
Proof.
  unfold Complete.build_grid. rewrite keys_fold. simpl. apply filter_all.
Qed.

End VisitOrder.

(** C3, amended.  The grid of a table holds its rows in the order in
    which their indices first occur among the cells, which need not be
    the ascending one, and the rows are visited in that order, table
    after table; each row that has a label in column 0, a value and a
    known label assigns its field.  The field of a key is that of the
    last such row of the visit: a later row overwrites an earlier one. *)
Theorem last_row_wins :
  (forall cs,
      map fst (Complete.build_grid cs) = first_occurrences (map Complete.rowIndex cs))
  /\ (forall tables,
         Rows.row_entries tables
         = flat_map
             (fun t => flat_map Rows.entry_of
                         (map snd (Complete.build_grid (Complete.cells t))))
             tables)
  /\ (forall tables key v before rest,
         Rows.row_entries tables = (before ++ (key, v) :: rest)%list ->
         (forall v', ~ In (key, v') rest) ->
         sget key (Complete._extract_pnl_from_tables tables)
         = Some (Complete.currency_field v)).
Proof.
  split; [exact VisitOrder.build_grid_keys|]. split.
  - intros tables. unfold Rows.row_entries, Rows.grid_rows.
    apply Rows.flat_map_nested.
  - intros tables key v before rest E Hrest.
    rewrite Rows.extract_last_row, E. unfold slast.
    rewrite (PyFacts.last_value_app _ key before). simpl.
    rewrite (PyFacts.last_value_none _ PyFacts.string_eqb_eq key rest Hrest).
    now rewrite String.eqb_refl.
Qed.

(** On [rows_out_of_order] the rows are visited in the order 2, 0, 1 and
    the field is that of row 1. *)
Lemma last_row_wins_witness :
  map fst (Complete.build_grid
             (Complete.cells (Complete.table_data (complete_table rows_out_of_order))))
  = [2; 0; 1]
  /\ sget "pnl_total_revenue"
       (Complete._extract_pnl_from_tables
          [Complete.table_data (complete_table rows_out_of_order)])
     = Some (Complete.currency_field (float_of_int 200)).
Proof.
  split.
  - rewrite (proj1 last_row_wins). vm_compute. reflexivity.
  - apply (proj2 (proj2 last_row_wins) _ _ _
             [("pnl_total_revenue", float_of_int 300);
              ("pnl_total_revenue", float_of_int 100)] []).
    + vm_compute. reflexivity.
    + intros v' [].
Defined.

(** The same holds of [document_analysis.py], cell after cell. *)
Lemma last_cell_wins tables key v before rest :
  Rows.content_entries tables = (before ++ (key, v) :: rest)%list ->
  (forall v', ~ In (key, v') rest) ->
  sget key (Active.content_fields tables) = Some (Active.currency_field v).
Proof.
  intros E Hrest. rewrite Rows.content_last_cell, E. unfold slast.
  rewrite (PyFacts.last_value_app _ key before). simpl.
  rewrite (PyFacts.last_value_none _ PyFacts.string_eqb_eq key rest Hrest).
  now rewrite String.eqb_refl.
Qed.

Lemma last_cell_wins_witness :
  sget "pnl_total_revenue"
    (Active.content_fields [Active.table_data (active_table revenue_then_sales)])
  = Some (Active.currency_field (float_of_int 200)).
Proof.
  apply (last_cell_wins _ _ _ [("pnl_total_revenue", float_of_int 100)] []).
  - vm_compute. reflexivity.
  - intros v' [].
Defined.

(** ** Several values in one row *)

Definition two_amounts : list (Z * Z * string) :=
  [(0, 0, "Revenue"); (0, 1, "$100"); (0, 2, "$200")].

(** C7.  In [document_analysis_complete.py] the value of a row is that of
    its rightmost column, past the label, whose text converts; for the
    row [Revenue | $100 | $200] it is [200.0].  In [document_analysis.py]
    the value next to the label is that of the first cell of the row, in
    the order of the cells, whose text converts: [100.0] for the same
    row. *)
Theorem rightmost_value :
  (forall row_data v,
      Complete.row_value row_data = Some v <->
      exists col,
        In col (map fst row_data) /\ col > 0 /\
        Complete.cell_number (RowValue.text_at row_data col) = inr v /\
        forall col' v', In col' (map fst row_data) -> col' > col ->
          Complete.cell_number (RowValue.text_at row_data col') <> inr v')
  /\ sget "pnl_total_revenue"
       (Complete._extract_pnl_from_tables [Complete.table_data (complete_table two_amounts)])
     = Some (Complete.currency_field (float_of_int 200))
  /\ Active._find_adjacent_value
       (Active.table_data (active_table two_amounts))
       (Active.cell_data (active_cell (0, 0, "Revenue")))
     = float_of_int 100
  /\ sget "pnl_total_revenue"
       (Active.content_fields [Active.table_data (active_table two_amounts)])
     = Some (Active.currency_field (float_of_int 100)).
Proof.
  split; [exact RowValue.row_value_rightmost|].
  repeat split; vm_compute; reflexivity.
Qed.

Lemma rightmost_value_witness :
  Complete.row_value [(0, "Revenue"); (1, "$100"); (2, "$200")] = Some (float_of_int 200).
Proof.
  apply (proj1 rightmost_value). exists 2. split; [simpl; tauto|].
  split; [lia|]. split; [vm_compute; reflexivity|].
  intros col' v' Hin Hgt. simpl in Hin. lia.
Defined.

(** ** The field mapper *)

(** A field of which the provider gives the text only. *)
Definition text_field (text : string) : Complete.Sdk.Field :=
  {| Complete.Sdk.field_content := Some text;
     Complete.Sdk.field_confidence := PFloat (float_of_decimal false 9 (-1));
     Complete.Sdk.value_number := None;
     Complete.Sdk.value_string := None |}.

Definition revenue_and_sales : list (string * Complete.Sdk.Field) :=
  [("Revenue", text_field "$100"); ("Sales", text_field "$200")].

(** Every field of a document, the vendor names being distinct, has its
    own entry in the output under its mapped name. *)
Definition every_field_is_kept : Prop :=
  forall items name f,
    NoDup (map fst items) ->
    In (name, f) items ->
    sget (Complete.mapped_field_name name) (Complete.map_fields items)
    = Some (Complete.extracted_field f).

(** C8, as stated, fails: [Revenue] and [Sales] are both mapped to
    [pnl_total_revenue], and the output holds the second only. *)
Lemma alias_collision_drops_a_field : ~ every_field_is_kept.
Proof.
  intros H.
  specialize (H revenue_and_sales "Revenue" (text_field "$100")).
  assert (Hnd : NoDup (map fst revenue_and_sales)).
  { simpl. repeat constructor; simpl; [|tauto]. intros [E|[]]. discriminate E. }
  specialize (H Hnd (or_introl eq_refl)). vm_compute in H. discriminate H.
Qed.

(** C8, amended.  In [document_analysis_complete.py] every vendor field of
    a document is stored under a name that is in the closed vocabulary or
    is the vendor name in lower case, and the output has an entry under
    that name; the entry is that of the last field of the document with
    this mapped name, so that a field is kept unless a later one has the
    same mapped name; and every entry of the output comes from a field of
    the document.  In [document_analysis.py] the fields of all documents
    that pass the keyword test are stored under their own names, the last
    one of a name being kept. *)
Theorem mapper_last_alias_wins :
  (forall items name f,
      In (name, f) items ->
      (In (Complete.mapped_field_name name) Mapper.canonical_names
       \/ Complete.mapped_field_name name = lower name)
      /\ exists e, sget (Complete.mapped_field_name name) (Complete.map_fields items) = Some e)
  /\ (forall items name f before rest,
         items = (before ++ (name, f) :: rest)%list ->
         (forall name' f', In (name', f') rest ->
            Complete.mapped_field_name name' <> Complete.mapped_field_name name) ->
         sget (Complete.mapped_field_name name) (Complete.map_fields items)
         = Some (Complete.extracted_field f))
  /\ (forall items key e,
         sget key (Complete.map_fields items) = Some e ->
         exists name f,
           In (name, f) items /\ key = Complete.mapped_field_name name
           /\ e = Complete.extracted_field f)
  /\ (forall docs name,
         sget name (Active.document_fields docs) = slast name (Mapper.kept docs)).
Proof.
  split; [|split; [|split]].
  - intros items name f Hin. split; [apply Mapper.mapped_name_cases|].
    rewrite Mapper.map_fields_last.
    apply (PyFacts.In_last_value _ PyFacts.string_eqb_eq _ (Complete.extracted_field f)).
    unfold Mapper.mapped. apply in_map_iff. exists (name, f). now split.
  - intros items name f before rest -> Hrest.
    rewrite Mapper.map_fields_last. unfold Mapper.mapped, slast.
    rewrite map_app, PyFacts.last_value_app. simpl.
    rewrite (PyFacts.last_value_none _ PyFacts.string_eqb_eq).
    + now rewrite String.eqb_refl.
    + intros v Hin. apply in_map_iff in Hin as ([name' f'] & [= Hn _] & Hin).
      simpl in Hn. exact (Hrest name' f' Hin Hn).
  - intros items key e H. rewrite Mapper.map_fields_last in H.
    apply (PyFacts.last_value_In _ PyFacts.string_eqb_eq) in H.
    unfold Mapper.mapped in H. apply in_map_iff in H as ([name f] & [= <- <-] & Hin).
    exists name, f. now repeat split.
  - exact (fun docs name => Mapper.document_fields_last name docs).
Qed.

Lemma mapper_last_alias_wins_witness :
  sget "pnl_total_revenue" (Complete.map_fields revenue_and_sales)
  = Some (Complete.extracted_field (text_field "$200")).
Proof.
  apply (proj1 (proj2 mapper_last_alias_wins)
           revenue_and_sales "Sales" (text_field "$200")
           [("Revenue", text_field "$100")] []).
  - reflexivity.
  - intros name' f' [].
Defined.

(** ** Currency fields *)

(** [v] is an [int], or a float that is neither an infinity nor a NaN. *)
Definition finite_number (v : pyval) : bool :=
  match v with
  | PInt _ => true
  | PFloat x => is_finite x
  | _ => false
  end.

(** A field of type [currency] holds a finite number, in both modules. *)
Definition currency_is_finite : Prop :=
  (forall f,
      Complete.type (Complete.extracted_field f) = PStr "currency" ->
      finite_number (Complete.value (Complete.extracted_field f)) = true)
  /\ (forall f,
         Active.type (Active.extracted_field f) = PStr "currency" ->
         finite_number (Active.value (Active.extracted_field f)) = true).

(** The digit 1 followed by 309 zeros: ten to the power 309. *)
Definition ten_to_309 : string :=
  "1000000000000000000000000000000000000000000000000000000000000000000000000000000000000000000000000000000000000000000000000000000000000000000000000000000000000000000000000000000000000000000000000000000000000000000000000000000000000000000000000000000000000000000000000000000000000000000000000000000000000000000000".

Definition overlong_amount : Complete.Sdk.Field :=
  {| Complete.Sdk.field_content := Some ten_to_309;
     Complete.Sdk.field_confidence := PFloat (float_of_decimal false 9 (-1));
     Complete.Sdk.value_number := None;
     Complete.Sdk.value_string := Some ten_to_309 |}.

(** A field the provider types as [currency] without a value. *)
Definition untyped_amount : Active.Sdk.Field :=
  {| Active.Sdk.value_type := Some (PStr "currency");
     Active.Sdk.field_value := None;
     Active.Sdk.field_content := Some (PStr "n/a");
     Active.Sdk.field_confidence := None |}.

(** C4, as stated, fails.  In [document_analysis_complete.py] a string
    of 310 digits is matched whole by the regular expression and [float]
    turns it into an infinity, which is a float: the type is [currency],
    the value is not finite. *)
Lemma currency_may_be_infinite : ~ currency_is_finite.
Proof.
  intros [H _]. specialize (H overlong_amount).
  assert (E : Complete.extracted_field overlong_amount
              = {| Complete.type := PStr "currency";
                   Complete.value := PFloat (S754_infinity false);
                   Complete.valueString := PStr ten_to_309;
                   Complete.confidence := PFloat (float_of_decimal false 9 (-1)) |})
    by (vm_compute; reflexivity).
  rewrite E in H. simpl in H. discriminate (H eq_refl).
Qed.

(** In [document_analysis.py] the type of a field is the one the provider
    gives, whatever the value: a field typed [currency] may hold text. *)
Lemma vendor_type_is_copied :
  Active.type (Active.extracted_field untyped_amount) = PStr "currency"
  /\ Active.value (Active.extracted_field untyped_amount) = PStr "n/a".
Proof. split; reflexivity. Qed.

Lemma update_entries {V} (key : string) (e : V) (items : sdict V) :
  sget key (update String.eqb [] items) = Some e -> In (key, e) items.
Proof.
  rewrite PyFacts.sget_update. simpl.
  destruct (slast key items) as [v|] eqn:E; [|discriminate].
  intros [= ->]. now apply (PyFacts.last_value_In _ PyFacts.string_eqb_eq).
Qed.

(** C4, amended.  In [document_analysis_complete.py] the mapper gives a
    field the type [currency] exactly when its value is an [int] or a
    float, and the type [string] otherwise; the float is that of
    [value_number] or the one [float] read, which may be an infinity.
    When there is no [value_number] and no number in [value_string], the
    value is the text of the field and the type is [string].  The fields
    the two table extractors record are of type [currency] with a float
    value. *)
Theorem currency_is_number :
  (forall f,
      (Complete.type (Complete.extracted_field f) = PStr "currency"
       /\ is_number (Complete.value (Complete.extracted_field f)) = true)
      \/ (Complete.type (Complete.extracted_field f) = PStr "string"
          /\ is_number (Complete.value (Complete.extracted_field f)) = false))
  /\ (forall f,
         (Complete.Sdk.value_number f = None \/ Complete.Sdk.value_number f = Some PNone) ->
         (forall s, Complete.Sdk.value_string f = Some s -> nonempty s = true ->
                    Complete.number_in_string s = None) ->
         Complete.type (Complete.extracted_field f) = PStr "string"
         /\ Complete.value (Complete.extracted_field f) = Complete.content_value f)
  /\ (forall tables key e,
         sget key (Complete._extract_pnl_from_tables tables) = Some e ->
         exists x, e = Complete.currency_field x)
  /\ (forall tables key e,
         sget key (Active.content_fields tables) = Some e ->
         exists x, e = Active.currency_field x).
Proof.
  split; [|split; [|split]].
  - intros f. unfold Complete.extracted_field. simpl.
    destruct (is_number (Complete.field_value f)); [left|right]; now split.
  - intros f Hn Hs.
    assert (E : Complete.field_value f = Complete.content_value f).
    { unfold Complete.field_value.
      destruct Hn as [-> | ->];
        (destruct (Complete.Sdk.value_string f) as [s|] eqn:Es; [|reflexivity];
         destruct (nonempty s) eqn:En; [|reflexivity];
         now rewrite (Hs s eq_refl En)). }
    unfold Complete.extracted_field. simpl. rewrite E. split; [|reflexivity].
    unfold Complete.content_value. now destruct (Complete.Sdk.field_content f).
  - intros tables key e H. rewrite Rows.extract_is_update in H.
    apply update_entries in H. unfold Rows.as_fields in H.
    apply in_map_iff in H as ([k x] & [= _ <-] & _). now exists x.
  - intros tables key e H. rewrite Rows.content_fields_update in H.
    apply update_entries in H. unfold Rows.as_fields in H.
    apply in_map_iff in H as ([k x] & [= _ <-] & _). now exists x.
Qed.

(** A field whose [value_string] holds no digit. *)
Definition worded_amount : Complete.Sdk.Field :=
  {| Complete.Sdk.field_content := Some "abc";
     Complete.Sdk.field_confidence := PFloat (float_of_decimal false 9 (-1));
     Complete.Sdk.value_number := None;
     Complete.Sdk.value_string := Some "abc" |}.

(** The extraction is tried on [abc] and fails: the field is a [string]
    that holds its text. *)
Lemma currency_is_number_witness :
  Complete.type (Complete.extracted_field worded_amount) = PStr "string"
  /\ Complete.value (Complete.extracted_field worded_amount) = PStr "abc".
Proof.
  apply (proj1 (proj2 currency_is_number) worded_amount).
  - left. reflexivity.
  - intros s [= <-] _. vm_compute. reflexivity.
Defined.

(** ** The result adapter *)

(** The four sequences of an output. *)
Definition has_sequences (out : pyval) : Prop :=
  exists pages tables pairs documents,
    path ["analyzeResult"; "pages"] out = Some (PList pages)
    /\ path ["analyzeResult"; "tables"] out = Some (PList tables)
    /\ path ["analyzeResult"; "keyValuePairs"] out = Some (PList pairs)
    /\ path ["analyzeResult"; "documents"] out = Some (PList documents).

(** A result of the provider without any of the attributes the modules
    take as optional. *)
Definition active_bare : Active.Sdk.AnalyzeResult :=
  {| Active.Sdk.api_version := None;
     Active.Sdk.model_id := None;
     Active.Sdk.result_content := None;
     Active.Sdk.pages := None;
     Active.Sdk.tables := None;
     Active.Sdk.key_value_pairs := None;
     Active.Sdk.documents := None |}.

Definition complete_bare (model : pyval) : Complete.Sdk.AnalyzeResult :=
  {| Complete.Sdk.model_id := model;
     Complete.Sdk.result_content := None;
     Complete.Sdk.pages := None;
     Complete.Sdk.tables := None;
     Complete.Sdk.documents := None |}.

(** *** A table whose [cells] hold [None]

    [document_analysis.py] reads [table.cells] behind [hasattr] alone
    (line 164) and iterates it (line 165): when the attribute is there
    and holds [None] the loop raises a [TypeError], which the [except]
    clause of [_process_azure_result] (lines 228 to 230) turns into an
    [HTTPException].  The results of the provider are taken here with
    this case; their other attributes are as in [Active.Sdk]. *)

Module Partial.
Import Py Env.

(** What reading an attribute finds: no attribute, [None], or a value. *)
Inductive attribute (A : Type) : Type :=
| Missing
| Null
| Present (a : A).

Arguments Missing {A}.
Arguments Null {A}.
Arguments Present {A} a.

Record Table : Type := {
  row_count : option pyval;
  column_count : option pyval;
  cells : attribute (list Active.Sdk.Cell) }.

Record AnalyzeResult : Type := {
  api_version : option pyval;
  model_id : option pyval;
  result_content : option pyval;
  pages : option (list Active.Sdk.Page);
  tables : option (list Table);
  key_value_pairs : option (list Active.Sdk.KeyValuePair);
  documents : option (list Active.Sdk.Document) }.

(** The exception that leaves [_process_azure_result] *)
Inductive failure : Type :=
| HTTPException (status_code : Z) (detail : string).

(** [if hasattr(table, 'cells'): for cell in table.cells: ...]: the
    table as [Active.Sdk] has it, or [str(e)] of the [TypeError]. *)
Definition read_table (t : Table) : string + Active.Sdk.Table :=
  match cells t with
  | Missing =>
      inr {| Active.Sdk.row_count := row_count t;
             Active.Sdk.column_count := column_count t;
             Active.Sdk.cells := None |}
  | Null => inl "'NoneType' object is not iterable"
  | Present cs =>
      inr {| Active.Sdk.row_count := row_count t;
             Active.Sdk.column_count := column_count t;
             Active.Sdk.cells := Some cs |}
  end.

(** The loop over [result.tables], which ends at the first table that
    raises. *)
Fixpoint read_tables (ts : list Table) : string + list Active.Sdk.Table :=
  match ts with
  | [] => inr []
  | t :: rest =>
      match read_table t with
      | inl msg => inl msg
      | inr t' =>
          match read_tables rest with
          | inl msg => inl msg
          | inr rest' => inr (t' :: rest')
          end
      end
  end.

Definition with_tables (result : AnalyzeResult) (ts : option (list Active.Sdk.Table))
  : Active.Sdk.AnalyzeResult :=
  {| Active.Sdk.api_version := api_version result;
     Active.Sdk.model_id := model_id result;
     Active.Sdk.result_content := result_content result;
     Active.Sdk.pages := pages result;
     Active.Sdk.tables := ts;
     Active.Sdk.key_value_pairs := key_value_pairs result;
     Active.Sdk.documents := documents result |}.

Definition read (result : AnalyzeResult) : string + Active.Sdk.AnalyzeResult :=
  match tables result with
  | None => inr (with_tables result None)
  | Some ts =>
      match read_tables ts with
      | inl msg => inl msg
      | inr ts' => inr (with_tables result (Some ts'))
      end
  end.

(** [_process_azure_result] of [document_analysis.py].  Nothing is
    logged between the first record and the loop over the tables, so
    that a [TypeError] there is followed by the record of the [except]
    clause; with no such error the function goes as
    [Active._process_azure_result]. *)
Definition _process_azure_result (result : AnalyzeResult) : M (failure + pyval) :=
  match read result with
  | inr conforming =>
      out <- Active._process_azure_result conforming ;;
      ret (inr out)
  | inl msg =>
      log INFO [PStr "Processing real Azure Document Intelligence result"] ;;;
      log ERROR [PStr "Error processing Azure result: "; PStr msg] ;;;
      ret (inl (HTTPException 500 ("Error processing document: " ++ msg)))
  end.

Lemma read_tables_null ts :
  Exists (fun t => cells t = Null) ts ->
  read_tables ts = inl "'NoneType' object is not iterable".
Proof.
  induction ts as [|t ts IH]; intros H; [inversion H|]. simpl.
  unfold read_table.
  destruct (cells t) eqn:E; [| reflexivity |];
    (inversion H as [? ? Ht|? ? Hts]; subst; [congruence|]; now rewrite (IH Hts)).
Qed.

Lemma read_tables_some ts :
  Forall (fun t => cells t <> Null) ts ->
  exists ts', read_tables ts = inr ts'.
Proof.
  induction ts as [|t ts IH]; intros H; [now exists []|].
  inversion H as [|? ? Ht Hts]; subst. destruct (IH Hts) as [ts' E].
  simpl. rewrite E. unfold read_table.
  destruct (cells t); [eexists; reflexivity|contradiction|eexists; reflexivity].
Qed.

End Partial.

(** A result of the provider with one table, the [cells] of which hold
    [None]. *)
Definition null_cells : Partial.AnalyzeResult :=
  {| Partial.api_version := None;
     Partial.model_id := None;
     Partial.result_content := None;
     Partial.pages := None;
     Partial.tables :=
       Some [{| Partial.row_count := Some (PInt 2);
                Partial.column_count := Some (PInt 2);
                Partial.cells := Partial.Null |}];
     Partial.key_value_pairs := None;
     Partial.documents := None |}.

(** The same table for [document_analysis_complete.py]. *)
Definition complete_null_cells (model : pyval) : Complete.Sdk.AnalyzeResult :=
  {| Complete.Sdk.model_id := model;
     Complete.Sdk.result_content := None;
     Complete.Sdk.pages := None;
     Complete.Sdk.tables :=
       Some [{| Complete.Sdk.row_count := PInt 2;
                Complete.Sdk.column_count := PInt 2;
                Complete.Sdk.cells := None |}];
     Complete.Sdk.documents := None |}.

(** C5.  [document_analysis.py] fails on a table whose [cells] hold
    [None]: [_process_azure_result] raises an [HTTPException] of status
    500, here and whenever a table of the result is such.  On every
    other result, whichever optional attributes are missing, it returns
    an output in which [pages], [tables], [keyValuePairs] and
    [documents] are present and are sequences.
    [document_analysis_complete.py] tests [table.cells] for truth: it
    returns the four sequences on every result, and for the table whose
    [cells] hold [None] a table without cells. *)
Theorem adapter_raises_on_null_cells :
  (forall w,
      Env.value (Partial._process_azure_result null_cells) w
      = inl (Partial.HTTPException 500
               "Error processing document: 'NoneType' object is not iterable"))
  /\ (forall result w,
         Exists (fun t => Partial.cells t = Partial.Null)
                (Active.each (Partial.tables result)) ->
         Env.value (Partial._process_azure_result result) w
         = inl (Partial.HTTPException 500
                  "Error processing document: 'NoneType' object is not iterable"))
  /\ (forall result w,
         Forall (fun t => Partial.cells t <> Partial.Null)
                (Active.each (Partial.tables result)) ->
         exists out,
           Env.value (Partial._process_azure_result result) w = inr out
           /\ has_sequences out)
  /\ (forall result w, has_sequences (Env.value (Complete._process_azure_result result) w))
  /\ (forall model w,
         path ["analyzeResult"; "tables"]
           (Env.value (Complete._process_azure_result (complete_null_cells model)) w)
         = Some (PList [PDict [("rowCount", PInt 2);
                               ("columnCount", PInt 2);
                               ("cells", PList []);
                               ("boundingRegions", PList [])]])).
Proof.
  assert (N : forall result w,
             Exists (fun t => Partial.cells t = Partial.Null)
                    (Active.each (Partial.tables result)) ->
             Env.value (Partial._process_azure_result result) w
             = inl (Partial.HTTPException 500
                      "Error processing document: 'NoneType' object is not iterable")).
  { intros result w H. unfold Partial._process_azure_result, Partial.read.
    destruct (Partial.tables result) as [ts|]; [|inversion H].
    rewrite (Partial.read_tables_null ts H).
    now rewrite !Results.value_bind, Results.value_ret. }
  split; [|split; [exact N|split; [|split]]].
  - intros w. apply N. apply Exists_cons_hd. reflexivity.
  - intros result w H. unfold Partial._process_azure_result, Partial.read.
    destruct (Partial.tables result) as [ts|].
    + destruct (Partial.read_tables_some ts H) as [ts' ->].
      rewrite Results.value_bind, Results.value_ret, Results.active_value.
      eexists. split; [reflexivity|].
      unfold has_sequences. do 4 eexists. repeat split; reflexivity.
    + rewrite Results.value_bind, Results.value_ret, Results.active_value.
      eexists. split; [reflexivity|].
      unfold has_sequences. do 4 eexists. repeat split; reflexivity.
  - intros result w. rewrite Results.complete_value.
    unfold has_sequences. do 4 eexists. repeat split; reflexivity.
  - intros model w. rewrite Results.complete_value. reflexivity.
Qed.

(** A result with two tables, one without the attribute [cells] and one
    with an empty list of cells, and nothing else. *)
Definition sparse_tables : Partial.AnalyzeResult :=
  {| Partial.api_version := None;
     Partial.model_id := None;
     Partial.result_content := None;
     Partial.pages := None;
     Partial.tables :=
       Some [{| Partial.row_count := None;
                Partial.column_count := None;
                Partial.cells := Partial.Missing |};
             {| Partial.row_count := None;
                Partial.column_count := None;
                Partial.cells := Partial.Present [] |}];
     Partial.key_value_pairs := None;
     Partial.documents := None |}.

Lemma adapter_raises_on_null_cells_witness :
  (exists out,
      Env.value (Partial._process_azure_result sparse_tables) Env.idle = inr out
      /\ has_sequences out)
  /\ Env.value (Partial._process_azure_result null_cells) Env.idle
     = inl (Partial.HTTPException 500
              "Error processing document: 'NoneType' object is not iterable").
Proof.
  split.
  - apply (proj1 (proj2 (proj2 adapter_raises_on_null_cells)) sparse_tables Env.idle).
    apply Forall_cons; [discriminate|]. apply Forall_cons; [discriminate|]. apply Forall_nil.
  - apply (proj1 (proj2 adapter_raises_on_null_cells) null_cells Env.idle).
    apply Exists_cons_hd. reflexivity.
Defined.

(** ** Numeric coercion *)

(** The three steps as one chain on a field: when the field has no
    [value_number] and no number is found in [value_string], the number
    its text gives once [$] and [,] are removed is the value. *)
Definition coercion_is_a_chain : Prop :=
  forall f text v,
    (Complete.Sdk.value_number f = None \/ Complete.Sdk.value_number f = Some PNone) ->
    (forall s, Complete.Sdk.value_string f = Some s -> nonempty s = true ->
               Complete.number_in_string s = None) ->
    Complete.Sdk.field_content f = Some text ->
    Complete.cell_number text = inr v ->
    Complete.field_value f = PFloat v.

(** C6, as stated, fails.  A field that has the text [$1,234.50], no
    [value_number] and no [value_string] keeps its text: the mapper does
    not go on to the third step, which would give 1234.5. *)
Lemma coercion_stops_at_the_string : ~ coercion_is_a_chain.
Proof.
  intros H.
  destruct (Complete.cell_number "$1,234.50") as [e|v] eqn:E; [discriminate E|].
  specialize (H (text_field "$1,234.50") "$1,234.50" v (or_introl eq_refl)).
  assert (F : Complete.field_value (text_field "$1,234.50") = PFloat v).
  { apply H; [intros s [=]|reflexivity|exact E]. }
  discriminate F.
Qed.

(** A label with an amount on its right, and one with a word. *)
Definition priced_row : list (Z * Z * string) :=
  [(0, 0, "Revenue"); (0, 1, "$1,234.50")].

Definition worded_row : list (Z * Z * string) :=
  [(0, 0, "Revenue"); (0, 1, "abc")].

(** C6, amended.  The mapper of [document_analysis_complete.py] takes
    [value_number] as it is when the field has one; otherwise, when
    [value_string] is not empty, the float read from the first match of
    the regular expression in the string without its commas; when
    neither gives a number the field keeps its text and nothing else is
    tried.  The third step belongs to the table extractors, which read a
    cell by removing [$] and [,] and applying [float]: the column scan of
    [_extract_pnl_from_tables] and the cell scan of
    [_find_adjacent_value] take the first cell of their order that
    converts, a [ValueError] making them pass on to the next cell, and
    [_find_adjacent_value] answers [0.0] when no cell converts.  The text
    [$1,234.50] gives 1234.5 as a [value_string] and as a cell of either
    extractor; [abc] gives no number in any of the three. *)
Theorem numeric_coercion :
  (forall f n,
      Complete.Sdk.value_number f = Some n -> n <> PNone ->
      Complete.field_value f = n)
  /\ (forall f s m x,
         (Complete.Sdk.value_number f = None \/ Complete.Sdk.value_number f = Some PNone) ->
         Complete.Sdk.value_string f = Some s -> nonempty s = true ->
         search_numeric (remove_char "," s) = Some m ->
         float_of_string m = inr x ->
         Complete.field_value f = PFloat x)
  /\ (forall f,
         (Complete.Sdk.value_number f = None \/ Complete.Sdk.value_number f = Some PNone) ->
         (forall s, Complete.Sdk.value_string f = Some s -> nonempty s = true ->
                    Complete.number_in_string s = None) ->
         Complete.field_value f = Complete.content_value f)
  /\ (forall row_data col rest v,
         col > 0 ->
         float_of_string (strip (remove_char "," (remove_char "$" (RowValue.text_at row_data col))))
         = inr v ->
         Complete.scan_columns row_data (col :: rest) = Some v)
  /\ (forall row_data col rest,
         float_of_string (strip (remove_char "," (remove_char "$" (RowValue.text_at row_data col))))
         = inl ValueError ->
         Complete.scan_columns row_data (col :: rest) = Complete.scan_columns row_data rest)
  /\ (forall table target before cell rest v,
         Active.cells table = (before ++ cell :: rest)%list ->
         Forall (fun c =>
                   Active.rowIndex c = Active.rowIndex target ->
                   Active.columnIndex c <> Active.columnIndex target ->
                   float_of_string
                     (strip (remove_char "," (remove_char "$" (Active.content c))))
                   = inl ValueError)
                before ->
         Active.rowIndex cell = Active.rowIndex target ->
         Active.columnIndex cell <> Active.columnIndex target ->
         float_of_string (strip (remove_char "," (remove_char "$" (Active.content cell))))
         = inr v ->
         Active._find_adjacent_value table target = v)
  /\ (forall table target,
         Forall (fun c =>
                   Active.rowIndex c = Active.rowIndex target ->
                   Active.columnIndex c <> Active.columnIndex target ->
                   float_of_string
                     (strip (remove_char "," (remove_char "$" (Active.content c))))
                   = inl ValueError)
                (Active.cells table) ->
         Active._find_adjacent_value table target = S754_zero false)
  /\ (exists x,
         denotes x (12345 # 10)
         /\ Complete.number_in_string "$1,234.50" = Some (PFloat x)
         /\ Complete.row_value [(0, "Revenue"); (1, "$1,234.50")] = Some x
         /\ Active._find_adjacent_value
              (Active.table_data (active_table priced_row))
              (Active.cell_data (active_cell (0, 0, "Revenue")))
            = x)
  /\ (Complete.number_in_string "abc" = None
      /\ Complete.row_value [(0, "Revenue"); (1, "abc")] = None
      /\ Active.cell_number "abc" = inl ValueError
      /\ Active._find_adjacent_value
           (Active.table_data (active_table worded_row))
           (Active.cell_data (active_cell (0, 0, "Revenue")))
         = S754_zero false).
Proof.
  assert (S : forall target cs,
             Forall (fun c =>
                       Active.rowIndex c = Active.rowIndex target ->
                       Active.columnIndex c <> Active.columnIndex target ->
                       float_of_string
                         (strip (remove_char "," (remove_char "$" (Active.content c))))
                       = inl ValueError) cs ->
             Forall (RowValue.skipped (Active.rowIndex target) (Active.columnIndex target)) cs).
  { intros target cs H. induction H as [|c l Hc _ IH]; constructor; [|exact IH].
    intros [Hrow Hcol]. exact (Hc Hrow Hcol). }
  split; [|split; [|split; [|split; [|split; [|split; [|split; [|split]]]]]]].
  - intros f n Hn Hnone. unfold Complete.field_value. rewrite Hn.
    destruct n; try reflexivity. contradiction.
  - intros f s m x Hn Hs Hne Hm Hx. unfold Complete.field_value, Complete.number_in_string.
    destruct Hn as [-> | ->]; now rewrite Hs, Hne, Hm, Hx.
  - intros f Hn Hs. unfold Complete.field_value.
    destruct Hn as [-> | ->];
      (destruct (Complete.Sdk.value_string f) as [s|] eqn:Es; [|reflexivity];
       destruct (nonempty s) eqn:En; [|reflexivity];
       now rewrite (Hs s eq_refl En)).
  - intros row_data col rest v Hpos Hv. rewrite RowValue.scan_columns_cons.
    unfold RowValue.taken, Complete.cell_number.
    replace (col >? 0) with true by (symmetry; apply Z.gtb_lt; lia).
    now rewrite Hv.
  - intros row_data col rest Hv. rewrite RowValue.scan_columns_cons.
    unfold RowValue.taken, Complete.cell_number. rewrite Hv. now destruct (col >? 0).
  - intros table target before cell rest v Hcells Hb Hrow Hcol Hv.
    unfold Active._find_adjacent_value. rewrite Hcells.
    apply RowValue.adjacent_scan_first; [now apply S|now split|exact Hv].
  - intros table target H. unfold Active._find_adjacent_value.
    apply RowValue.adjacent_scan_none. now apply S.
  - eexists. split; [|repeat split; vm_compute; reflexivity].
    vm_compute. reflexivity.
  - repeat split; vm_compute; reflexivity.
Qed.

(** A field whose string holds no digit and whose text is an amount. *)
Definition worded_string : Complete.Sdk.Field :=
  {| Complete.Sdk.field_content := Some "$5,000";
     Complete.Sdk.field_confidence := PFloat (float_of_decimal false 9 (-1));
     Complete.Sdk.value_number := None;
     Complete.Sdk.value_string := Some "abc" |}.

(** A row in which a word stands between the label and the amount. *)
Definition word_then_amount : list (Z * Z * string) :=
  [(0, 0, "Revenue"); (0, 1, "abc"); (0, 2, "$1,234.50")].

(** The field keeps its text [$5,000]; the cell scan passes the word and
    takes the amount. *)
Lemma numeric_coercion_witness :
  Complete.field_value worded_string = PStr "$5,000"
  /\ exists x,
       denotes x (12345 # 10)
       /\ Active._find_adjacent_value
            (Active.table_data (active_table word_then_amount))
            (Active.cell_data (active_cell (0, 0, "Revenue")))
          = x.
Proof.
  split.
  - apply (proj1 (proj2 (proj2 numeric_coercion)) worded_string).
    + left. reflexivity.
    + intros s [= <-] _. vm_compute. reflexivity.
  - exists (float_of_decimal false 12345 (-1)). split; [vm_compute; reflexivity|].
    apply (proj1 (proj2 (proj2 (proj2 (proj2 (proj2 numeric_coercion)))))
             (Active.table_data (active_table word_then_amount))
             (Active.cell_data (active_cell (0, 0, "Revenue")))
             [Active.cell_data (active_cell (0, 0, "Revenue"));
              Active.cell_data (active_cell (0, 1, "abc"))]
             (Active.cell_data (active_cell (0, 2, "$1,234.50")))
             []).
    + reflexivity.
    + apply Forall_cons; [|apply Forall_cons; [|apply Forall_nil]].
      * intros _ Hcol. now contradiction Hcol.
      * intros _ _. vm_compute. reflexivity.
    + reflexivity.
    + discriminate.
    + vm_compute. reflexivity.
Defined.

(** ** Two runs *)

(** C9.  The value each module returns is a function of the result of
    the provider alone: it is the same in any two worlds, whatever the
    clock reads and whatever was logged before, and the two dates of the
    wrapper are the constants of the source. *)
Theorem two_runs_agree :
  (forall result w1 w2,
      Env.value (Active._process_azure_result result) w1
      = Env.value (Active._process_azure_result result) w2)
  /\ (forall result w1 w2,
         Env.value (Complete._process_azure_result result) w1
         = Env.value (Complete._process_azure_result result) w2)
  /\ (forall result w,
         let out := Env.value (Active._process_azure_result result) w in
         path ["status"] out = Some (PStr "succeeded")
         /\ path ["createdDateTime"] out = Some (PStr "2025-01-10T21:00:00Z")
         /\ path ["lastUpdatedDateTime"] out = Some (PStr "2025-01-10T21:00:05Z"))
  /\ (forall result w,
         let out := Env.value (Complete._process_azure_result result) w in
         path ["status"] out = Some (PStr "succeeded")
         /\ path ["createdDateTime"] out = Some (PStr "2025-01-10T21:00:00Z")
         /\ path ["lastUpdatedDateTime"] out = Some (PStr "2025-01-10T21:00:05Z")).
Proof.
  split; [|split; [|split]].
  - intros result w1 w2. now rewrite !Results.active_value.
  - intros result w1 w2. now rewrite !Results.complete_value.
  - intros result w out. subst out. rewrite Results.active_value. now repeat split.
  - intros result w out. subst out. rewrite Results.complete_value. now repeat split.
Qed.

(** ** The one document of [document_analysis.py] *)

(** The dict stored under the name of a field. *)
Definition field_entry (e : Active.ExtractedField) : pyval :=
  PDict [("type", Active.type e);
         ("value", Active.value e);
         ("valueString", Active.valueString e);
         ("confidence", Active.confidence e);
         ("content", Active.fieldContent e)].

Lemma item_render_fields name (d : sdict Active.ExtractedField) :
  item name (Active.render_fields d) = option_map field_entry (sget name d).
Proof.
  unfold Active.render_fields, item, sget.
  induction d as [|[k e] d IH]; simpl; [reflexivity|].
  destruct (String.eqb name k); [reflexivity|exact IH].
Qed.

Lemma update_nil {V} (items : sdict V) :
  update String.eqb [] items = [] <-> items = [].
Proof.
  split; [|now intros ->].
  destruct items as [|[k v] items]; [reflexivity|]. intros H.
  assert (E : sget k (update String.eqb [] ((k, v) :: items)) = None) by now rewrite H.
  rewrite PyFacts.sget_update in E. simpl in E. unfold slast in E. simpl in E.
  rewrite String.eqb_refl in E.
  now destruct (last_value String.eqb k items).
Qed.

(** C10.  Whatever the result of the provider, the output of
    [document_analysis.py] has exactly one document, of type [PNL] and
    confidence 0.85.  Every field of a document of the provider that
    passes the keyword test is in the field map of this document under
    its name, with the value of the last such field of that name, the
    documents taken in their order; when at least one field passes, the
    map has no other name; when none passes, in particular when the
    provider gives no document, the map is that of the fields found in
    the tables. *)
Theorem one_pnl_document (result : Active.Sdk.AnalyzeResult) (w : Env.world) :
  let upstream := Active.each (Active.Sdk.documents result) in
  let tables := map Active.table_data (Active.each (Active.Sdk.tables result)) in
  exists doc x,
    output_documents (Env.value (Active._process_azure_result result) w) = Some (PList [doc])
    /\ path ["docType"] doc = Some (PStr "PNL")
    /\ float_of_string "0.85" = inr x
    /\ path ["confidence"] doc = Some (PFloat x)
    /\ (forall name e,
          slast name (Mapper.kept upstream) = Some e ->
          path ["fields"; name] doc = Some (field_entry e))
    /\ (Mapper.kept upstream <> [] ->
        forall name,
          slast name (Mapper.kept upstream) = None -> path ["fields"; name] doc = None)
    /\ (Mapper.kept upstream = [] ->
        forall name,
          path ["fields"; name] doc
          = option_map field_entry (sget name (Active.content_fields tables)))
    /\ (forall name,
          sget name (Active.document_fields upstream) = slast name (Mapper.kept upstream)).
Proof.
  intros upstream tables. rewrite Results.active_value.
  exists (Active.render_doc (Results.active_document result)).
  exists (float_of_decimal false 85 (-2)).
  split; [reflexivity|]. split; [reflexivity|].
  split; [vm_compute; reflexivity|]. split; [reflexivity|].
  assert (P : forall name,
             path ["fields"; name] (Active.render_doc (Results.active_document result))
             = option_map field_entry (sget name (Results.active_fields result))).
  { intros name. cbn [path Active.render_doc item sget get String.eqb Ascii.eqb Bool.eqb
                        Results.active_document Active.fields].
    change (get String.eqb "fields" _) with (Some (Active.render_fields (Results.active_fields result))).
    cbn [path]. rewrite item_render_fields.
    now destruct (sget name (Results.active_fields result)). }
  assert (F : Mapper.kept upstream <> [] ->
              Results.active_fields result = Active.document_fields upstream).
  { intros Hk. unfold Results.active_fields. fold upstream.
    destruct (Active.document_fields upstream) eqn:E; [|reflexivity].
    rewrite Mapper.document_fields_update in E.
    apply (proj1 (update_nil _)) in E. contradiction. }
  split; [|split; [|split]].
  - intros name e He. rewrite P, F.
    + now rewrite Mapper.document_fields_last, He.
    + intros Hk. rewrite Hk in He. discriminate He.
  - intros Hk name Hnone. rewrite P, (F Hk).
    now rewrite Mapper.document_fields_last, Hnone.
  - intros Hk name. rewrite P. unfold Results.active_fields. fold upstream.
    rewrite Mapper.document_fields_update, Hk. reflexivity.
  - intros name. apply Mapper.document_fields_last.
Qed.

Lemma path_app (ks ks' : list string) (v : pyval) :
  path (ks ++ ks') v
  = match path ks v with Some v' => path ks' v' | None => None end.
Proof.
  revert v. induction ks as [|k ks IH]; intros v; simpl; [reflexivity|].
  destruct (item k v); [apply IH|reflexivity].
Qed.

(** Two documents of the provider that both have [Revenue]; the second
    has [NetIncome] too. *)
Definition amount_field (v : Z) : Active.Sdk.Field :=
  {| Active.Sdk.value_type := Some (PStr "number");
     Active.Sdk.field_value := Some (PInt v);
     Active.Sdk.field_content := None;
     Active.Sdk.field_confidence := None |}.

Definition two_documents : Active.Sdk.AnalyzeResult :=
  {| Active.Sdk.api_version := None;
     Active.Sdk.model_id := None;
     Active.Sdk.result_content := None;
     Active.Sdk.pages := None;
     Active.Sdk.tables := Some [active_table revenue_then_sales];
     Active.Sdk.key_value_pairs := None;
     Active.Sdk.documents :=
       Some [{| Active.Sdk.fields := Some [("Revenue", amount_field 100)] |};
             {| Active.Sdk.fields :=
                  Some [("Revenue", amount_field 200); ("NetIncome", amount_field 50)] |}] |}.

(** The one document of the output has the [Revenue] of the second
    document, its [NetIncome], and no field from the table. *)
Lemma one_pnl_document_witness :
  exists doc,
    output_documents (Env.value (Active._process_azure_result two_documents) Env.idle)
    = Some (PList [doc])
    /\ path ["fields"; "Revenue"; "value"] doc = Some (PInt 200)
    /\ path ["fields"; "NetIncome"; "value"] doc = Some (PInt 50)
    /\ path ["fields"; "pnl_total_revenue"] doc = None.
Proof.
  destruct (one_pnl_document two_documents Env.idle)
    as (doc & x & Hdoc & _ & _ & _ & Hin & Hout & _ & _).
  exists doc. split; [exact Hdoc|]. split; [|split].
  - rewrite (path_app ["fields"; "Revenue"] ["value"]).
    rewrite (Hin "Revenue" (Active.extracted_field (amount_field 200)))
      by (vm_compute; reflexivity).
    reflexivity.
  - rewrite (path_app ["fields"; "NetIncome"] ["value"]).
    rewrite (Hin "NetIncome" (Active.extracted_field (amount_field 50)))
      by (vm_compute; reflexivity).
    reflexivity.
  - apply Hout; [discriminate|vm_compute; reflexivity].
Defined.

(* ================================================================== *)
(** * Further properties of the two modules *)
(* ================================================================== *)

(** ** The grid of [_extract_pnl_from_tables] *)

Module Grid.
Import Py PyFacts.

(** [table_data[row][col]], when both keys are present *)
Definition grid_text (grid : zdict (zdict string)) (row col : Z) : option string :=
  match zget row grid with
  | Some row_data => zget col row_data
  | None => None
  end.

Definition at_position (row col : Z) (c : Complete.CellData) : bool :=
  (Complete.rowIndex c =? row) && (Complete.columnIndex c =? col).

(** The last cell of the list at a position. *)
Fixpoint last_cell (row col : Z) (cs : list Complete.CellData) : option Complete.CellData :=
  match cs with
  | [] => None
  | c :: r =>
      match last_cell row col r with
      | Some c' => Some c'
      | None => if at_position row col c then Some c else None
      end
  end.

Lemma z_eqb_eq (a b : Z) : (a =? b) = true <-> a = b.
Proof. apply Z.eqb_eq. Qed.

Lemma add_cell_text grid c row col :
  grid_text (Complete.add_cell grid c) row col
  = if at_position row col c then Some (strip (Complete.content c))
    else grid_text grid row col.
Proof.
  unfold grid_text, Complete.add_cell, at_position, zget, zset.
  destruct (Complete.rowIndex c =? row) eqn:Er; simpl.
  - apply Z.eqb_eq in Er. subst row.
    rewrite (get_set_same _ z_eqb_eq).
    destruct (Complete.columnIndex c =? col) eqn:Ec.
    + apply Z.eqb_eq in Ec. subst col. apply (get_set_same _ z_eqb_eq).
    + rewrite (get_set_other _ z_eqb_eq)
        by (intros ->; now rewrite Z.eqb_refl in Ec).
      now destruct (get Z.eqb (Complete.rowIndex c) grid).
  - rewrite (get_set_other _ z_eqb_eq); [reflexivity|].
    intros ->. now rewrite Z.eqb_refl in Er.
Qed.

Lemma fold_add_cell_text cs row col : forall grid,
  grid_text (fold_left Complete.add_cell cs grid) row col
  = match last_cell row col cs with
    | Some c => Some (strip (Complete.content c))
    | None => grid_text grid row col
    end.
Proof.
  induction cs as [|c cs IH]; intros grid; simpl; [reflexivity|].
  rewrite IH. destruct (last_cell row col cs); [reflexivity|].
  rewrite add_cell_text. now destruct (at_position row col c).
Qed.

(** Every row of the grid is the first, and only, entry of its index. *)
Lemma in_set_cases {V} (k k' : Z) (v v' : V) (d : zdict V) :
  In (k', v') (zset k v d) -> In (k', v') d \/ (k' = k /\ v' = v).
Proof.
  unfold zset. induction d as [|[k2 v2] d IH]; simpl.
  - intros [[= <- <-]|[]]. now right.
  - destruct (k =? k2) eqn:E; simpl.
    + apply Z.eqb_eq in E. subst k2. intros [[= <- <-]|H]; [now right|left; now right].
    + intros [H|H]; [left; now left|].
      destruct (IH H) as [H'|H']; [left; now right|now right].
Qed.

Lemma get_in {V} (k : Z) (v : V) (d : zdict V) : zget k d = Some v -> In (k, v) d.
Proof.
  unfold zget. induction d as [|[k2 v2] d IH]; simpl; [discriminate|].
  destruct (k =? k2) eqn:E.
  - apply Z.eqb_eq in E. subst k2. intros [= ->]. now left.
  - intros H. right. now apply IH.
Qed.

(** A property of the texts of a row that every cell keeps. *)
Lemma rows_invariant (P : zdict string -> Prop) cs :
  P [] ->
  (forall c row_data, In c cs -> P row_data ->
     P (zset (Complete.columnIndex c) (strip (Complete.content c)) row_data)) ->
  forall grid,
    (forall row row_data, In (row, row_data) grid -> P row_data) ->
    forall row row_data,
      In (row, row_data) (fold_left Complete.add_cell cs grid) -> P row_data.
Proof.
  intros Hnil. induction cs as [|c cs IH]; intros Hstep grid Hg; simpl; [exact Hg|].
  apply IH.
  - intros c' rd Hin. apply Hstep. now right.
  - intros row rd Hin. unfold Complete.add_cell in Hin.
    apply in_set_cases in Hin as [Hin|[-> ->]]; [now apply (Hg row)|].
    apply Hstep; [now left|].
    destruct (zget (Complete.rowIndex c) grid) as [r0|] eqn:E; simpl; [|exact Hnil].
    apply get_in in E. now apply (Hg _ _ E).
Qed.

End Grid.

(** X1.  After the cells of a table are put in the grid, the text at a
    row and a column is the stripped content of the last cell of the
    table with these indices, and there is no text where the table has
    no cell: of two cells at one position the later replaces the
    earlier. *)
Theorem grid_holds_last_cell (cs : list Complete.CellData) (row col : Z) :
  Grid.grid_text (Complete.build_grid cs) row col
  = option_map (fun c => strip (Complete.content c)) (Grid.last_cell row col cs).
Proof.
  unfold Complete.build_grid. rewrite Grid.fold_add_cell_text.
  now destruct (Grid.last_cell row col cs).
Qed.

(** X2.  A table without a cell in column 0 gives no field: whatever
    its other cells hold, the fields found so far are left as they
    are. *)
Theorem table_without_labels (fields : sdict Complete.ExtractedField) (t : Complete.TableData) :
  (forall c, In c (Complete.cells t) -> Complete.columnIndex c <> 0) ->
  Complete.table_step fields t = fields.
Proof.
  intros Hcol. rewrite Rows.table_step_fold.
  assert (Hrows : forall row row_data,
             In (row, row_data) (Complete.build_grid (Complete.cells t)) ->
             zget 0 row_data = None).
  { apply (Grid.rows_invariant (fun rd => zget 0 rd = None)); [reflexivity| |intros ? ? []].
    intros c rd Hin Hrd. unfold zget, zset.
    rewrite (PyFacts.get_set_other _ Grid.z_eqb_eq); [exact Hrd|].
    intros E. apply (Hcol c Hin). now symmetry. }
  revert fields.
  induction (Complete.build_grid (Complete.cells t)) as [|[row rd] g IH]; intros fields;
    simpl; [reflexivity|].
  rewrite IH by (intros r' rd' Hin; apply (Hrows r'); now right).
  unfold Complete.row_step, Complete.row_entry. simpl.
  now rewrite (Hrows row rd (or_introl eq_refl)).
Qed.

Definition amounts_only : list (Z * Z * string) :=
  [(0, 1, "Revenue"); (0, 2, "$100")].

Lemma table_without_labels_witness :
  Complete.table_step [] (Complete.table_data (complete_table amounts_only)) = [].
Proof.
  apply table_without_labels.
  intros c [<-|[<-|[]]]; simpl; discriminate.
Defined.

(** ** Where the fields of the table extractors come from *)

Module Provenance.
Import Py PyFacts.

(** The fields [_extract_pnl_from_tables] can assign. *)
Definition table_fields : list string :=
  ["pnl_total_revenue"; "pnl_cost_of_goods_sold"; "pnl_gross_profit";
   "pnl_operating_expenses"; "pnl_net_income"].

Lemma in_update {V} (key : string) (e : V) (items : sdict V) :
  sget key (update String.eqb [] items) = Some e -> In (key, e) items.
Proof.
  rewrite sget_update. simpl.
  destruct (slast key items) as [v|] eqn:E; [|discriminate].
  intros [= ->]. now apply (last_value_In _ string_eqb_eq).
Qed.

Lemma pnl_key_in label key : Complete.pnl_key label = Some key -> In key table_fields.
Proof.
  unfold Complete.pnl_key, table_fields.
  repeat match goal with
         | |- context [if ?b then _ else _] => destruct b
         end; intros [= <-]; simpl; tauto.
Qed.

Lemma in_as_fields {F} (mk : float -> F) key e l :
  In (key, e) (Rows.as_fields mk l) -> exists v, In (key, v) l /\ e = mk v.
Proof.
  unfold Rows.as_fields. intros H.
  apply in_map_iff in H as ([k v] & [= <- <-] & Hin). now exists v.
Qed.

End Provenance.

(** X3.  Every field [_extract_pnl_from_tables] returns comes from a
    row of a table: the row has a label in column 0 whose lower-case
    form is classified as the key of the field, and the value of the
    field is the number the row scan takes.  The key is one of five:
    [pnl_other_income] and [pnl_other_expenses] are never returned. *)
Theorem table_fields_come_from_rows tables key e :
  sget key (Complete._extract_pnl_from_tables tables) = Some e ->
  In key Provenance.table_fields
  /\ exists row_data label v,
       In row_data (Rows.grid_rows tables)
       /\ zget 0 row_data = Some label
       /\ Complete.pnl_key (lower label) = Some key
       /\ Complete.row_value row_data = Some v
       /\ e = Complete.currency_field v.
Proof.
  intros H. rewrite Rows.extract_is_update in H.
  apply Provenance.in_update, Provenance.in_as_fields in H as (v & Hin & ->).
  unfold Rows.row_entries in Hin. apply in_flat_map in Hin as (rd & Hrd & Hin).
  unfold Rows.entry_of, Complete.row_entry in Hin.
  destruct (zget 0 rd) as [label|] eqn:El; [|contradiction].
  destruct (Complete.row_value rd) as [v'|] eqn:Ev; [|contradiction].
  destruct (Complete.pnl_key (lower label)) as [k|] eqn:Ek; [|contradiction].
  destruct Hin as [[= -> ->]|[]].
  split; [exact (Provenance.pnl_key_in _ _ Ek)|].
  exists rd, label, v. repeat split; assumption.
Qed.

Lemma table_fields_come_from_rows_witness :
  In "pnl_total_revenue" Provenance.table_fields
  /\ exists row_data label v,
       In row_data
         (Rows.grid_rows [Complete.table_data (complete_table revenue_then_sales)])
       /\ zget 0 row_data = Some label
       /\ Complete.pnl_key (lower label) = Some "pnl_total_revenue"
       /\ Complete.row_value row_data = Some v
       /\ Complete.currency_field (float_of_int 200) = Complete.currency_field v.
Proof.
  apply (table_fields_come_from_rows
           [Complete.table_data (complete_table revenue_then_sales)]).
  vm_compute. reflexivity.
Defined.

(** ** The names the field mapper gives *)

Module Names.
Import Py PyFacts.

Lemma lower_char_twice c : lower_char (lower_char c) = lower_char c.
Proof. destruct c as [[] [] [] [] [] [] [] []]; reflexivity. Qed.

Lemma lower_twice s : lower (lower s) = lower s.
Proof.
  induction s as [|c r IH]; simpl; [reflexivity|].
  now rewrite lower_char_twice, IH.
Qed.

Lemma key_in {V} (k : string) (v : V) (d : sdict V) : sget k d = Some v -> In k (map fst d).
Proof.
  unfold sget. induction d as [|[k' v'] d IH]; simpl; [discriminate|].
  destruct (String.eqb k k') eqn:E.
  - apply String.eqb_eq in E. subst. now left.
  - intros H. right. now apply IH.
Qed.

(** No alias is written in lower case. *)
Lemma lowered_is_no_alias name : sget (lower name) Complete.pnl_field_mapping = None.
Proof.
  destruct (sget (lower name) Complete.pnl_field_mapping) as [c|] eqn:E; [|reflexivity].
  apply key_in in E. exfalso.
  assert (H : forall k, k = lower name -> lower k = k)
    by (intros k ->; apply lower_twice).
  simpl in E.
  repeat (destruct E as [E|E]; [apply H in E; vm_compute in E; discriminate E|]).
  contradiction.
Qed.

Section Fresh.
Context {V : Type}.

Lemma get_app_none (k : string) (d1 d2 : sdict V) :
  sget k d1 = None -> sget k (d1 ++ d2)%list = sget k d2.
Proof.
  unfold sget. induction d1 as [|[k' v'] d1 IH]; simpl; [reflexivity|].
  destruct (String.eqb k k'); [discriminate|exact IH].
Qed.

Lemma set_fresh (k : string) (v : V) (d : sdict V) :
  sget k d = None -> sset k v d = (d ++ [(k, v)])%list.
Proof.
  unfold sget, sset. induction d as [|[k' v'] d IH]; simpl; [reflexivity|].
  destruct (String.eqb k k'); [discriminate|]. intros H. now rewrite IH.
Qed.

Lemma update_fresh (items : sdict V) : forall d : sdict V,
  NoDup (map fst items) ->
  (forall k, In k (map fst items) -> sget k d = None) ->
  update String.eqb d items = (d ++ items)%list.
Proof.
  unfold update.
  induction items as [|[k v] items IH]; intros d Hnd Hd; simpl.
  - now rewrite app_nil_r.
  - inversion Hnd as [|? ? Hk Hnd']; subst.
    fold (sset k v d). rewrite set_fresh by (apply Hd; now left).
    rewrite IH.
    + now rewrite <- app_assoc.
    + exact Hnd'.
    + intros k' Hin. rewrite get_app_none by (apply Hd; now right).
      unfold sget. simpl. destruct (String.eqb k' k) eqn:E; [|reflexivity].
      apply String.eqb_eq in E. subst. contradiction.
Qed.
End Fresh.

End Names.

(** X4.  The name under which the mapper of
    [document_analysis_complete.py] stores a field is in lower case, and
    mapping it again gives the same name: no alias of the table is
    written in lower case, so a name the mapper produced is never taken
    for a vendor alias. *)
Theorem mapped_names_are_stable (name : string) :
  lower (Complete.mapped_field_name name) = Complete.mapped_field_name name
  /\ Complete.mapped_field_name (Complete.mapped_field_name name)
     = Complete.mapped_field_name name.
Proof.
  destruct (sget name Complete.pnl_field_mapping) as [c|] eqn:E.
  - replace (Complete.mapped_field_name name) with c
      by (unfold Complete.mapped_field_name; now rewrite E).
    apply Mapper.get_In in E. simpl in E.
    repeat (destruct E as [<-|E]; [split; reflexivity|]). contradiction.
  - replace (Complete.mapped_field_name name) with (lower name)
      by (unfold Complete.mapped_field_name; now rewrite E).
    split; [apply Names.lower_twice|].
    unfold Complete.mapped_field_name.
    rewrite Names.lowered_is_no_alias. simpl. apply Names.lower_twice.
Qed.

(** X5.  When no two fields of a document have the same mapped name,
    the mapper keeps them all: the output has one entry for each field
    of the document, in the order of the document. *)
Theorem distinct_names_are_all_kept (items : list (string * Complete.Sdk.Field)) :
  NoDup (map (fun item => Complete.mapped_field_name (fst item)) items) ->
  Complete.map_fields items = Mapper.mapped items.
Proof.
  intros Hnd. rewrite Mapper.map_fields_update.
  rewrite Names.update_fresh; [reflexivity| |reflexivity].
  unfold Mapper.mapped. now rewrite map_map.
Qed.

Definition revenue_and_cogs : list (string * Complete.Sdk.Field) :=
  [("Revenue", text_field "$100"); ("COGS", text_field "$40")].

Lemma distinct_names_are_all_kept_witness :
  Complete.map_fields revenue_and_cogs = Mapper.mapped revenue_and_cogs.
Proof.
  apply distinct_names_are_all_kept. simpl.
  repeat constructor; simpl; [|tauto]. intros [E|[]]. discriminate E.
Defined.

(** ** The number in [value_string] *)

Module Digits.
Import Py.

Fixpoint all (p : ascii -> bool) (s : string) : bool :=
  match s with
  | EmptyString => true
  | String c r => p c && all p r
  end.

Fixpoint has (p : ascii -> bool) (s : string) : bool :=
  match s with
  | EmptyString => false
  | String c r => p c || has p r
  end.

(** [s] has a decimal digit. *)
Definition has_digit (s : string) : bool := has is_digit s.

(** The sign bit of a float that is not a NaN. *)
Definition negative (x : float) : bool :=
  match x with
  | S754_zero s | S754_infinity s | S754_finite s _ _ => s
  | S754_nan => false
  end.

Definition no_comma (s : string) : bool := all (fun c => negb (Ascii.eqb c ",")) s.

Definition numeric_char (c : ascii) : bool := is_digit c || Ascii.eqb c ".".

(** *** Characters *)

Lemma digit_no_space c : is_digit c = true -> is_space c = false.
Proof. destruct c as [[] [] [] [] [] [] [] []]; try discriminate; reflexivity. Qed.

Lemma numeric_no_space c : numeric_char c = true -> is_space c = false.
Proof. destruct c as [[] [] [] [] [] [] [] []]; try discriminate; reflexivity. Qed.

Lemma digit_sign c r : is_digit c = true -> sign (String c r) = (false, String c r).
Proof. destruct c as [[] [] [] [] [] [] [] []]; try discriminate; reflexivity. Qed.

Lemma digit_not_word c r :
  is_digit c = true ->
  String.eqb (lower (String c r)) "inf" || String.eqb (lower (String c r)) "infinity" = false
  /\ String.eqb (lower (String c r)) "nan" = false.
Proof. destruct c as [[] [] [] [] [] [] [] []]; try discriminate; split; reflexivity. Qed.

Lemma digit_not_underscore c : is_digit c = true -> Ascii.eqb c "_" = false.
Proof. destruct c as [[] [] [] [] [] [] [] []]; try discriminate; reflexivity. Qed.

(** *** [strip] leaves a text without blanks as it is *)

Lemma rstrip_no_space s :
  all (fun c => negb (is_space c)) s = true -> rstrip s = s.
Proof.
  induction s as [|c r IH]; simpl; [reflexivity|].
  intros H. apply andb_prop in H as [Hc Hr]. rewrite (IH Hr).
  apply negb_true_iff in Hc. rewrite Hc. now destruct r.
Qed.

Lemma lstrip_no_space s :
  all (fun c => negb (is_space c)) s = true -> lstrip s = s.
Proof.
  destruct s as [|c r]; simpl; [reflexivity|].
  intros H. apply andb_prop in H as [Hc _]. apply negb_true_iff in Hc. now rewrite Hc.
Qed.

Lemma all_impl (p q : ascii -> bool) s :
  (forall c, p c = true -> q c = true) -> all p s = true -> all q s = true.
Proof.
  intros H. induction s as [|c r IH]; simpl; [reflexivity|].
  intros Hs. apply andb_prop in Hs as [Hc Hr]. now rewrite (H c Hc), IH.
Qed.

Lemma strip_numeric s : all numeric_char s = true -> strip s = s.
Proof.
  intros H.
  assert (Hs : all (fun c => negb (is_space c)) s = true).
  { apply (all_impl numeric_char); [|exact H].
    intros c Hc. now rewrite (numeric_no_space c Hc). }
  unfold strip. now rewrite (lstrip_no_space s Hs), (rstrip_no_space s Hs).
Qed.

Lemma all_app p a b : all p (a ++ b) = all p a && all p b.
Proof.
  induction a as [|c r IH]; simpl; [reflexivity|]. now rewrite IH, andb_assoc.
Qed.

Lemma append_empty (s : string) : s ++ "" = s.
Proof. induction s as [|c r IH]; simpl; [reflexivity|]. now rewrite IH. Qed.

(** *** The digits of a number *)

(** The text after the digits is empty or starts with the point. *)
Definition after_digits (rest : string) : Prop :=
  rest = "" \/ exists r, rest = String "." r.

Lemma digits_rest_all a rest : after_digits rest ->
  all is_digit a = true ->
  forall acc n, exists acc' n', digits_rest (a ++ rest) acc n = (acc', n', rest).
Proof.
  intros Hrest. induction a as [|c r IH]; simpl; intros Ha acc n.
  - destruct Hrest as [->|[r ->]]; do 2 eexists; reflexivity.
  - apply andb_prop in Ha as [Hc Hr]. rewrite Hc. apply (IH Hr).
Qed.

Lemma digitpart_all c a rest acc : after_digits rest ->
  is_digit c = true -> all is_digit a = true ->
  exists m k, digitpart (String c (a ++ rest)) acc = Some (m, k, rest).
Proof.
  intros Hrest Hc Ha. unfold digitpart. rewrite Hc.
  destruct (digits_rest_all a rest Hrest Ha (10 * acc + digit_val c) 1) as (m & k & ->).
  now exists m, k.
Qed.

(** [float] reads every text made of digits, a point and digits. *)
Lemma float_of_digits c a d :
  is_digit c = true -> all is_digit a = true -> all is_digit d = true ->
  forall tail, tail = "" \/ tail = String "." d ->
  exists m e, float_of_string (String c (a ++ tail)) = inr (float_of_decimal false m e).
Proof.
  intros Hc Ha Hd tail Htail.
  assert (Hnum : all numeric_char (String c (a ++ tail)) = true).
  { simpl. unfold numeric_char at 1. rewrite Hc. simpl. rewrite all_app.
    rewrite (all_impl is_digit numeric_char a)
      by (try exact Ha; intros x Hx; unfold numeric_char; now rewrite Hx).
    destruct Htail as [->| ->]; simpl; [reflexivity|].
    apply (all_impl is_digit numeric_char); [|exact Hd].
    intros x Hx. unfold numeric_char. now rewrite Hx. }
  unfold float_of_string. rewrite (strip_numeric _ Hnum), (digit_sign _ _ Hc).
  destruct (digit_not_word c (a ++ tail) Hc) as [-> ->].
  unfold number.
  destruct Htail as [->| ->].
  - destruct (digitpart_all c a "" 0 (or_introl eq_refl) Hc Ha) as (m & k & ->).
    simpl. now exists m, (0 - 0).
  - destruct (digitpart_all c a (String "." d) 0 (or_intror (ex_intro _ d eq_refl)) Hc Ha)
      as (m & k & ->).
    destruct d as [|c' d'].
    + simpl. now exists m, (0 - 0).
    + simpl in Hd. apply andb_prop in Hd as [Hc' Hd'].
      destruct (digitpart_all c' d' "" m (or_introl eq_refl) Hc' Hd') as (m' & k' & E).
      rewrite append_empty in E. rewrite E. simpl. now exists m', (0 - k').
Qed.

(** *** The match of the regular expression *)

Lemma take_while_all p s : all p (fst (take_while p s)) = true.
Proof.
  induction s as [|c r IH]; simpl; [reflexivity|].
  destruct (p c) eqn:E; [|reflexivity].
  destruct (take_while p r) as [a b]. simpl in *. now rewrite E.
Qed.

Lemma take_while_no_comma s :
  no_comma s = true -> all is_digit (fst (take_while is_digit_or_comma s)) = true.
Proof.
  induction s as [|c r IH]; simpl; [reflexivity|].
  intros H. apply andb_prop in H as [Hc Hr]. apply negb_true_iff in Hc.
  destruct (is_digit_or_comma c) eqn:E; [|reflexivity].
  specialize (IH Hr). destruct (take_while is_digit_or_comma r) as [a b]. simpl in *.
  unfold is_digit_or_comma in E. rewrite Hc, orb_false_r in E. now rewrite E.
Qed.

(** The match at the head of a text without commas is read by [float]. *)
Lemma match_numeric_float s m :
  no_comma s = true -> match_numeric s = Some m ->
  exists mant e, float_of_string m = inr (float_of_decimal false mant e).
Proof.
  intros Hs. unfold match_numeric.
  pose proof (take_while_no_comma s Hs) as Ha.
  destruct (take_while is_digit_or_comma s) as [a r]. simpl in Ha.
  destruct a as [|c a]; [discriminate|].
  simpl in Ha. apply andb_prop in Ha as [Hc Ha].
  assert (Hpoint : forall r1, Some (String c a ++ "." ++ fst (take_while is_digit r1)) = Some m ->
            exists mant e, float_of_string m = inr (float_of_decimal false mant e)).
  { intros r1 [= <-]. simpl.
    apply (float_of_digits c a (fst (take_while is_digit r1)) Hc Ha (take_while_all _ _)).
    now right. }
  assert (Hplain : Some (String c a) = Some m ->
            exists mant e, float_of_string m = inr (float_of_decimal false mant e)).
  { intros [= <-]. rewrite <- (append_empty a).
    apply (float_of_digits c a "" Hc Ha eq_refl). now left. }
  destruct r as [|x r1]; [exact Hplain|].
  destruct x as [[] [] [] [] [] [] [] []]; try exact Hplain. apply Hpoint.
Qed.

Lemma search_numeric_float s : no_comma s = true -> forall m,
  search_numeric s = Some m ->
  exists mant e, float_of_string m = inr (float_of_decimal false mant e).
Proof.
  induction s as [|c r IH]; intros Hs m.
  - simpl. discriminate.
  - simpl search_numeric.
    destruct (match_numeric (String c r)) as [m'|] eqn:E.
    + intros [= <-]. exact (match_numeric_float _ _ Hs E).
    + simpl in Hs. apply andb_prop in Hs as [_ Hr]. now apply IH.
Qed.

Lemma match_numeric_none c r :
  match_numeric (String c r) = None <-> is_digit_or_comma c = false.
Proof.
  unfold match_numeric. simpl.
  destruct (is_digit_or_comma c).
  - destruct (take_while is_digit_or_comma r) as [a b].
    split; [|discriminate]. destruct b as [|x b]; [discriminate|].
    destruct x as [[] [] [] [] [] [] [] []]; discriminate.
  - tauto.
Qed.

Lemma search_numeric_none s :
  search_numeric s = None <-> has is_digit_or_comma s = false.
Proof.
  induction s as [|c r IH].
  - simpl. tauto.
  - simpl search_numeric. simpl has.
    destruct (match_numeric (String c r)) as [m|] eqn:E.
    + split; [discriminate|]. intros H. apply orb_false_elim in H as [Hc _].
      apply (proj2 (match_numeric_none c r)) in Hc. congruence.
    + apply (proj1 (match_numeric_none c r)) in E. rewrite E. simpl. exact IH.
Qed.

(** *** Commas *)

Lemma remove_char_cons c d r :
  remove_char c (String d r)
  = if Ascii.eqb c d then remove_char c r else String d (remove_char c r).
Proof. reflexivity. Qed.

Lemma remove_no_comma s : no_comma (remove_char "," s) = true.
Proof.
  unfold no_comma. induction s as [|c r IH]; [reflexivity|].
  rewrite remove_char_cons. destruct (Ascii.eqb "," c) eqn:E; [exact IH|].
  cbn [all]. rewrite Ascii.eqb_sym, E. exact IH.
Qed.

Lemma has_after_remove s :
  has is_digit_or_comma (remove_char "," s) = has_digit s.
Proof.
  unfold has_digit. induction s as [|c r IH]; [reflexivity|].
  rewrite remove_char_cons. cbn [has]. destruct (Ascii.eqb "," c) eqn:E.
  - apply Ascii.eqb_eq in E. subst c. exact IH.
  - cbn [has]. unfold is_digit_or_comma at 1. rewrite Ascii.eqb_sym, E, orb_false_r.
    now rewrite IH.
Qed.

(** *** The sign of what [float] reads without a sign *)

Lemma round_sign m e l :
  negative (binary_round_aux prec emax false m e l) = false.
Proof.
  unfold binary_round_aux.
  destruct (shr_fexp prec emax m e l) as [mrs' e'].
  destruct (shr_fexp prec emax _ e' loc_Exact) as [mrs'' e''].
  destruct (shr_m mrs''); [reflexivity| |reflexivity].
  now destruct (e'' <=? emax - prec).
Qed.

Lemma decimal_sign m e : negative (float_of_decimal false m e) = false.
Proof.
  unfold float_of_decimal. destruct m; [reflexivity| |reflexivity].
  unfold SFdiv.
  destruct (SFdiv_core_binary prec emax _ 0 _ 0) as [[mz ez] lz].
  apply round_sign.
Qed.

End Digits.

(** X6.  The mapper of [document_analysis_complete.py] finds a number
    in [value_string] exactly when the string has a decimal digit: the
    match of the regular expression is always read by [float], so that
    the [except ValueError] of the source is never entered.  The number
    is never negative, the sign of the text not being part of the match.
    A field without [value_number] whose [value_string] has a digit is
    thus always of type [currency]. *)
Theorem value_string_needs_a_digit :
  (forall s, Digits.has_digit s = false -> Complete.number_in_string s = None)
  /\ (forall s, Digits.has_digit s = true ->
        exists x, Complete.number_in_string s = Some (PFloat x) /\ Digits.negative x = false)
  /\ (forall f s,
        (Complete.Sdk.value_number f = None \/ Complete.Sdk.value_number f = Some PNone) ->
        Complete.Sdk.value_string f = Some s ->
        Digits.has_digit s = true ->
        exists x,
          Complete.value (Complete.extracted_field f) = PFloat x
          /\ Digits.negative x = false
          /\ Complete.type (Complete.extracted_field f) = PStr "currency").
Proof.
  assert (Hsome : forall s, Digits.has_digit s = true ->
            exists x, Complete.number_in_string s = Some (PFloat x)
                      /\ Digits.negative x = false).
  { intros s Hd. unfold Complete.number_in_string.
    destruct (search_numeric (remove_char "," s)) as [m|] eqn:E.
    - destruct (Digits.search_numeric_float _ (Digits.remove_no_comma s) m E)
        as (mant & e & ->).
      eexists. split; [reflexivity|]. apply Digits.decimal_sign.
    - apply (proj1 (Digits.search_numeric_none _)) in E.
      rewrite Digits.has_after_remove in E. congruence. }
  split; [|split; [exact Hsome|]].
  - intros s Hd. unfold Complete.number_in_string.
    rewrite <- Digits.has_after_remove in Hd.
    apply (proj2 (Digits.search_numeric_none _)) in Hd. now rewrite Hd.
  - intros f s Hn Hs Hd. destruct (Hsome s Hd) as (x & Hx & Hneg).
    assert (Hne : nonempty s = true) by (destruct s; [discriminate|reflexivity]).
    assert (E : Complete.field_value f = PFloat x).
    { unfold Complete.field_value.
      destruct Hn as [-> | ->]; now rewrite Hs, Hne, Hx. }
    exists x. unfold Complete.extracted_field. simpl. rewrite E. now repeat split.
Qed.

(** A refund: the sign of the text is lost. *)
Definition refund : Complete.Sdk.Field :=
  {| Complete.Sdk.field_content := Some "-$5.50";
     Complete.Sdk.field_confidence := PFloat (float_of_decimal false 9 (-1));
     Complete.Sdk.value_number := None;
     Complete.Sdk.value_string := Some "-$5.50" |}.

Lemma value_string_needs_a_digit_witness :
  exists x,
    Complete.value (Complete.extracted_field refund) = PFloat x
    /\ Digits.negative x = false
    /\ Complete.type (Complete.extracted_field refund) = PStr "currency".
Proof.
  apply (proj2 (proj2 value_string_needs_a_digit) refund "-$5.50").
  - left. reflexivity.
  - reflexivity.
  - reflexivity.
Defined.

(** ** The table search of [document_analysis.py] *)

Module Content.
Import Py PyFacts.

Lemma match_patterns_value table cell text patterns v :
  Active.match_patterns table cell text patterns = Some v ->
  v = Active._find_adjacent_value table cell /\ float_truthy v = true
  /\ exists pattern, In pattern patterns /\ contains pattern text = true.
Proof.
  induction patterns as [|p ps IH]; simpl; [discriminate|].
  destruct (contains p text) eqn:Ep.
  - destruct (float_truthy (Active._find_adjacent_value table cell)) eqn:Et.
    + intros [= <-]. repeat split; [exact Et|]. exists p. split; [now left|exact Ep].
    + intros H. destruct (IH H) as (Hv & Ht & q & Hq & Hc).
      repeat split; try assumption. exists q. split; [now right|exact Hc].
  - intros H. destruct (IH H) as (Hv & Ht & q & Hq & Hc).
    repeat split; try assumption. exists q. split; [now right|exact Hc].
Qed.

Lemma match_patterns_found table cell text patterns pattern :
  In pattern patterns -> contains pattern text = true ->
  float_truthy (Active._find_adjacent_value table cell) = true ->
  Active.match_patterns table cell text patterns
  = Some (Active._find_adjacent_value table cell).
Proof.
  intros Hin Hc Ht. induction patterns as [|p ps IH]; simpl; [contradiction|].
  rewrite Ht. destruct (contains p text) eqn:Ep; [reflexivity|].
  destruct Hin as [->|Hin]; [congruence|]. now apply IH.
Qed.

(** The entries of a cell all carry its adjacent value. *)
Lemma cell_entries_value table cell key v :
  In (key, v) (Rows.cell_entries table cell) ->
  v = Active._find_adjacent_value table cell /\ float_truthy v = true
  /\ exists patterns pattern,
       In (key, patterns) Active.pnl_patterns /\ In pattern patterns
       /\ contains pattern (lower (Active.content cell)) = true.
Proof.
  unfold Rows.cell_entries. intros H.
  apply in_flat_map in H as ([k patterns] & Hk & H).
  unfold Rows.pattern_entry in H. simpl in H.
  destruct (Active.match_patterns table cell (lower (Active.content cell)) patterns)
    as [v'|] eqn:E; [|contradiction].
  destruct H as [[= -> ->]|[]].
  destruct (match_patterns_value _ _ _ _ _ E) as (Hv & Ht & p & Hp & Hc).
  repeat split; try assumption. now exists patterns, p.
Qed.

Lemma cell_entries_found table cell key patterns pattern :
  In (key, patterns) Active.pnl_patterns -> In pattern patterns ->
  contains pattern (lower (Active.content cell)) = true ->
  float_truthy (Active._find_adjacent_value table cell) = true ->
  In (key, Active._find_adjacent_value table cell) (Rows.cell_entries table cell).
Proof.
  intros Hk Hp Hc Ht. unfold Rows.cell_entries.
  apply in_flat_map. exists (key, patterns). split; [exact Hk|].
  unfold Rows.pattern_entry. simpl.
  rewrite (match_patterns_found _ _ _ _ _ Hp Hc Ht). now left.
Qed.

End Content.

(** X7.  [_find_adjacent_value] returns the number of the first cell of
    the table, in the order of the cells, that is in the row of the
    target, in another column (on either side), and whose text converts;
    it returns [0.0] when the table has no such cell. *)
Theorem adjacent_value_is_first (table : Active.TableData) (target : Active.CellData) :
  (forall before cell rest v,
      Active.cells table = (before ++ cell :: rest)%list ->
      Forall (RowValue.skipped (Active.rowIndex target) (Active.columnIndex target)) before ->
      RowValue.adjacent (Active.rowIndex target) (Active.columnIndex target) cell ->
      Active.cell_number (Active.content cell) = inr v ->
      Active._find_adjacent_value table target = v)
  /\ (Forall (RowValue.skipped (Active.rowIndex target) (Active.columnIndex target))
             (Active.cells table) ->
      Active._find_adjacent_value table target = S754_zero false).
Proof.
  unfold Active._find_adjacent_value. split.
  - intros before cell rest v -> Hb Ha Hv. now apply RowValue.adjacent_scan_first.
  - apply RowValue.adjacent_scan_none.
Qed.

(** A year on the left of the label is taken for the amount. *)
Definition year_then_label : list (Z * Z * string) :=
  [(0, 0, "2023"); (0, 1, "Revenue"); (0, 2, "$500")].

Lemma adjacent_value_is_first_witness :
  Active._find_adjacent_value
    (Active.table_data (active_table year_then_label))
    (Active.cell_data (active_cell (0, 1, "Revenue")))
  = float_of_int 2023.
Proof.
  apply (proj1 (adjacent_value_is_first _ _)
           [] (Active.cell_data (active_cell (0, 0, "2023")))
           [Active.cell_data (active_cell (0, 1, "Revenue"));
            Active.cell_data (active_cell (0, 2, "$500"))]).
  - reflexivity.
  - constructor.
  - split; [reflexivity|discriminate].
  - vm_compute. reflexivity.
Defined.

(** X8.  In [_extract_pnl_from_content] a cell whose lower-case text
    contains a pattern of a field, and whose adjacent value is not zero,
    assigns this value to the field; it does so for every field that has
    such a pattern, so that one label may set several fields at once. *)
Theorem label_sets_every_matching_field
    (table : Active.TableData) (acc : sdict Active.ExtractedField) (cell : Active.CellData)
    (key : string) (patterns : list string) (pattern : string) :
  In (key, patterns) Active.pnl_patterns ->
  In pattern patterns ->
  contains pattern (lower (Active.content cell)) = true ->
  float_truthy (Active._find_adjacent_value table cell) = true ->
  sget key (Active.cell_step table acc cell)
  = Some (Active.currency_field (Active._find_adjacent_value table cell)).
Proof.
  intros Hk Hp Hc Ht. rewrite Rows.cell_step_update, PyFacts.sget_update.
  pose proof (Content.cell_entries_found _ _ _ _ _ Hk Hp Hc Ht) as Hin.
  assert (Hin' : In (key, Active.currency_field (Active._find_adjacent_value table cell))
                    (Rows.as_fields Active.currency_field (Rows.cell_entries table cell))).
  { unfold Rows.as_fields. apply in_map_iff.
    exists (key, Active._find_adjacent_value table cell). now split. }
  destruct (PyFacts.In_last_value _ PyFacts.string_eqb_eq _ _ _ Hin') as [e He].
  unfold slast. rewrite He.
  apply (PyFacts.last_value_In _ PyFacts.string_eqb_eq) in He.
  apply Provenance.in_as_fields in He as (v & Hv & ->).
  apply Content.cell_entries_value in Hv as (-> & _). reflexivity.
Qed.

Definition gross_profit_row : list (Z * Z * string) :=
  [(0, 0, "Gross Profit"); (0, 1, "$60,000")].

Lemma label_sets_every_matching_field_witness :
  sget "pnl_net_income"
    (Active.cell_step (Active.table_data (active_table gross_profit_row)) []
       (Active.cell_data (active_cell (0, 0, "Gross Profit"))))
  = Some (Active.currency_field
            (Active._find_adjacent_value
               (Active.table_data (active_table gross_profit_row))
               (Active.cell_data (active_cell (0, 0, "Gross Profit"))))).
Proof.
  apply (label_sets_every_matching_field _ _ _ "pnl_net_income"
           ["net income"; "net profit"; "profit"; "net earnings"] "profit").
  - simpl. tauto.
  - simpl. tauto.
  - vm_compute. reflexivity.
  - vm_compute. reflexivity.
Defined.

(** X9.  Every field [_extract_pnl_from_content] finds comes from a
    cell of a table: the lower-case text of the cell contains a pattern
    of the field, and the value of the field is the adjacent value of
    the cell, which is not zero. *)
Theorem content_fields_come_from_cells tables key e :
  sget key (Active.content_fields tables) = Some e ->
  exists table cell patterns pattern,
    In table tables /\ In cell (Active.cells table)
    /\ In (key, patterns) Active.pnl_patterns /\ In pattern patterns
    /\ contains pattern (lower (Active.content cell)) = true
    /\ float_truthy (Active._find_adjacent_value table cell) = true
    /\ e = Active.currency_field (Active._find_adjacent_value table cell).
Proof.
  intros H. rewrite Rows.content_fields_update in H.
  apply Provenance.in_update, Provenance.in_as_fields in H as (v & Hin & ->).
  unfold Rows.content_entries in Hin.
  apply in_flat_map in Hin as (table & Ht & Hin).
  apply in_flat_map in Hin as (cell & Hc & Hin).
  apply Content.cell_entries_value in Hin as (-> & Htrue & patterns & pattern & Hk & Hp & Hm).
  exists table, cell, patterns, pattern. now repeat split.
Qed.

Lemma content_fields_come_from_cells_witness :
  exists table cell patterns pattern,
    In table [Active.table_data (active_table gross_profit_row)]
    /\ In cell (Active.cells table)
    /\ In ("pnl_gross_profit", patterns) Active.pnl_patterns /\ In pattern patterns
    /\ contains pattern (lower (Active.content cell)) = true
    /\ float_truthy (Active._find_adjacent_value table cell) = true
    /\ Active.currency_field (float_of_int 60000)
       = Active.currency_field (Active._find_adjacent_value table cell).
Proof.
  apply (content_fields_come_from_cells
           [Active.table_data (active_table gross_profit_row)]).
  vm_compute. reflexivity.
Defined.

(** ** The fields [document_analysis.py] keeps *)

(** X10.  The field loop of [document_analysis.py] stores a field of the
    provider only when its name, in lower case, contains one of the nine
    keywords: every stored field is a field of some document that passes
    this test, stored under its own name, and a name that fails the test
    is never a key of the result.  The test does not depend on the case
    of the letters of the name. *)
Theorem only_keyword_fields_are_stored (docs : list Active.Sdk.Document) (name : string) :
  (forall e,
      sget name (Active.document_fields docs) = Some e ->
      Active.is_pnl_field name = true
      /\ exists doc f,
           In doc docs /\ In (name, f) (Active.each (Active.Sdk.fields doc))
           /\ e = Active.extracted_field f)
  /\ (Active.is_pnl_field name = false -> sget name (Active.document_fields docs) = None)
  /\ Active.is_pnl_field (lower name) = Active.is_pnl_field name.
Proof.
  assert (Hstored : forall e,
             sget name (Active.document_fields docs) = Some e ->
             Active.is_pnl_field name = true
             /\ exists doc f,
                  In doc docs /\ In (name, f) (Active.each (Active.Sdk.fields doc))
                  /\ e = Active.extracted_field f).
  { intros e H. rewrite Mapper.document_fields_update in H.
    apply Provenance.in_update in H. unfold Mapper.kept in H.
    apply in_flat_map in H as (doc & Hdoc & H).
    apply in_flat_map in H as ([n f] & Hf & H). simpl in H.
    destruct (Active.is_pnl_field n) eqn:E; [|contradiction].
    destruct H as [[= -> <-]|[]]. split; [exact E|]. now exists doc, f. }
  split; [exact Hstored|]. split.
  - intros Hno. destruct (sget name (Active.document_fields docs)) as [e|] eqn:E;
      [|reflexivity].
    destruct (Hstored e eq_refl) as [Hyes _]. congruence.
  - unfold Active.is_pnl_field. now rewrite Names.lower_twice.
Qed.

(** A field the keyword test lets through, and one it does not. *)
Definition tax_and_revenue : Active.Sdk.Document :=
  {| Active.Sdk.fields :=
       Some [("TaxId", untyped_amount); ("TotalRevenue", untyped_amount)] |}.

Lemma only_keyword_fields_are_stored_witness :
  sget "TaxId" (Active.document_fields [tax_and_revenue]) = None.
Proof.
  apply (proj1 (proj2 (only_keyword_fields_are_stored [tax_and_revenue] "TaxId"))).
  vm_compute. reflexivity.
Defined.

(** ** The documents of [document_analysis_complete.py] *)





(** ** What [document_analysis.py] logs *)

Definition level_of (r : Z * Env.level * list pyval) : Env.level := snd (fst r).

(** X12.  [_process_azure_result] of [document_analysis.py] only adds
    records to the log.  Among the records of a call there is a warning
    exactly when the document it returns has no field, and the last
    record tells the number of fields of that document. *)
Theorem log_tells_the_fields (result : Active.Sdk.AnalyzeResult) (w : Env.world) :
  exists new,
    Env.records (snd (Active._process_azure_result result w))
    = (Env.records w ++ new)%list
    /\ (In Env.WARNING (map level_of new) <-> Results.active_fields result = [])
    /\ exists before t,
         new = (before
                ++ [(t, Env.INFO,
                     [PStr "Extracted "; len (Results.active_fields result);
                      PStr " P&L fields from Azure DI result"])])%list.
Proof.
  unfold Active._process_azure_result, Results.active_fields.
  destruct (Active.document_fields (Active.each (Active.Sdk.documents result)))
    as [|e l] eqn:Ef.
  - unfold Active._extract_pnl_from_content.
    destruct (Active.content_fields (Active.tables (Active.adapt result))) as [|e l] eqn:Ec.
    + eexists. split; [|split].
      * cbn. rewrite <- !app_assoc. reflexivity.
      * simpl. unfold level_of. simpl. intuition discriminate.
      * eexists [_; _; _], _. reflexivity.
    + eexists. split; [|split].
      * cbn. rewrite <- !app_assoc. reflexivity.
      * simpl. unfold level_of. simpl. intuition discriminate.
      * eexists [_; _], _. reflexivity.
  - eexists. split; [|split].
    + cbn. rewrite <- !app_assoc. reflexivity.
    + simpl. unfold level_of. simpl. intuition discriminate.
    + eexists [_], _. reflexivity.
Qed.

(* ================================================================== *)
(** * The request handlers *)
(* ================================================================== *)

(** What the handlers share: the environment variables they read, the
    request, the reply and the exceptions that may be raised.  The
    libraries the handlers call ([base64] and the client of the
    provider) are variables of the sections below. *)

Module Http.
Import Py.

(** The three variables read with [os.getenv]. *)
Record Environ : Type := {
  DI_ENDPOINT : option string;
  DI_KEY : option string;
  DI_MODEL_ID : option string }.

Record DocumentAnalysisRequest : Type := {
  files : list string;
  userId : string }.

(** [{"success": ..., "data": ...}] *)
Record Reply : Type := {
  success : bool;
  data : pyval }.

(** The exceptions: those the handlers raise themselves and those of the
    libraries, of type [E]. *)
Inductive raised (E : Type) : Type :=
| HTTPException (status_code : Z) (detail : string)
| ValueError (msg : string)
| TypeError (msg : string)
| LibraryError (e : E).

Arguments HTTPException {E} status_code detail.
Arguments ValueError {E} msg.
Arguments TypeError {E} msg.
Arguments LibraryError {E} e.

(** [bool(v)] for the value of [os.getenv] *)
Definition is_set (v : option string) : bool :=
  match v with
  | Some s => nonempty s
  | None => false
  end.

(** [len(v) if v else 0] *)
Definition length_if_set (v : option string) : Z :=
  match v with
  | Some s => if nonempty s then Z.of_nat (String.length s) else 0
  | None => 0
  end.

Definition text (v : option string) : string :=
  match v with Some s => s | None => "" end.

(** [s[:n]] *)
Fixpoint take (n : nat) (s : string) : string :=
  match n, s with
  | S n', String c r => String c (take n' r)
  | _, _ => EmptyString
  end.

(** The text after the first comma of [s], when [s] has a comma:
    [s.split(",", 1)[1]]. *)
Fixpoint after_comma (s : string) : option string :=
  match s with
  | EmptyString => None
  | String c r => if Ascii.eqb c "," then Some r else after_comma r
  end.

(** [raw.split(",", 1)[1] if "," in raw else raw] *)
Definition base64_str (raw_input : string) : string :=
  match after_comma raw_input with
  | Some payload => payload
  | None => raw_input
  end.

End Http.

(** ** [analyze_document] and [debug_credentials] of [document_analysis.py] *)

Module ActiveApi.
Import Py Env Http.

Section Handler.
Variable E : Type.
Variable Client : Type.
(** [base64.b64decode] and [base64.b64encode(...).decode('utf-8')] *)
Variable b64decode : string -> E + string.
Variable b64encode : string -> string.
(** [DocumentIntelligenceClient(endpoint, AzureKeyCredential(key))] *)
Variable make_client : string -> string -> E + Client.
(** [client.begin_analyze_document(model_id, {"base64Source": data})]
    followed by [poller.result()] *)
Variable analyze : Client -> string -> string -> E + Active.Sdk.AnalyzeResult.
(** [str(e)] and [type(e)] as they are printed *)
Variable str_exc : raised E -> string.
Variable type_exc : raised E -> string.

Definition not_configured : string :=
  "Azure Document Intelligence credentials not configured. Please set DI_ENDPOINT and DI_KEY environment variables.".

(** The inner [try]: the calls to the provider. *)
Definition call_provider (endpoint key model_id file_data : string)
  : M (raised E + Reply) :=
  match make_client endpoint key with
  | inl e => ret (inl (LibraryError e))
  | inr client =>
      log INFO [PStr "Analyzing document with model: "; PStr model_id] ;;;
      log INFO [PStr "File bytes length: "; PInt (Z.of_nat (String.length file_data))] ;;;
      match analyze client model_id (b64encode file_data) with
      | inl e => ret (inl (LibraryError e))
      | inr result =>
          log INFO [PStr "Azure DI analysis completed, processing result..."] ;;;
          processed_result <- Active._process_azure_result result ;;
          log INFO [PStr "Document analysis completed successfully"] ;;;
          ret (inr {| success := true; data := processed_result |})
      end
  end.

(** The inner [try] with its [except], which logs and raises again. *)
Definition provider_step (endpoint key model_id file_data : string)
  : M (raised E + Reply) :=
  r <- call_provider endpoint key model_id file_data ;;
  match r with
  | inl azure_error =>
      log ERROR [PStr "Azure DI error: "; PStr (str_exc azure_error)] ;;;
      log ERROR [PStr "Azure DI error type: "; PStr (type_exc azure_error)] ;;;
      ret (inl azure_error)
  | inr reply => ret (inr reply)
  end.

(** The body of the outer [try]. *)
Definition body (environ : Environ) (request : DocumentAnalysisRequest)
  : M (raised E + Reply) :=
  log INFO [PStr "Processing document analysis request for user: "; PStr (userId request)] ;;;
  log INFO [PStr "Number of files to process: "; len (files request)] ;;;
  let endpoint := DI_ENDPOINT environ in
  let key := DI_KEY environ in
  let model_id := match DI_MODEL_ID environ with Some m => m | None => "PNL" end in
  log INFO [PStr "Azure DI Endpoint: ";
            PStr (if is_set endpoint then take 50 (text endpoint) else "None");
            PStr "..."] ;;;
  log INFO [PStr "Azure DI Key: ";
            PStr (if is_set key then "***" else "None");
            PStr " (length: "; PInt (length_if_set key); PStr ")"] ;;;
  log INFO [PStr "Azure DI Model ID: "; PStr model_id] ;;;
  if negb (is_set endpoint) || negb (is_set key) then
    ret (inl (HTTPException 500 not_configured))
  else
    log INFO [PStr "Using real Azure Document Intelligence API"] ;;;
    match files request with
    | [] => ret (inl (ValueError "No files provided for analysis"))
    | raw_input :: _ =>
        match b64decode (base64_str raw_input) with
        | inl e => ret (inl (LibraryError e))
        | inr file_data => provider_step (text endpoint) (text key) model_id file_data
        end
    end.

(** The reply, or the exception that leaves the handler. *)
Definition analyze_document (environ : Environ) (request : DocumentAnalysisRequest)
  : M (raised E + Reply) :=
  r <- body environ request ;;
  match r with
  | inl e =>
      log ERROR [PStr "Error processing document: "; PStr (str_exc e)] ;;;
      ret (inl (HTTPException 500 ("Document processing failed: " ++ str_exc e)))
  | inr reply => ret (inr reply)
  end.

End Handler.

(** [debug_credentials] *)
Record Credentials : Type := {
  endpoint_set : bool;
  endpoint_length : Z;
  key_set : bool;
  key_length : Z;
  model_id : string;
  credentials_valid : bool }.

Definition debug_credentials (environ : Environ) : Credentials :=
  let endpoint := DI_ENDPOINT environ in
  let key := DI_KEY environ in
  {| endpoint_set := is_set endpoint;
     endpoint_length := length_if_set endpoint;
     key_set := is_set key;
     key_length := length_if_set key;
     model_id := match DI_MODEL_ID environ with Some m => m | None => "prebuilt-layout" end;
     credentials_valid := is_set endpoint && is_set key |}.

End ActiveApi.

Module ActiveApiFacts.
Import Py Env Http ActiveApi Results.

Section Facts.
Variable E : Type.
Variable Client : Type.
Variable b64decode : string -> E + string.
Variable b64encode : string -> string.
Variable make_client : string -> string -> E + Client.
Variable analyze : Client -> string -> string -> E + Active.Sdk.AnalyzeResult.
Variable str_exc : raised E -> string.
Variable type_exc : raised E -> string.

Definition handler : Environ -> DocumentAnalysisRequest -> M (raised E + Reply) :=
  analyze_document E Client b64decode b64encode make_client analyze str_exc type_exc.

Definition model_of (environ : Environ) : string :=
  match DI_MODEL_ID environ with Some m => m | None => "PNL" end.

(** What the provider answers for a file, or the exception of the
    library that fails first. *)
Definition provider_outcome (environ : Environ) (raw_input : string)
  : raised E + Active.Sdk.AnalyzeResult :=
  match b64decode (base64_str raw_input) with
  | inl e => inl (LibraryError e)
  | inr file_data =>
      match make_client (text (DI_ENDPOINT environ)) (text (DI_KEY environ)) with
      | inl e => inl (LibraryError e)
      | inr client =>
          match analyze client (model_of environ) (b64encode file_data) with
          | inl e => inl (LibraryError e)
          | inr result => inr result
          end
      end
  end.

(** The outcome of the body of the handler. *)
Definition outcome (environ : Environ) (request : DocumentAnalysisRequest)
  : raised E + Reply :=
  if negb (is_set (DI_ENDPOINT environ)) || negb (is_set (DI_KEY environ)) then
    inl (HTTPException 500 not_configured)
  else
    match files request with
    | [] => inl (ValueError "No files provided for analysis")
    | raw_input :: _ =>
        match provider_outcome environ raw_input with
        | inl e => inl e
        | inr result =>
            inr {| success := true;
                   data := Env.value (Active._process_azure_result result) Env.idle |}
        end
    end.

Lemma value_any_world result w w' :
  value (Active._process_azure_result result) w
  = value (Active._process_azure_result result) w'.
Proof. now rewrite !active_value. Qed.

Lemma value_call_provider endpoint key model_id file_data w :
  value (call_provider E Client b64encode make_client analyze endpoint key model_id file_data) w
  = match make_client endpoint key with
    | inl e => inl (LibraryError e)
    | inr client =>
        match analyze client model_id (b64encode file_data) with
        | inl e => inl (LibraryError e)
        | inr result =>
            inr {| success := true;
                   data := value (Active._process_azure_result result) idle |}
        end
    end.
Proof.
  unfold call_provider. destruct (make_client endpoint key) as [e|client]; [reflexivity|].
  rewrite !value_bind.
  destruct (analyze client model_id (b64encode file_data)) as [e|result]; [reflexivity|].
  rewrite !value_bind, value_ret. f_equal. f_equal. apply value_any_world.
Qed.

Lemma value_provider_step endpoint key model_id file_data w :
  value (provider_step E Client b64encode make_client analyze str_exc type_exc
           endpoint key model_id file_data) w
  = value (call_provider E Client b64encode make_client analyze
             endpoint key model_id file_data) w.
Proof.
  unfold provider_step. rewrite value_bind.
  destruct (value (call_provider E Client b64encode make_client analyze
                     endpoint key model_id file_data) w) as [e|reply].
  - now rewrite !value_bind, value_ret.
  - now rewrite value_ret.
Qed.

Lemma value_body environ request w :
  value (body E Client b64decode b64encode make_client analyze str_exc type_exc
           environ request) w
  = outcome environ request.
Proof.
  unfold body, outcome, provider_outcome, model_of.
  rewrite !value_bind.
  destruct (negb (is_set (DI_ENDPOINT environ)) || negb (is_set (DI_KEY environ)));
    [reflexivity|].
  rewrite value_bind.
  destruct (files request) as [|raw rest]; [reflexivity|].
  destruct (b64decode (base64_str raw)) as [e|file_data]; [reflexivity|].
  rewrite value_provider_step, value_call_provider.
  destruct (make_client _ _) as [e|client]; [reflexivity|].
  now destruct (analyze client _ _).
Qed.

Lemma value_handler environ request w :
  value (handler environ request) w
  = match outcome environ request with
    | inl e => inl (HTTPException 500 ("Document processing failed: " ++ str_exc e))
    | inr reply => inr reply
    end.
Proof.
  unfold handler, analyze_document. rewrite value_bind, value_body.
  destruct (outcome environ request) as [e|reply].
  - now rewrite value_bind, value_ret.
  - now rewrite value_ret.
Qed.

End Facts.
End ActiveApiFacts.

(** The environment with another key. *)
Definition with_key (environ : Http.Environ) (key : string) : Http.Environ :=
  {| Http.DI_ENDPOINT := Http.DI_ENDPOINT environ;
     Http.DI_KEY := Some key;
     Http.DI_MODEL_ID := Http.DI_MODEL_ID environ |}.

Lemma nonempty_length (a b : string) :
  String.length a = String.length b -> nonempty a = nonempty b.
Proof. destruct a, b; simpl; intros H; try reflexivity; discriminate H. Qed.

(** X13.  Of a data URL the handler of [document_analysis.py] decodes
    the text after the first comma: the header before it is dropped and
    later commas are kept.  A text without comma is decoded as it is. *)
Theorem data_url_header_is_dropped (header payload : string) :
  Digits.no_comma header = true ->
  Http.base64_str (header ++ "," ++ payload) = payload
  /\ Http.base64_str header = header.
Proof.
  intros H. unfold Http.base64_str.
  assert (Hnone : Http.after_comma header = None).
  { induction header as [|c r IH]; [reflexivity|].
    unfold Digits.no_comma in H. simpl in H. apply andb_prop in H as [Hc Hr].
    apply negb_true_iff in Hc. cbn [Http.after_comma]. rewrite Hc. now apply IH. }
  rewrite Hnone. split; [|reflexivity].
  assert (Hsome : Http.after_comma (header ++ "," ++ payload) = Some payload).
  { clear Hnone. induction header as [|c r IH]; [reflexivity|].
    unfold Digits.no_comma in H. simpl in H. apply andb_prop in H as [Hc Hr].
    apply negb_true_iff in Hc. cbn [append Http.after_comma]. rewrite Hc. now apply IH. }
  now rewrite Hsome.
Qed.

Lemma data_url_header_is_dropped_witness :
  Http.base64_str ("data:application/pdf;base64" ++ "," ++ "AAAA,BB") = "AAAA,BB"
  /\ Http.base64_str "data:application/pdf;base64" = "data:application/pdf;base64".
Proof. apply data_url_header_is_dropped. reflexivity. Defined.

Module ActiveApiProps.
Import Py Env Http ActiveApi ActiveApiFacts.

Section Props.
Variable E : Type.
Variable Client : Type.
Variable b64decode : string -> E + string.
Variable b64encode : string -> string.
Variable make_client : string -> string -> E + Client.
Variable analyze : Client -> string -> string -> E + Active.Sdk.AnalyzeResult.
Variable str_exc : raised E -> string.
Variable type_exc : raised E -> string.

(** The handler with these libraries. *)
Definition run : Environ -> DocumentAnalysisRequest -> M (raised E + Reply) :=
  handler E Client b64decode b64encode make_client analyze str_exc type_exc.

(** X14.  Whatever goes wrong in [analyze_document] of
    [document_analysis.py], the exception that leaves the handler is an
    [HTTPException] of status 500 whose detail is the text of the cause
    after [Document processing failed: ]; a reply, when there is one,
    says [success: True].  Missing credentials give a 500 that wraps the
    500 raised for them, and a request without file gives a 500 too, not
    a 400. *)
Theorem failures_are_500 (environ : Environ) (request : DocumentAnalysisRequest) (w : world) :
  match value (run environ request) w with
  | inl e =>
      exists cause,
        e = HTTPException 500 ("Document processing failed: " ++ str_exc cause)
  | inr reply => success reply = true
  end
  /\ (is_set (DI_ENDPOINT environ) && is_set (DI_KEY environ) = false ->
      value (run environ request) w
      = inl (HTTPException 500
               ("Document processing failed: "
                ++ str_exc (HTTPException 500 not_configured))))
  /\ (is_set (DI_ENDPOINT environ) && is_set (DI_KEY environ) = true ->
      files request = [] ->
      value (run environ request) w
      = inl (HTTPException 500
               ("Document processing failed: "
                ++ str_exc (ValueError "No files provided for analysis")))).
Proof.
  unfold run. rewrite value_handler. unfold outcome. split; [|split].
  - destruct (negb (is_set (DI_ENDPOINT environ)) || negb (is_set (DI_KEY environ)));
      [eexists; reflexivity|].
    destruct (files request) as [|raw rest]; [eexists; reflexivity|].
    destruct (provider_outcome E Client b64decode b64encode make_client analyze environ raw);
      [eexists; reflexivity|reflexivity].
  - intros H. apply andb_false_iff in H.
    replace (negb (is_set (DI_ENDPOINT environ)) || negb (is_set (DI_KEY environ)))
      with true; [reflexivity|].
    symmetry. apply orb_true_iff. destruct H as [-> | ->]; [now left|now right].
  - intros H Hf. apply andb_prop in H as [-> ->]. simpl. now rewrite Hf.
Qed.

(** X15.  [analyze_document] of [document_analysis.py] replies exactly
    when both credentials are set, the request has a file, the payload
    of the first file decodes, the client is made and the provider
    answers; the data of the reply are then the normalised result of
    the provider.  The model asked for is [DI_MODEL_ID], or [PNL] when
    the variable is not set. *)
Theorem reply_needs_the_provider
    (environ : Environ) (request : DocumentAnalysisRequest) (w : world) (reply : Reply) :
  value (run environ request) w = inr reply <->
  is_set (DI_ENDPOINT environ) = true /\ is_set (DI_KEY environ) = true
  /\ exists raw_input rest file_data client result,
       files request = raw_input :: rest
       /\ b64decode (base64_str raw_input) = inr file_data
       /\ make_client (text (DI_ENDPOINT environ)) (text (DI_KEY environ)) = inr client
       /\ analyze client
            (match DI_MODEL_ID environ with Some m => m | None => "PNL" end)
            (b64encode file_data) = inr result
       /\ reply = {| success := true;
                     data := value (Active._process_azure_result result) w |}.
Proof.
  unfold run. rewrite value_handler. unfold outcome, provider_outcome, model_of. split.
  - destruct (is_set (DI_ENDPOINT environ)); [|discriminate].
    destruct (is_set (DI_KEY environ)); [|discriminate]. simpl.
    destruct (files request) as [|raw rest]; [discriminate|].
    destruct (b64decode (base64_str raw)) as [e|file_data] eqn:Ed; [discriminate|].
    destruct (make_client _ _) as [e|client] eqn:Ec; [discriminate|].
    destruct (analyze client _ _) as [e|result] eqn:Ea; [discriminate|].
    intros [= <-]. repeat split.
    exists raw, rest, file_data, client, result. repeat split; try assumption.
    f_equal. apply value_any_world.
  - intros (-> & -> & raw & rest & file_data & client & result & -> & -> & -> & -> & ->).
    simpl. do 2 f_equal. apply value_any_world.
Qed.

(** X16.  The reply of [analyze_document] of [document_analysis.py]
    depends on the first file of the request only: the other files and
    the user are not looked at. *)
Theorem only_the_first_file_is_read
    (environ : Environ) (raw_input : string) (rest rest' : list string)
    (user user' : string) (w w' : world) :
  value (run environ {| files := raw_input :: rest; userId := user |}) w
  = value (run environ {| files := raw_input :: rest'; userId := user' |}) w'.
Proof. unfold run. now rewrite !value_handler. Qed.

(** X17.  [analyze_document] of [document_analysis.py] uses the key for
    three things only: whether it is set, its length (which it logs) and
    the making of the client.  With two keys of the same length for
    which the client is the same, the handler does the same: the same
    answer and the same log, in which the key itself is never written. *)
Theorem key_is_not_disclosed
    (environ : Environ) (key key' : string) (request : DocumentAnalysisRequest) (w : world) :
  String.length key = String.length key' ->
  make_client (text (DI_ENDPOINT environ)) key = make_client (text (DI_ENDPOINT environ)) key' ->
  run (with_key environ key) request w = run (with_key environ key') request w.
Proof.
  intros Hlen Hclient.
  unfold run, handler, analyze_document, body, provider_step, call_provider, with_key.
  simpl. unfold length_if_set. rewrite Hclient, Hlen, (nonempty_length _ _ Hlen).
  reflexivity.
Qed.

(** X18.  [debug_credentials] tells nothing of the key but whether it
    is set and its length; when it says that the credentials are not
    valid, every request to [analyze_document] fails for missing
    credentials.  When [DI_MODEL_ID] is not set it reports the model
    [prebuilt-layout], whereas [analyze_document] asks the provider for
    the model [PNL]. *)
Theorem debug_credentials_and_handler (environ : Environ) :
  (forall key key',
      String.length key = String.length key' ->
      debug_credentials (with_key environ key) = debug_credentials (with_key environ key'))
  /\ (credentials_valid (debug_credentials environ) = false ->
      forall request w,
        value (run environ request) w
        = inl (HTTPException 500
                 ("Document processing failed: "
                  ++ str_exc (HTTPException 500 not_configured))))
  /\ (DI_MODEL_ID environ = None ->
      model_id (debug_credentials environ) = "prebuilt-layout"
      /\ forall request w reply,
           value (run environ request) w = inr reply ->
           exists client payload result, analyze client "PNL" payload = inr result).
Proof.
  split; [|split].
  - intros key key' Hlen. unfold debug_credentials, with_key. simpl.
    unfold length_if_set. now rewrite Hlen, (nonempty_length _ _ Hlen).
  - intros H request w. unfold debug_credentials in H. simpl in H.
    unfold run. rewrite value_handler. unfold outcome.
    apply andb_false_iff in H.
    replace (negb (is_set (DI_ENDPOINT environ)) || negb (is_set (DI_KEY environ)))
      with true; [reflexivity|].
    symmetry. apply orb_true_iff. destruct H as [-> | ->]; [now left|now right].
  - intros Hm. split; [unfold debug_credentials; simpl; now rewrite Hm|].
    intros request w reply H. unfold run in H. rewrite value_handler in H.
    unfold outcome, provider_outcome, model_of in H. rewrite Hm in H.
    destruct (negb (is_set (DI_ENDPOINT environ)) || negb (is_set (DI_KEY environ)));
      [discriminate|].
    destruct (files request) as [|raw rest]; [discriminate|].
    destruct (b64decode (base64_str raw)) as [e|file_data]; [discriminate|].
    destruct (make_client _ _) as [e|client]; [discriminate|].
    destruct (analyze client "PNL" (b64encode file_data)) as [e|result] eqn:Ea;
      [discriminate|].
    now exists client, (b64encode file_data), result.
Qed.

End Props.
End ActiveApiProps.

(** Libraries that always answer, for the examples: decoding and
    encoding leave the text as it is, and the provider returns a result
    without any attribute. *)
Definition echo_decode (s : string) : unit + string := inr s.
Definition echo_encode (s : string) : string := s.
Definition any_client (endpoint key : string) : unit + unit := inr tt.
Definition bare_answer (client : unit) (model data : string)
  : unit + Active.Sdk.AnalyzeResult := inr active_bare.
Definition plain_str (e : Http.raised unit) : string := "error".

Definition example_run : Http.Environ -> Http.DocumentAnalysisRequest
                         -> Env.M (Http.raised unit + Http.Reply) :=
  ActiveApiProps.run unit unit echo_decode echo_encode any_client bare_answer
    plain_str plain_str.

Definition no_credentials : Http.Environ :=
  {| Http.DI_ENDPOINT := None; Http.DI_KEY := None; Http.DI_MODEL_ID := None |}.

Definition some_credentials : Http.Environ :=
  {| Http.DI_ENDPOINT := Some "https://example.cognitiveservices.azure.com/";
     Http.DI_KEY := Some "0123456789abcdef";
     Http.DI_MODEL_ID := None |}.

Definition one_file : Http.DocumentAnalysisRequest :=
  {| Http.files := ["data:application/pdf;base64,AAAA"]; Http.userId := "u1" |}.

Lemma failures_are_500_witness :
  Env.value (example_run no_credentials one_file) Env.idle
  = inl (Http.HTTPException 500
           ("Document processing failed: "
            ++ plain_str (Http.HTTPException 500 ActiveApi.not_configured))).
Proof.
  apply (proj1 (proj2 (ActiveApiProps.failures_are_500 unit unit echo_decode echo_encode
                         any_client bare_answer plain_str plain_str
                         no_credentials one_file Env.idle))).
  reflexivity.
Defined.

Lemma reply_needs_the_provider_witness :
  Env.value (example_run some_credentials one_file) Env.idle
  = inr {| Http.success := true;
           Http.data := Env.value (Active._process_azure_result active_bare) Env.idle |}.
Proof.
  apply (proj2 (ActiveApiProps.reply_needs_the_provider unit unit echo_decode echo_encode
                  any_client bare_answer plain_str plain_str
                  some_credentials one_file Env.idle _)).
  split; [reflexivity|]. split; [reflexivity|].
  exists "data:application/pdf;base64,AAAA", [], "AAAA", tt, active_bare.
  repeat split.
Defined.

Lemma key_is_not_disclosed_witness :
  example_run (with_key some_credentials "abcdef") one_file Env.idle
  = example_run (with_key some_credentials "uvwxyz") one_file Env.idle.
Proof.
  apply (ActiveApiProps.key_is_not_disclosed unit unit echo_decode echo_encode
           any_client bare_answer plain_str plain_str).
  - reflexivity.
  - reflexivity.
Defined.

Lemma debug_credentials_and_handler_witness :
  ActiveApi.model_id (ActiveApi.debug_credentials no_credentials) = "prebuilt-layout".
Proof.
  apply (proj2 (proj2 (ActiveApiProps.debug_credentials_and_handler unit unit echo_decode
                         echo_encode any_client bare_answer plain_str plain_str
                         no_credentials))).
  reflexivity.
Defined.

(** ** [analyze_document] of [document_analysis_complete.py] *)

Module CompleteApi.
Import Py Env Http.

(** A literal with decimals, as [float] reads it. *)
Definition lit (m e : Z) : pyval := PFloat (float_of_decimal false m e).

Definition mock_field (value_string : string) (v : Z) (m : Z) : pyval :=
  PDict [("type", PStr "currency");
         ("valueString", PStr value_string);
         ("value", PInt v);
         ("confidence", lit m (-2))].

Definition mock_cell (row col : Z) (text : string) : pyval :=
  PDict [("kind", PStr "content");
         ("rowIndex", PInt row);
         ("columnIndex", PInt col);
         ("content", PStr text);
         ("boundingRegions",
            PList [PDict [("pageNumber", PInt 1); ("boundingBox", PList [])]])].

Definition _get_mock_response_data : pyval :=
  PDict
    [("status", PStr "succeeded");
     ("createdDateTime", PStr "2025-01-10T21:00:00Z");
     ("lastUpdatedDateTime", PStr "2025-01-10T21:00:05Z");
     ("analyzeResult",
        PDict
          [("apiVersion", PStr "2023-07-31");
           ("modelId", PStr "prebuilt-layout");
           ("stringIndexType", PStr "textElements");
           ("content", PStr "Mock P&L document content with revenue and expense data");
           ("pages",
              PList [PDict [("pageNumber", PInt 1);
                            ("angle", PInt 0);
                            ("width", lit 85 (-1));
                            ("height", PInt 11);
                            ("unit", PStr "inch");
                            ("words", PList []);
                            ("lines", PList [])]]);
           ("tables",
              PList [PDict [("rowCount", PInt 5);
                            ("columnCount", PInt 2);
                            ("cells",
                               PList [mock_cell 0 0 "Revenue"; mock_cell 0 1 "$100,000"]);
                            ("boundingRegions",
                               PList [PDict [("pageNumber", PInt 1);
                                             ("boundingBox", PList [])]])]]);
           ("keyValuePairs", PList []);
           ("documents",
              PList [PDict
                       [("docType", PStr "prebuilt:layout");
                        ("boundingRegions",
                           PList [PDict [("pageNumber", PInt 1);
                                         ("boundingBox",
                                            PList [PInt 0; PInt 0; lit 85 (-1); PInt 0;
                                                   lit 85 (-1); PInt 11; PInt 0; PInt 11])]]);
                        ("fields",
                           PDict
                             [("pnl_total_revenue", mock_field "100000" 100000 98);
                              ("pnl_cost_of_goods_sold", mock_field "40000" 40000 95);
                              ("pnl_gross_profit", mock_field "60000" 60000 97);
                              ("pnl_operating_expenses", mock_field "35000" 35000 96);
                              ("pnl_net_income", mock_field "25000" 25000 94);
                              ("pnl_other_income", mock_field "2000" 2000 90);
                              ("pnl_other_expenses", mock_field "2000" 2000 90)]);
                        ("confidence", lit 95 (-2))]])])].

Definition _get_mock_response : Reply :=
  {| success := true; data := _get_mock_response_data |}.

(** The files on the disk: path and content.  [unlink] removes a path. *)
Definition disk : Type := sdict string.

Definition unlink (path : string) (d : disk) : disk :=
  filter (fun entry => negb (String.eqb (fst entry) path)) d.

Section Handler.
Variable E : Type.
Variable Client : Type.
Variable b64decode : string -> E + string.
Variable make_client : string -> string -> E + Client.
(** [client.begin_analyze_document(model_id,
    AnalyzeDocumentRequest(bytes_source=data))] followed by
    [poller.result()] *)
Variable analyze : Client -> string -> string -> E + Complete.Sdk.AnalyzeResult.
Variable str_exc : raised E -> string.
(** The path [tempfile.NamedTemporaryFile] chooses, given the disk *)
Variable temp_name : disk -> string.

(** The inner [try], without its [finally]. *)
Definition call_provider (client : Client) (model_id file_data : string)
  : M (raised E + Reply) :=
  log INFO [PStr "Analyzing document with model: "; PStr model_id] ;;;
  match analyze client model_id file_data with
  | inl e => ret (inl (LibraryError e))
  | inr result =>
      match Complete.Sdk.documents result with
      | None => ret (inl (TypeError "object of type 'NoneType' has no len()"))
      | Some documents =>
          log INFO [PStr "Document analysis completed. Found "; len documents;
                    PStr " documents"] ;;;
          processed_result <- Complete._process_azure_result result ;;
          ret (inr {| success := true; data := processed_result |})
      end
  end.

(** The body of the outer [try]: the reply or the exception, and the
    disk it leaves. *)
Definition body (environ : Environ) (request : DocumentAnalysisRequest) (d : disk)
  : M ((raised E + Reply) * disk) :=
  log INFO [PStr "Processing document analysis request for user: "; PStr (userId request)] ;;;
  log INFO [PStr "Number of files to process: "; len (files request)] ;;;
  let endpoint := DI_ENDPOINT environ in
  let key := DI_KEY environ in
  let model_id := match DI_MODEL_ID environ with Some m => m | None => "prebuilt-layout" end in
  if negb (is_set endpoint) || negb (is_set key) then
    log WARNING [PStr "Azure Document Intelligence credentials not found, using mock data"] ;;;
    ret (inr _get_mock_response, d)
  else
    match make_client (text endpoint) (text key) with
    | inl e => ret (inl (LibraryError e), d)
    | inr client =>
        match files request with
        | [] => ret (inl (HTTPException 400 "No files provided"), d)
        | base64_file :: _ =>
            match b64decode base64_file with
            | inl e => ret (inl (LibraryError e), d)
            | inr file_data =>
                let temp_file_path := temp_name d in
                let written := sset temp_file_path file_data d in
                r <- call_provider client model_id file_data ;;
                ret (r, if mem String.eqb temp_file_path written
                        then unlink temp_file_path written else written)
            end
        end
    end.

Definition analyze_document (environ : Environ) (request : DocumentAnalysisRequest) (d : disk)
  : M (Reply * disk) :=
  r <- body environ request d ;;
  match r with
  | (inl e, d') =>
      log ERROR [PStr "Error processing document: "; PStr (str_exc e)] ;;;
      log INFO [PStr "Falling back to mock data due to error"] ;;;
      ret (_get_mock_response, d')
  | (inr reply, d') => ret (reply, d')
  end.

End Handler.
End CompleteApi.

Module CompleteApiFacts.
Import Py Env Http CompleteApi Results.

Lemma get_unlink (path removed : string) (d : disk) :
  sget path (unlink removed d)
  = if String.eqb path removed then None else sget path d.
Proof.
  unfold sget, unlink. induction d as [|[k v] d IH]; simpl.
  - now destruct (String.eqb path removed).
  - destruct (String.eqb k removed) eqn:Ek; simpl.
    + rewrite IH. destruct (String.eqb path removed) eqn:Ep; [reflexivity|].
      destruct (String.eqb path k) eqn:Epk; [|reflexivity].
      apply String.eqb_eq in Epk, Ek. subst. now rewrite String.eqb_refl in Ep.
    + rewrite IH. destruct (String.eqb path k) eqn:Epk; [|reflexivity].
      apply String.eqb_eq in Epk. subst. now rewrite Ek.
Qed.

(** The disk after a file was written at the temporary path and the
    [finally] clause ran. *)
Definition cleaned (path content : string) (d : disk) : disk :=
  if mem String.eqb path (sset path content d)
  then unlink path (sset path content d) else sset path content d.

Lemma cleaned_disk path content d :
  sget path (cleaned path content d) = None
  /\ forall other, other <> path -> sget other (cleaned path content d) = sget other d.
Proof.
  unfold cleaned, mem, sset.
  rewrite (PyFacts.get_set_same _ PyFacts.string_eqb_eq). split.
  - rewrite get_unlink. now rewrite String.eqb_refl.
  - intros other Hne. rewrite get_unlink.
    replace (String.eqb other path) with false
      by (symmetry; now apply String.eqb_neq).
    unfold sget. now apply (PyFacts.get_set_other _ PyFacts.string_eqb_eq).
Qed.

Section Facts.
Variable E : Type.
Variable Client : Type.
Variable b64decode : string -> E + string.
Variable make_client : string -> string -> E + Client.
Variable analyze : Client -> string -> string -> E + Complete.Sdk.AnalyzeResult.
Variable str_exc : raised E -> string.
Variable temp_name : disk -> string.

Definition handler : Environ -> DocumentAnalysisRequest -> disk -> M (Reply * disk) :=
  analyze_document E Client b64decode make_client analyze str_exc temp_name.

Definition model_of (environ : Environ) : string :=
  match DI_MODEL_ID environ with Some m => m | None => "prebuilt-layout" end.

(** The outcome of the calls to the provider for the bytes of a file. *)
Definition provider_outcome (client : Client) (model_id file_data : string)
  : raised E + Reply :=
  match analyze client model_id file_data with
  | inl e => inl (LibraryError e)
  | inr result =>
      match Complete.Sdk.documents result with
      | None => inl (TypeError "object of type 'NoneType' has no len()")
      | Some _ =>
          inr {| success := true;
                 data := value (Complete._process_azure_result result) idle |}
      end
  end.

(** The outcome of the body of the handler. *)
Definition outcome (environ : Environ) (request : DocumentAnalysisRequest) (d : disk)
  : (raised E + Reply) * disk :=
  if negb (is_set (DI_ENDPOINT environ)) || negb (is_set (DI_KEY environ)) then
    (inr _get_mock_response, d)
  else
    match make_client (text (DI_ENDPOINT environ)) (text (DI_KEY environ)) with
    | inl e => (inl (LibraryError e), d)
    | inr client =>
        match files request with
        | [] => (inl (HTTPException 400 "No files provided"), d)
        | base64_file :: _ =>
            match b64decode base64_file with
            | inl e => (inl (LibraryError e), d)
            | inr file_data =>
                (provider_outcome client (model_of environ) file_data,
                 cleaned (temp_name d) file_data d)
            end
        end
    end.

Lemma complete_any_world result w w' :
  value (Complete._process_azure_result result) w
  = value (Complete._process_azure_result result) w'.
Proof. now rewrite !complete_value. Qed.

Lemma value_complete_provider client model_id file_data w :
  value (call_provider E Client analyze client model_id file_data) w
  = provider_outcome client model_id file_data.
Proof.
  unfold call_provider, provider_outcome. rewrite value_bind.
  destruct (analyze client model_id file_data) as [e|result]; [reflexivity|].
  destruct (Complete.Sdk.documents result) as [docs|]; [|reflexivity].
  rewrite !value_bind, value_ret. do 2 f_equal. apply complete_any_world.
Qed.

Lemma value_complete_body environ request d w :
  value (body E Client b64decode make_client analyze temp_name environ request d) w
  = outcome environ request d.
Proof.
  unfold body, outcome, model_of, cleaned. rewrite !value_bind.
  destruct (negb (is_set (DI_ENDPOINT environ)) || negb (is_set (DI_KEY environ))).
  - now rewrite value_bind, value_ret.
  - destruct (make_client _ _) as [e|client]; [reflexivity|].
    destruct (files request) as [|base64_file rest]; [reflexivity|].
    destruct (b64decode base64_file) as [e|file_data]; [reflexivity|].
    now rewrite value_bind, value_ret, value_complete_provider.
Qed.

Lemma value_complete_handler environ request d w :
  value (handler environ request d) w
  = match outcome environ request d with
    | (inl _, d') => (_get_mock_response, d')
    | (inr reply, d') => (reply, d')
    end.
Proof.
  unfold handler, analyze_document. rewrite value_bind, value_complete_body.
  destruct (outcome environ request d) as [[e|reply] d'].
  - now rewrite !value_bind, value_ret.
  - now rewrite value_ret.
Qed.

End Facts.
End CompleteApiFacts.

Module CompleteApiProps.
Import Py Env Http CompleteApi CompleteApiFacts.

Section Props.
Variable E : Type.
Variable Client : Type.
Variable b64decode : string -> E + string.
Variable make_client : string -> string -> E + Client.
Variable analyze : Client -> string -> string -> E + Complete.Sdk.AnalyzeResult.
Variable str_exc : raised E -> string.
Variable temp_name : disk -> string.

(** The handler with these libraries. *)
Definition run : Environ -> DocumentAnalysisRequest -> disk -> M (Reply * disk) :=
  handler E Client b64decode make_client analyze str_exc temp_name.

(** X19.  [analyze_document] of [document_analysis_complete.py] never
    fails and always says [success: True].  It answers with the mock
    data when a credential is missing, when the request has no file (the
    400 raised for it does not leave the handler), when the client
    cannot be made, when the first file does not decode, when the
    provider fails and when its result has no [documents]; it answers
    with the normalised result of the provider when the client is made,
    the first file decodes, the provider answers and the result has a
    list of documents, and an answer that is not the mock data is
    reached in this way only. *)
Theorem mock_unless_the_provider_answers
    (environ : Environ) (request : DocumentAnalysisRequest) (d : disk) (w : world) :
  let reply := fst (value (run environ request d) w) in
  success reply = true
  /\ (is_set (DI_ENDPOINT environ) && is_set (DI_KEY environ) = false ->
      reply = _get_mock_response)
  /\ (files request = [] -> reply = _get_mock_response)
  /\ (forall base64_file rest file_data client result,
         is_set (DI_ENDPOINT environ) && is_set (DI_KEY environ) = true ->
         make_client (text (DI_ENDPOINT environ)) (text (DI_KEY environ)) = inr client ->
         files request = base64_file :: rest ->
         b64decode base64_file = inr file_data ->
         analyze client
           (match DI_MODEL_ID environ with Some m => m | None => "prebuilt-layout" end)
           file_data = inr result ->
         (Complete.Sdk.documents result = None -> reply = _get_mock_response)
         /\ (forall documents,
               Complete.Sdk.documents result = Some documents ->
               reply = {| success := true;
                          data := value (Complete._process_azure_result result) w |}))
  /\ (forall e,
         is_set (DI_ENDPOINT environ) && is_set (DI_KEY environ) = true ->
         make_client (text (DI_ENDPOINT environ)) (text (DI_KEY environ)) = inl e ->
         reply = _get_mock_response)
  /\ (forall base64_file rest e,
         files request = base64_file :: rest ->
         b64decode base64_file = inl e ->
         reply = _get_mock_response)
  /\ (forall base64_file rest file_data client e,
         make_client (text (DI_ENDPOINT environ)) (text (DI_KEY environ)) = inr client ->
         files request = base64_file :: rest ->
         b64decode base64_file = inr file_data ->
         analyze client
           (match DI_MODEL_ID environ with Some m => m | None => "prebuilt-layout" end)
           file_data = inl e ->
         reply = _get_mock_response)
  /\ (reply <> _get_mock_response ->
      exists base64_file rest file_data client result documents,
        is_set (DI_ENDPOINT environ) && is_set (DI_KEY environ) = true
        /\ make_client (text (DI_ENDPOINT environ)) (text (DI_KEY environ)) = inr client
        /\ files request = base64_file :: rest
        /\ b64decode base64_file = inr file_data
        /\ analyze client
             (match DI_MODEL_ID environ with Some m => m | None => "prebuilt-layout" end)
             file_data = inr result
        /\ Complete.Sdk.documents result = Some documents
        /\ reply = {| success := true;
                      data := value (Complete._process_azure_result result) w |}).
Proof.
  intros reply. subst reply. unfold run. rewrite value_complete_handler. unfold outcome.
  split; [|split; [|split; [|split; [|split; [|split; [|split]]]]]].
  - destruct (negb (is_set (DI_ENDPOINT environ)) || negb (is_set (DI_KEY environ)));
      [reflexivity|].
    destruct (make_client _ _) as [e|client]; [reflexivity|].
    destruct (files request) as [|f rest]; [reflexivity|].
    destruct (b64decode f) as [e|file_data]; [reflexivity|].
    unfold provider_outcome.
    destruct (analyze client _ file_data) as [e|result]; [reflexivity|].
    now destruct (Complete.Sdk.documents result).
  - intros H. apply andb_false_iff in H.
    replace (negb (is_set (DI_ENDPOINT environ)) || negb (is_set (DI_KEY environ)))
      with true; [reflexivity|].
    symmetry. apply orb_true_iff. destruct H as [-> | ->]; [now left|now right].
  - intros ->.
    destruct (negb (is_set (DI_ENDPOINT environ)) || negb (is_set (DI_KEY environ)));
      [reflexivity|].
    now destruct (make_client _ _).
  - intros f rest file_data client result Hset Hc Hf Hd Ha.
    apply andb_prop in Hset as [-> ->]. simpl. rewrite Hc, Hf, Hd.
    unfold provider_outcome, model_of. rewrite Ha. split.
    + now intros ->.
    + intros docs ->. simpl. f_equal. apply complete_any_world.
  - intros e Hset Hc. apply andb_prop in Hset as [-> ->]. simpl. now rewrite Hc.
  - intros f rest e Hf Hd. rewrite Hf, Hd.
    destruct (negb (is_set (DI_ENDPOINT environ)) || negb (is_set (DI_KEY environ)));
      [reflexivity|].
    now destruct (make_client _ _).
  - intros f rest file_data client e Hc Hf Hd Ha. rewrite Hc, Hf, Hd.
    destruct (negb (is_set (DI_ENDPOINT environ)) || negb (is_set (DI_KEY environ)));
      [reflexivity|].
    unfold provider_outcome, model_of. now rewrite Ha.
  - destruct (is_set (DI_ENDPOINT environ)); [|now intros []].
    destruct (is_set (DI_KEY environ)); [|now intros []]. simpl.
    destruct (make_client _ _) as [e|client] eqn:Hc; [now intros []|].
    destruct (files request) as [|f rest] eqn:Hf; [now intros []|].
    destruct (b64decode f) as [e|file_data] eqn:Hd; [now intros []|].
    unfold provider_outcome, model_of.
    destruct (analyze client _ file_data) as [e|result] eqn:Ha; [now intros []|].
    destruct (Complete.Sdk.documents result) as [docs|] eqn:Hr; [|now intros []].
    intros _. exists f, rest, file_data, client, result, docs.
    repeat split; try reflexivity; try assumption.
    simpl. f_equal. apply complete_any_world.
Qed.

(** X20.  [analyze_document] of [document_analysis_complete.py] leaves
    no temporary file: after the handler, whatever the outcome, there is
    no file at the temporary path once a file was written there, and
    every other file of the disk is as it was. *)
Theorem no_temporary_file_is_left
    (environ : Environ) (request : DocumentAnalysisRequest) (d : disk) (w : world) :
  let after := snd (value (run environ request d) w) in
  (after = d \/ sget (temp_name d) after = None)
  /\ forall path, path <> temp_name d -> sget path after = sget path d.
Proof.
  intros after. subst after. unfold run. rewrite value_complete_handler. unfold outcome.
  assert (Hsame : forall r : raised E + Reply,
            snd (match (r, d) with
                 | (inl _, d') => (_get_mock_response, d')
                 | (inr reply, d') => (reply, d')
                 end) = d) by (intros [e|r]; reflexivity).
  destruct (negb (is_set (DI_ENDPOINT environ)) || negb (is_set (DI_KEY environ)));
    [split; [now left|reflexivity]|].
  destruct (make_client _ _) as [e|client]; [split; [now left|reflexivity]|].
  destruct (files request) as [|f rest]; [split; [now left|reflexivity]|].
  destruct (b64decode f) as [e|file_data]; [split; [now left|reflexivity]|].
  destruct (cleaned_disk (temp_name d) file_data d) as [Hnone Hother].
  destruct (provider_outcome E Client analyze client (model_of environ) file_data);
    simpl; (split; [now right|exact Hother]).
Qed.

End Props.
End CompleteApiProps.

(** A provider that answers without documents, as it does for a layout
    model, and one that answers with an empty list. *)
Definition without_documents (client : unit) (model data : string)
  : unit + Complete.Sdk.AnalyzeResult := inr (complete_bare (PStr model)).

Definition complete_example_run : Http.Environ -> Http.DocumentAnalysisRequest
                                  -> CompleteApi.disk -> Env.M (Http.Reply * CompleteApi.disk) :=
  CompleteApiProps.run unit unit echo_decode any_client without_documents plain_str
    (fun _ => "/tmp/tmp0.pdf").

(** A decoder that rejects every file. *)
Definition no_decode (s : string) : unit + string := inl tt.

(** The mock data are the answer when the provider gives no documents
    and when the file does not decode. *)
Lemma mock_unless_the_provider_answers_witness :
  fst (Env.value (complete_example_run some_credentials one_file []) Env.idle)
  = CompleteApi._get_mock_response
  /\ fst (Env.value
            (CompleteApiProps.run unit unit no_decode any_client without_documents
               plain_str (fun _ => "/tmp/tmp0.pdf") some_credentials one_file [])
            Env.idle)
     = CompleteApi._get_mock_response.
Proof.
  split.
  - apply (proj1 (proj1 (proj2 (proj2 (proj2
             (CompleteApiProps.mock_unless_the_provider_answers unit unit echo_decode
                any_client without_documents plain_str (fun _ => "/tmp/tmp0.pdf")
                some_credentials one_file [] Env.idle))))
             "data:application/pdf;base64,AAAA" [] "data:application/pdf;base64,AAAA" tt
             (complete_bare (PStr "prebuilt-layout"))
             eq_refl eq_refl eq_refl eq_refl eq_refl)).
    reflexivity.
  - apply (proj1 (proj2 (proj2 (proj2 (proj2 (proj2
             (CompleteApiProps.mock_unless_the_provider_answers unit unit no_decode
                any_client without_documents plain_str (fun _ => "/tmp/tmp0.pdf")
                some_credentials one_file [] Env.idle))))))
             "data:application/pdf;base64,AAAA" [] tt eq_refl eq_refl).
Defined.

Lemma no_temporary_file_is_left_witness :
  sget "/home/report.pdf"
    (snd (Env.value (complete_example_run some_credentials one_file
                       [("/home/report.pdf", "kept")]) Env.idle))
  = Some "kept".
Proof.
  apply (proj2 (CompleteApiProps.no_temporary_file_is_left unit unit echo_decode
                  any_client without_documents plain_str (fun _ => "/tmp/tmp0.pdf")
                  some_credentials one_file [("/home/report.pdf", "kept")] Env.idle)
           "/home/report.pdf").
  discriminate.
Defined.

(** ** The order of the tests on a label *)

Module Labels.
Import Py.

Lemma contains_unfold p s :
  contains p s
  = String.prefix p s
    || match s with EmptyString => false | String _ r => contains p r end.
Proof. destruct s; reflexivity. Qed.

Lemma prefix_gives_suffix a : forall b s,
  String.prefix (a ++ b) s = true -> contains b s = true.
Proof.
  induction a as [|c a IH]; intros b s H.
  - rewrite contains_unfold. simpl in H. now rewrite H.
  - destruct s as [|c' r]; [discriminate H|].
    simpl in H. destruct (ascii_dec c c'); [|discriminate H].
    rewrite contains_unfold. rewrite (IH b r H). apply orb_true_r.
Qed.

(** A text that contains [a ++ b] contains [b]. *)
Lemma contains_suffix a b s : contains (a ++ b) s = true -> contains b s = true.
Proof.
  induction s as [|c r IH]; intros H; rewrite contains_unfold in H.
  - apply orb_prop in H as [H|H]; [|discriminate]. now apply (prefix_gives_suffix a).
  - apply orb_prop in H as [H|H]; [now apply (prefix_gives_suffix a)|].
    rewrite contains_unfold, (IH H). apply orb_true_r.
Qed.

End Labels.

(** X21.  In [_extract_pnl_from_tables] the test for revenue comes
    first and looks for [sales]: a row whose label contains
    [cost of sales], and not [net], is recorded as [pnl_total_revenue];
    it is recorded as [pnl_cost_of_goods_sold] only when the label also
    contains [net]. *)
Theorem cost_of_sales_is_revenue
    (fields : sdict Complete.ExtractedField) (row : Z) (row_data : zdict string)
    (label : string) (v : float) :
  zget 0 row_data = Some label ->
  Complete.row_value row_data = Some v ->
  contains "cost of sales" (lower label) = true ->
  Complete.row_step fields (row, row_data)
  = sset (if contains "net" (lower label)
          then "pnl_cost_of_goods_sold" else "pnl_total_revenue")
         (Complete.currency_field v) fields.
Proof.
  intros Hl Hv Hc.
  pose proof (Labels.contains_suffix "cost of " "sales" (lower label) Hc) as Hs.
  unfold Complete.row_step, Complete.row_entry. cbn [snd]. rewrite Hl, Hv.
  unfold Complete.pnl_key, any_in. cbn [existsb]. rewrite Hs, Hc, !orb_true_r.
  now destruct (contains "net" (lower label)).
Qed.

Lemma cost_of_sales_is_revenue_witness :
  Complete.row_step [] (1, [(0, "Cost of Sales"); (1, "$40,000")])
  = sset "pnl_total_revenue" (Complete.currency_field (float_of_int 40000)) [].
Proof.
  apply (cost_of_sales_is_revenue [] 1 [(0, "Cost of Sales"); (1, "$40,000")]
           "Cost of Sales" (float_of_int 40000)).
  - reflexivity.
  - vm_compute. reflexivity.
  - vm_compute. reflexivity.
Defined.
